(** * XIVE interrupt controller: a shallow embedding of hw/ppc/pnv.c

    The development follows the XIVE part of [hw/ppc/pnv.c]: the thread
    interrupt management context (TCTX) and its TIMA views, the ESB state
    machine, the event queue descriptors, the router and the presenter.

    Conventions.
    - A C integer of width w is a [Z]; every store into a narrower object
      is written out with [u8], [u32] or [u64].
    - An in/out pointer argument ([uint8_t *pq], [XiveEQ *eq]) becomes an
      argument and a component of the result.
    - [g_assert_not_reached ()] is the [AssertFail] outcome of [Res].
    - [qemu_log_mask (LOG_GUEST_ERROR, ...)] appends a [LogMsg]. *)

From Stdlib Require Import ZArith Lia Bool List.
From stdpp Require Import base option list gmap.
From coqutil Require Import Z.bitblast.
From Equations Require Import Equations.

Local Open Scope Z_scope.

(** ** Machine integers *)

Definition u8 (x : Z) : Z := x mod 2 ^ 8.
Definition u32 (x : Z) : Z := x mod 2 ^ 32.
Definition u64 (x : Z) : Z := x mod 2 ^ 64.

(** [(uint64_t) -1], the value an invalid load returns. *)
Definition minus_one_u64 : Z := u64 (-1).

(** ** Outcome of a call: a value, or a failed assertion *)

Inductive Res (A : Type) : Type :=
| Done (a : A)
| AssertFail.
Arguments Done {A} a.
Arguments AssertFail {A}.

#[global] Instance Res_ret : MRet Res := fun A a => Done a.
#[global] Instance Res_bind : MBind Res := fun A B k r =>
  match r with
  | Done a => k a
  | AssertFail => AssertFail
  end.

(** ** Constants of the register layout

    Modelled from the spec: the headers [hw/ppc/xive.h] and
    [hw/ppc/xive_regs.h] that declare these constants are not among the
    sources.  The ESB encodings are those of the data model
    (RESET 00, OFF 01, PENDING 10, QUEUED 11); the ring order and the
    order of the bytes of a ring are those the data model lists
    (four rings of 16 bytes; NSR, CPPR, IPB, LSMFB, ACK_CNT, INC, AGE,
    PIPR, then WORD2); the highest priority number and the NSR exception
    bit are those of the literal scenarios (priority 4 is IPB 0x08, the
    raised NSR reads 0x80). *)

Definition XIVE_ESB_RESET : Z := 0.
Definition XIVE_ESB_OFF : Z := 1.
Definition XIVE_ESB_PENDING : Z := 2.
Definition XIVE_ESB_QUEUED : Z := 3.

Definition XIVE_PRIORITY_MAX : Z := 7.

Definition TM_QW0_USER : Z := 0x00.
Definition TM_QW1_OS : Z := 0x10.
Definition TM_QW2_HV_POOL : Z := 0x20.
Definition TM_QW3_HV_PHYS : Z := 0x30.

Definition TM_NSR : Z := 0.
Definition TM_CPPR : Z := 1.
Definition TM_IPB : Z := 2.
Definition TM_LSMFB : Z := 3.
Definition TM_ACK_CNT : Z := 4.
Definition TM_INC : Z := 5.
Definition TM_AGE : Z := 6.
Definition TM_PIPR : Z := 7.
Definition TM_WORD2 : Z := 8.

Definition TM_QW1_NSR_EO : Z := 0x80.

(** ** ESB helpers *)

Module ESB.

(** [xive_esb_set]: the result is [(old_pq, *pq)]. *)
Definition xive_esb_set (pq value : Z) : Z * Z :=
  let old_pq := Z.land pq 0x3 in
  let pq := u8 (Z.land pq (Z.lnot 0x3)) in
  let pq := u8 (Z.lor pq (Z.land value 0x3)) in
  (old_pq, pq).

(** [xive_esb_trigger]: the result is [(forward, *pq)]. *)
Definition xive_esb_trigger (pq : Z) : Res (bool * Z) :=
  let old_pq := Z.land pq 0x3 in
  if old_pq =? XIVE_ESB_RESET then
    Done (true, snd (xive_esb_set pq XIVE_ESB_PENDING))
  else if (old_pq =? XIVE_ESB_PENDING) || (old_pq =? XIVE_ESB_QUEUED) then
    Done (false, snd (xive_esb_set pq XIVE_ESB_QUEUED))
  else if old_pq =? XIVE_ESB_OFF then
    Done (false, snd (xive_esb_set pq XIVE_ESB_OFF))
  else AssertFail.

(** [xive_esb_eoi]: the result is [(forward, *pq)]. *)
Definition xive_esb_eoi (pq : Z) : Res (bool * Z) :=
  let old_pq := Z.land pq 0x3 in
  if (old_pq =? XIVE_ESB_RESET) || (old_pq =? XIVE_ESB_PENDING) then
    Done (false, snd (xive_esb_set pq XIVE_ESB_RESET))
  else if old_pq =? XIVE_ESB_QUEUED then
    Done (true, snd (xive_esb_set pq XIVE_ESB_PENDING))
  else if old_pq =? XIVE_ESB_OFF then
    Done (false, snd (xive_esb_set pq XIVE_ESB_OFF))
  else AssertFail.

(** The states of the two PQ bits, and their encoding. *)
Inductive esb_state : Type := RESET | OFF | PENDING | QUEUED.

Definition esb_code (s : esb_state) : Z :=
  match s with
  | RESET => XIVE_ESB_RESET
  | OFF => XIVE_ESB_OFF
  | PENDING => XIVE_ESB_PENDING
  | QUEUED => XIVE_ESB_QUEUED
  end.

(** A status byte whose PQ bits are replaced by the code of [s]. *)
Definition with_state (pq : Z) (s : esb_state) : Z :=
  Z.lor (Z.land pq 0xfc) (esb_code s).

(** trigger, eoi, eoi, trigger on one status byte, each call seeing the
    byte the previous one left, with nothing in between. *)
Definition trigger_eoi_eoi_trigger (pq : Z) : Res Z :=
  '(_, pq) ← xive_esb_trigger pq;
  '(_, pq) ← xive_esb_eoi pq;
  '(_, pq) ← xive_esb_eoi pq;
  '(_, pq) ← xive_esb_trigger pq;
  mret pq.

End ESB.

(** ** Thread interrupt management context *)

(** The messages of [qemu_log_mask (LOG_GUEST_ERROR, ...)], one
    constructor per format string, with the values it prints. *)
Inductive LogMsg : Type :=
| Log_tima_invalid_write (offset : Z)
| Log_tima_invalid_read (offset : Z)
| Log_eq_write_failed (qaddr : Z)
| Log_no_eq (eq_blk eq_idx : Z)
| Log_eq_invalid (eq_blk eq_idx : Z)
| Log_no_vp (vp_blk vp_idx : Z)
| Log_vp_invalid (vp_blk vp_idx : Z)
| Log_no_ls_support (vp_blk vp_idx : Z)
| Log_already_found (vp_blk vp_idx : Z)
| Log_not_dispatched (vp_blk vp_idx : Z).

(** [regs[i]] and [regs[i] = v] on a byte array.  Reading past the end
    gives the default of the total lookup (1 for [Z]) and writing past the
    end does nothing; in C both are undefined, and the statements below
    keep every index in range where the value matters. *)
Definition reg_get (regs : list Z) (i : Z) : Z := regs !!! Z.to_nat i.
Definition reg_set (regs : list Z) (i : Z) (v : Z) : list Z :=
  <[Z.to_nat i := u8 v]> regs.

Definition priority_to_ipb (priority : Z) : Z :=
  if XIVE_PRIORITY_MAX <? priority then 0
  else u8 (Z.shiftl 1 (XIVE_PRIORITY_MAX - priority)).

(** [clz32] of qemu/host-utils.h: the number of leading zero bits of a
    32-bit value, 32 for 0. *)
Definition clz32 (val : Z) : Z :=
  if val =? 0 then 32 else 31 - Z.log2 val.

Definition ipb_to_pipr (ibp : Z) : Z :=
  if ibp =? 0 then 0xff else u8 (clz32 (u32 (Z.shiftl ibp 24))).

(** [ipb_update (regs, priority)] where the pointer [regs] is the byte at
    index [base] of the array [a]. *)
Definition ipb_update (a : list Z) (base : Z) (priority : Z) : list Z :=
  let a := reg_set a (base + TM_IPB)
             (Z.lor (reg_get a (base + TM_IPB)) (priority_to_ipb priority)) in
  reg_set a (base + TM_PIPR) (ipb_to_pipr (reg_get a (base + TM_IPB))).

Definition exception_mask (ring : Z) : Res Z :=
  if ring =? TM_QW1_OS then Done TM_QW1_NSR_EO else AssertFail.

(** The context of one CPU: the 64 register bytes, the level of the
    output line [tctx->output], and what the model reads of the CPU
    [tctx->cs]: the default value of its PIR, its [vcpu_id] and
    [msr_hv]. *)
Record XiveTCTX : Type := mkTCTX {
  regs : list Z;
  output : bool;
  cpu_pir : Z;
  cpu_vcpu_id : Z;
  cpu_msr_hv : bool
}.

Definition set_regs (tctx : XiveTCTX) (r : list Z) : XiveTCTX :=
  mkTCTX r (output tctx) (cpu_pir tctx) (cpu_vcpu_id tctx) (cpu_msr_hv tctx).
Definition set_output (tctx : XiveTCTX) (lvl : bool) : XiveTCTX :=
  mkTCTX (regs tctx) lvl (cpu_pir tctx) (cpu_vcpu_id tctx) (cpu_msr_hv tctx).

(** [qemu_irq_lower] and [qemu_irq_raise] on the output line. *)
Definition qemu_irq_lower (tctx : XiveTCTX) : XiveTCTX := set_output tctx false.
Definition qemu_irq_raise (tctx : XiveTCTX) : XiveTCTX := set_output tctx true.

(** The register bytes [xive_tctx_accept] leaves when the exception bit
    is set: the body of its [if]. *)
Definition accept_regs (r : list Z) (ring mask : Z) : list Z :=
  let cppr := reg_get r (ring + TM_PIPR) in
  let r := reg_set r (ring + TM_CPPR) cppr in
  let r := reg_set r (ring + TM_IPB)
             (Z.land (reg_get r (ring + TM_IPB)) (Z.lnot (priority_to_ipb cppr))) in
  let r := reg_set r (ring + TM_PIPR) (ipb_to_pipr (reg_get r (ring + TM_IPB))) in
  reg_set r (ring + TM_NSR) (Z.land (reg_get r (ring + TM_NSR)) (Z.lnot mask)).

Definition xive_tctx_accept (tctx : XiveTCTX) (ring : Z) : Res (Z * XiveTCTX) :=
  let nsr := reg_get (regs tctx) (ring + TM_NSR) in
  mask ← exception_mask ring;
  let tctx := qemu_irq_lower tctx in
  let tctx :=
    if Z.land (reg_get (regs tctx) (ring + TM_NSR)) mask =? 0 then tctx
    else set_regs tctx (accept_regs (regs tctx) ring mask) in
  mret (u64 (Z.lor (Z.shiftl nsr 8) (reg_get (regs tctx) (ring + TM_CPPR))), tctx).

Definition xive_tctx_notify (tctx : XiveTCTX) (ring : Z) : Res XiveTCTX :=
  if reg_get (regs tctx) (ring + TM_PIPR) <? reg_get (regs tctx) (ring + TM_CPPR) then
    mask ← exception_mask ring;
    let nsr := reg_get (regs tctx) (ring + TM_NSR) in
    mret (qemu_irq_raise
            (set_regs tctx (reg_set (regs tctx) (ring + TM_NSR) (Z.lor nsr mask))))
  else mret tctx.

Definition xive_tctx_set_cppr (tctx : XiveTCTX) (ring cppr : Z) : Res XiveTCTX :=
  let cppr := if XIVE_PRIORITY_MAX <? cppr then 0xff else cppr in
  let tctx := set_regs tctx (reg_set (regs tctx) (ring + TM_CPPR) cppr) in
  xive_tctx_notify tctx ring.

(** ** Thread interrupt management area (TIMA) *)

Definition XIVE_TM_HW_PAGE : Z := 0x0.
Definition XIVE_TM_HV_PAGE : Z := 0x1.
Definition XIVE_TM_OS_PAGE : Z := 0x2.
Definition XIVE_TM_USER_PAGE : Z := 0x3.

(** Access maps, one byte per register: 0 no access, 1 write only,
    2 read only, 3 read/write. *)
Definition xive_tm_hw_view : list Z :=
  [ 3; 0; 0; 0;   0; 0; 0; 0;   3; 3; 3; 3;   0; 0; 0; 0;
    3; 3; 3; 3;   3; 3; 0; 3;   3; 3; 3; 3;   0; 0; 0; 0;
    0; 0; 3; 3;   0; 0; 0; 0;   3; 3; 3; 3;   0; 0; 0; 0;
    3; 3; 3; 3;   0; 3; 0; 3;   3; 0; 0; 3;   3; 3; 3; 0 ].

Definition xive_tm_hv_view : list Z :=
  [ 3; 0; 0; 0;   0; 0; 0; 0;   3; 3; 3; 3;   0; 0; 0; 0;
    3; 3; 3; 3;   3; 3; 0; 3;   3; 3; 3; 3;   0; 0; 0; 0;
    0; 0; 3; 3;   0; 0; 0; 0;   0; 3; 3; 3;   0; 0; 0; 0;
    3; 3; 3; 3;   0; 3; 0; 3;   3; 0; 0; 3;   0; 0; 0; 0 ].

Definition xive_tm_os_view : list Z :=
  [ 3; 0; 0; 0;   0; 0; 0; 0;   3; 3; 3; 3;   0; 0; 0; 0;
    2; 3; 2; 2;   2; 2; 0; 2;   0; 0; 0; 0;   0; 0; 0; 0;
    0; 0; 0; 0;   0; 0; 0; 0;   0; 0; 0; 0;   0; 0; 0; 0;
    0; 0; 0; 0;   0; 0; 0; 0;   0; 0; 0; 0;   0; 3; 3; 0 ].

Definition xive_tm_user_view : list Z :=
  [ 3; 0; 0; 0;   0; 0; 0; 0;   0; 0; 0; 0;   0; 0; 0; 0;
    0; 0; 0; 0;   0; 0; 0; 0;   0; 0; 0; 0;   0; 0; 0; 0;
    0; 0; 0; 0;   0; 0; 0; 0;   0; 0; 0; 0;   0; 0; 0; 0;
    0; 0; 0; 0;   0; 0; 0; 0;   0; 0; 0; 0;   0; 0; 0; 0 ].

Definition xive_tm_views : list (list Z) :=
  [ xive_tm_hw_view; xive_tm_hv_view; xive_tm_os_view; xive_tm_user_view ].

(** [xive_tm_views[page_offset][i]] *)
Definition view_get (page_offset i : Z) : Z :=
  reg_get (xive_tm_views !!! Z.to_nat page_offset) i.

(** Offsets of the special operations.  Modelled from the spec: they are
    declared in [hw/ppc/xive_regs.h]; the spec fixes only that they lie in
    the special region (bit 11 set), and the values are those of the
    POWER9 TIMA layout. *)
Definition TM_SPC_ACK_OS_REG : Z := 0x810.
Definition TM_SPC_SET_OS_PENDING : Z := 0x812.

Definition xive_tm_ack_os_reg (tctx : XiveTCTX) (offset size : Z)
  : Res (Z * XiveTCTX) :=
  xive_tctx_accept tctx TM_QW1_OS.

Definition xive_tm_set_os_cppr (tctx : XiveTCTX) (offset value size : Z)
  : Res XiveTCTX :=
  xive_tctx_set_cppr tctx TM_QW1_OS (Z.land value 0xff).

Definition xive_tm_set_os_pending (tctx : XiveTCTX) (offset value size : Z)
  : Res XiveTCTX :=
  let tctx := set_regs tctx (ipb_update (regs tctx) TM_QW1_OS (Z.land value 0xff)) in
  xive_tctx_notify tctx TM_QW1_OS.

(** One entry of the table of special operations; a NULL handler is
    [None]. *)
Record XiveTmOp : Type := mkTmOp {
  page_offset : Z;
  op_offset : Z;
  op_size : Z;
  write_handler : option (XiveTCTX -> Z -> Z -> Z -> Res XiveTCTX);
  read_handler : option (XiveTCTX -> Z -> Z -> Res (Z * XiveTCTX))
}.

(** The entries of [xive_tm_operations], named: the one below 2K and the
    two above 2K. *)
Definition tm_op_set_os_cppr : XiveTmOp :=
  mkTmOp XIVE_TM_OS_PAGE (TM_QW1_OS + TM_CPPR) 1 (Some xive_tm_set_os_cppr) None.
Definition tm_op_ack_os_reg : XiveTmOp :=
  mkTmOp XIVE_TM_OS_PAGE TM_SPC_ACK_OS_REG 2 None (Some xive_tm_ack_os_reg).
Definition tm_op_set_os_pending : XiveTmOp :=
  mkTmOp XIVE_TM_OS_PAGE TM_SPC_SET_OS_PENDING 1 (Some xive_tm_set_os_pending) None.

Definition xive_tm_operations : list XiveTmOp :=
  [ tm_op_set_os_cppr; tm_op_ack_os_reg; tm_op_set_os_pending ].

(** A handler that is not NULL. *)
Definition has_handler {A : Type} (h : option A) : bool :=
  match h with Some _ => true | None => false end.

Section TIMA.

(** The shift of a TIMA page, [TM_SHIFT] of [hw/ppc/xive.h], which is not
    among the sources: the definitions take it as a parameter. *)
Variable TM_SHIFT : Z.

Definition xive_tm_mask (offset size : Z) (write : bool) : Z :=
  let page_offset := Z.land (Z.shiftr offset TM_SHIFT) 0x3 in
  let reg_offset := Z.land offset 0x3F in
  let reg_mask := if write then 0x1 else 0x2 in
  foldl (fun mask i =>
           if Z.land (view_get page_offset (reg_offset + i)) reg_mask =? 0
           then mask
           else Z.lor mask (u64 (Z.shiftl 0xff (8 * (size - i - 1)))))
        0 (seqZ 0 size).

Definition xive_tm_raw_write (tctx : XiveTCTX) (offset value size : Z)
  : XiveTCTX * list LogMsg :=
  let ring_offset := Z.land offset 0x30 in
  let reg_offset := Z.land offset 0x3F in
  let mask := xive_tm_mask offset size true in
  if (size <? 4) || (mask =? 0) || (ring_offset =? TM_QW0_USER) then
    (tctx, [Log_tima_invalid_write offset])
  else
    (set_regs tctx
       (foldl (fun r i =>
                 let byte_mask := u8 (Z.shiftr mask (8 * (size - i - 1))) in
                 if byte_mask =? 0 then r
                 else reg_set r (reg_offset + i)
                        (Z.land (Z.shiftr value (8 * (size - i - 1))) byte_mask))
              (regs tctx) (seqZ 0 size)),
     []).

Definition xive_tm_raw_read (tctx : XiveTCTX) (offset size : Z)
  : Z * list LogMsg :=
  let ring_offset := Z.land offset 0x30 in
  let reg_offset := Z.land offset 0x3F in
  let mask := xive_tm_mask offset size false in
  if (size <? 4) || (mask =? 0) || (ring_offset =? TM_QW0_USER) then
    (minus_one_u64, [Log_tima_invalid_read offset])
  else
    let ret :=
      foldl (fun ret i =>
               Z.lor ret (u64 (Z.shiftl (reg_get (regs tctx) (reg_offset + i))
                                        (8 * (size - i - 1)))))
            0 (seqZ 0 size) in
    (Z.land ret mask, []).

Definition xive_tm_find_op (offset size : Z) (write : bool) : option XiveTmOp :=
  let page_offset_ := Z.land (Z.shiftr offset TM_SHIFT) 0x3 in
  let op_offset_ := Z.land offset 0xFFF in
  List.find (fun xto =>
               (page_offset_ <=? page_offset xto) &&
               (op_offset xto =? op_offset_) &&
               (op_size xto =? size) &&
               ((write && has_handler (write_handler xto)) ||
                (negb write && has_handler (read_handler xto))))
            xive_tm_operations.

(** [xive_tm_write]: the context of the accessing CPU and the log
    messages.  A call through a NULL handler cannot happen after
    [xive_tm_find_op]; it is [AssertFail] here. *)
Definition xive_tm_write (tctx : XiveTCTX) (offset value size : Z)
  : Res (XiveTCTX * list LogMsg) :=
  if negb (Z.land offset 0x800 =? 0) then
    match xive_tm_find_op offset size true with
    | None => mret (tctx, [Log_tima_invalid_write offset])
    | Some xto =>
        match write_handler xto with
        | Some h => tctx ← h tctx offset value size; mret (tctx, [])
        | None => AssertFail
        end
    end
  else
    match xive_tm_find_op offset size true with
    | Some xto =>
        match write_handler xto with
        | Some h => tctx ← h tctx offset value size; mret (tctx, [])
        | None => AssertFail
        end
    | None => mret (xive_tm_raw_write tctx offset value size)
    end.

(** [xive_tm_read]: the value loaded, the context of the accessing CPU
    and the log messages. *)
Definition xive_tm_read (tctx : XiveTCTX) (offset size : Z)
  : Res (Z * XiveTCTX * list LogMsg) :=
  if negb (Z.land offset 0x800 =? 0) then
    match xive_tm_find_op offset size false with
    | None => mret (minus_one_u64, tctx, [Log_tima_invalid_read offset])
    | Some xto =>
        match read_handler xto with
        | Some h => '(v, tctx) ← h tctx offset size; mret (v, tctx, [])
        | None => AssertFail
        end
    end
  else
    match xive_tm_find_op offset size false with
    | Some xto =>
        match read_handler xto with
        | Some h => '(v, tctx) ← h tctx offset size; mret (v, tctx, [])
        | None => AssertFail
        end
    | None =>
        let '(v, l) := xive_tm_raw_read tctx offset size in
        mret (v, tctx, l)
    end.

End TIMA.

(** ** Reset of a thread context *)

(** [PPC_BIT32] and [PPC_BITMASK32] number bits from the most significant
    one, as the POWER documentation does. *)
Definition PPC_BIT32 (bit : Z) : Z := Z.shiftr 0x80000000 bit.
Definition PPC_BITMASK32 (bs be : Z) : Z :=
  Z.lor (PPC_BIT32 bs - PPC_BIT32 be) (PPC_BIT32 bs).

(** Fields of WORD2 of a ring.  Modelled from the spec: declared in
    [hw/ppc/xive_regs.h]; the valid bit is the top bit of the word and the
    CAM line is held in the low-order bits under it, wide enough for
    [(vp_blk << 19) | vp_idx]. *)
Definition TM_QW0W2_VU : Z := PPC_BIT32 0.
Definition TM_QW0W2_LOGIC_SERV : Z := PPC_BITMASK32 1 31.
Definition TM_QW1W2_VO : Z := PPC_BIT32 0.
Definition TM_QW1W2_OS_CAM : Z := PPC_BITMASK32 8 31.
Definition TM_QW2W2_VP : Z := PPC_BIT32 0.
Definition TM_QW2W2_POOL_CAM : Z := PPC_BITMASK32 8 31.
Definition TM_QW3W2_VT : Z := PPC_BIT32 0.

Definition tctx_hw_cam_line (block_group : bool) (chip_id tid : Z) : Z :=
  if block_group then
    Z.lor (Z.lor (Z.shiftl 1 11) (Z.shiftl (Z.land chip_id 0xf) 7)) (Z.land tid 0x7f)
  else
    Z.lor (Z.lor (Z.shiftl (Z.land chip_id 0xf) 11) (Z.shiftl 1 7)) (Z.land tid 0x7f).

Definition tctx_cam_line (vp_blk vp_idx : Z) : Z :=
  u32 (Z.lor (Z.shiftl vp_blk 19) vp_idx).

Definition xive_tctx_hw_cam (tctx : XiveTCTX) (block_group : bool) : Z :=
  let pir := cpu_pir tctx in
  tctx_hw_cam_line block_group (Z.land (Z.shiftr pir 8) 0xf) (Z.land pir 0x7f).

(** The four bytes a big-endian store of a 32-bit word leaves in memory,
    lowest address first ([cpu_to_be32] followed by a copy of the word),
    and the word a big-endian load makes of four bytes ([be32_to_cpu] of
    the word read). *)
Definition be32_bytes (w : Z) : list Z :=
  [ Z.land (Z.shiftr w 24) 0xff; Z.land (Z.shiftr w 16) 0xff;
    Z.land (Z.shiftr w 8) 0xff; Z.land w 0xff ].

Definition be32_at (a : list Z) (i : Z) : Z :=
  Z.lor (Z.lor (Z.shiftl (reg_get a i) 24) (Z.shiftl (reg_get a (i + 1)) 16))
        (Z.lor (Z.shiftl (reg_get a (i + 2)) 8) (reg_get a (i + 3))).

(** [memcpy (&a[i], bytes, len)] *)
Definition copy_bytes (a : list Z) (i : Z) (bytes : list Z) : list Z :=
  foldl (fun a '(k, b) => reg_set a (i + Z.of_nat k) b) a (imap pair bytes).

(** [xive_tctx_reset]; [chip_id] is [tctx->xrtr->chip_id]. *)
Definition xive_tctx_reset (chip_id : Z) (tctx : XiveTCTX) : XiveTCTX :=
  let r := replicate 64 0 in
  let r := reg_set r (TM_QW1_OS + TM_LSMFB) 0xFF in
  let r := reg_set r (TM_QW1_OS + TM_ACK_CNT) 0xFF in
  let r := reg_set r (TM_QW1_OS + TM_AGE) 0xFF in
  let r := reg_set r (TM_QW1_OS + TM_PIPR)
             (ipb_to_pipr (reg_get r (TM_QW1_OS + TM_IPB))) in
  let r :=
    if negb (cpu_msr_hv tctx) then
      let os_cam := u32 (Z.lor TM_QW1W2_VO
                               (tctx_cam_line (u8 chip_id) (u32 (cpu_vcpu_id tctx)))) in
      copy_bytes r (TM_QW1_OS + TM_WORD2) (be32_bytes os_cam)
    else r in
  set_regs tctx r.

(** ** Descriptors *)

(** [MASK_TO_LSH (m)] is [__builtin_ffsl (m) - 1]: the index of the lowest
    set bit of the mask. *)
Fixpoint pos_ctz (p : positive) : Z :=
  match p with
  | xO q => 1 + pos_ctz q
  | _ => 0
  end.

Definition MASK_TO_LSH (m : Z) : Z :=
  match m with
  | Zpos p => pos_ctz p
  | _ => -1
  end.

(** [GETFIELD] and [SETFIELD] on a 32-bit word. *)
Definition GETFIELD (m v : Z) : Z := Z.shiftr (Z.land v m) (MASK_TO_LSH m).
Definition SETFIELD (m v val : Z) : Z :=
  u32 (Z.lor (Z.land v (Z.lnot m)) (Z.land (u32 (Z.shiftl (u32 val) (MASK_TO_LSH m))) m)).

(** Fields of the EQ and VP descriptors.  Modelled from the spec: they are
    declared in [hw/ppc/xive_regs.h].  The data model fixes which word
    holds which field and the widths it names (QSIZE 3 bits, ESn and ESe
    2 bits each, one GENERATION bit); the positions are those of the
    POWER9 descriptor layout, most significant bit first. *)
Definition EQ_W0_VALID : Z := PPC_BIT32 0.
Definition EQ_W0_ENQUEUE : Z := PPC_BIT32 1.
Definition EQ_W0_UCOND_NOTIFY : Z := PPC_BIT32 2.
Definition EQ_W0_QSIZE : Z := PPC_BITMASK32 13 15.
Definition EQ_W1_ESn : Z := PPC_BITMASK32 0 1.
Definition EQ_W1_ESe : Z := PPC_BITMASK32 2 3.
Definition EQ_W1_GENERATION : Z := PPC_BIT32 9.
Definition EQ_W1_PAGE_OFF : Z := PPC_BITMASK32 10 31.
Definition EQ_W6_FORMAT_BIT : Z := PPC_BIT32 8.
Definition EQ_W6_NVT_BLOCK : Z := PPC_BITMASK32 9 12.
Definition EQ_W6_NVT_INDEX : Z := PPC_BITMASK32 13 31.
Definition EQ_W7_F0_IGNORE : Z := PPC_BIT32 0.
Definition EQ_W7_F0_PRIORITY : Z := PPC_BITMASK32 8 15.
Definition EQ_W7_F1_LOG_SERVER_ID : Z := PPC_BITMASK32 1 31.
Definition VP_W0_VALID : Z := PPC_BIT32 0.

Record XiveEQ : Type := mkEQ {
  w0 : Z; w1 : Z; w2 : Z; w3 : Z; w4 : Z; w5 : Z; w6 : Z; w7 : Z
}.

Definition set_w1 (eq : XiveEQ) (v : Z) : XiveEQ :=
  mkEQ (w0 eq) v (w2 eq) (w3 eq) (w4 eq) (w5 eq) (w6 eq) (w7 eq).

(** The VP descriptor: its word [w0], and the bytes of the structure from
    [w4] on, which is how [ipb_update ((uint8_t * ) &vp.w4, ...)] sees
    them (eight bytes: the words [w4] and [w5]). *)
Record XiveVP : Type := mkVP {
  vp_w0 : Z;
  vp_w4 : list Z
}.

(** ** Guest memory and the tables of the router *)

(** Modelled from the spec: the DMA write channel into guest memory is an
    external collaborator.  Guest RAM is a finite map from addresses to
    bytes; a write that leaves it fails and writes nothing.  [None] is the
    non-zero (error) result of [dma_memory_write]. *)
Definition dma_memory_write (ram : gmap Z Z) (addr : Z) (buf : list Z)
  : option (gmap Z Z) :=
  if forallb (fun k => bool_decide (is_Some (ram !! (addr + Z.of_nat k))))
             (seq 0 (length buf))
  then Some (foldl (fun m '(k, b) => <[addr + Z.of_nat k := b]> m) ram (imap pair buf))
  else None.

(** [xive_eq_push]: the descriptor, guest memory and the log after the
    call. *)
Definition xive_eq_push (eq : XiveEQ) (data : Z) (ram : gmap Z Z)
  : XiveEQ * gmap Z Z * list LogMsg :=
  let qaddr_base := Z.lor (Z.shiftl (Z.land (w2 eq) 0x0fffffff) 32) (w3 eq) in
  let qsize := GETFIELD EQ_W0_QSIZE (w0 eq) in
  let qindex := GETFIELD EQ_W1_PAGE_OFF (w1 eq) in
  let qgen := GETFIELD EQ_W1_GENERATION (w1 eq) in
  let qaddr := u64 (qaddr_base + u32 (Z.shiftl qindex 2)) in
  let qdata := u32 (Z.lor (u32 (Z.shiftl qgen 31)) (Z.land data 0x7fffffff)) in
  let qentries := u32 (Z.shiftl 1 (qsize + 10)) in
  match dma_memory_write ram qaddr (be32_bytes qdata) with
  | None => (eq, ram, [Log_eq_write_failed qaddr])
  | Some ram =>
      let qindex := u32 (qindex + 1) mod qentries in
      let eq :=
        if qindex =? 0
        then set_w1 eq (SETFIELD EQ_W1_GENERATION (w1 eq) (Z.lxor qgen 1))
        else eq in
      (set_w1 eq (SETFIELD EQ_W1_PAGE_OFF (w1 eq) qindex), ram, [])
  end.

(** The machine: the router with its chip id and its tables, the thread
    contexts of the CPUs in the order [CPU_FOREACH] visits them, guest
    RAM, and the log.

    Modelled from the spec: the concrete router that supplies [get_eq],
    [set_eq], [get_vp] and [set_vp] is not among the sources; the tables
    are kept in memory, indexed by block and index, a lookup of an entry
    that is not there is the non-zero (error) result. *)
Record XiveMachine : Type := mkMachine {
  chip_id : Z;
  eq_table : gmap (Z * Z) XiveEQ;
  vp_table : gmap (Z * Z) XiveVP;
  cpus : list XiveTCTX;
  ram : gmap Z Z;
  log : list LogMsg
}.

Definition xive_router_get_eq (m : XiveMachine) (eq_blk eq_idx : Z) : option XiveEQ :=
  eq_table m !! (eq_blk, eq_idx).

Definition xive_router_set_eq (m : XiveMachine) (eq_blk eq_idx : Z) (eq : XiveEQ)
  : XiveMachine :=
  mkMachine (chip_id m) (<[(eq_blk, eq_idx) := eq]> (eq_table m)) (vp_table m)
            (cpus m) (ram m) (log m).

Definition xive_router_get_vp (m : XiveMachine) (vp_blk vp_idx : Z) : option XiveVP :=
  vp_table m !! (vp_blk, vp_idx).

Definition xive_router_set_vp (m : XiveMachine) (vp_blk vp_idx : Z) (vp : XiveVP)
  : XiveMachine :=
  mkMachine (chip_id m) (eq_table m) (<[(vp_blk, vp_idx) := vp]> (vp_table m))
            (cpus m) (ram m) (log m).

Definition set_cpus (m : XiveMachine) (cs : list XiveTCTX) : XiveMachine :=
  mkMachine (chip_id m) (eq_table m) (vp_table m) cs (ram m) (log m).
Definition set_ram (m : XiveMachine) (r : gmap Z Z) : XiveMachine :=
  mkMachine (chip_id m) (eq_table m) (vp_table m) (cpus m) r (log m).
Definition add_log (m : XiveMachine) (l : list LogMsg) : XiveMachine :=
  mkMachine (chip_id m) (eq_table m) (vp_table m) (cpus m) (ram m) (log m ++ l).

(** ** Presenter *)

Definition xive_tctx_ring_match (tctx : XiveTCTX) (ring vp_blk vp_idx : Z)
    (cam_ignore : bool) (logic_serv : Z) : Res bool :=
  let w2 := be32_at (regs tctx) (ring + TM_WORD2) in
  let cam := tctx_cam_line vp_blk vp_idx in
  let block_group := false in
  if ring =? TM_QW3_HV_PHYS then
    mret (negb (Z.land w2 TM_QW3W2_VT =? 0) &&
          (xive_tctx_hw_cam tctx block_group =?
           tctx_hw_cam_line block_group vp_blk (u8 vp_idx)))
  else if ring =? TM_QW2_HV_POOL then
    mret (negb (Z.land w2 TM_QW2W2_VP =? 0) &&
          (cam =? GETFIELD TM_QW2W2_POOL_CAM w2))
  else if ring =? TM_QW1_OS then
    mret (negb (Z.land w2 TM_QW1W2_VO =? 0) &&
          (cam =? GETFIELD TM_QW1W2_OS_CAM w2))
  else if ring =? TM_QW0_USER then
    mret (negb (Z.land w2 TM_QW1W2_VO =? 0) &&
          (cam =? GETFIELD TM_QW1W2_OS_CAM w2) &&
          negb (Z.land w2 TM_QW0W2_VU =? 0) &&
          (logic_serv =? GETFIELD TM_QW0W2_LOGIC_SERV w2))
  else AssertFail.

(** [xive_presenter_tctx_match]: the ring that matches, or -1, and the
    log messages. *)
Definition xive_presenter_tctx_match (tctx : XiveTCTX) (format vp_blk vp_idx : Z)
    (cam_ignore : bool) (logic_serv : Z) : Res (Z * list LogMsg) :=
  if format =? 0 then
    if cam_ignore then mret (-1, [Log_no_ls_support vp_blk vp_idx])
    else
      hw ← xive_tctx_ring_match tctx TM_QW3_HV_PHYS vp_blk vp_idx false 0;
      if hw : bool then mret (TM_QW3_HV_PHYS, [])
      else
        pool ← xive_tctx_ring_match tctx TM_QW2_HV_POOL vp_blk vp_idx false 0;
        if pool : bool then mret (TM_QW2_HV_POOL, [])
        else
          os ← xive_tctx_ring_match tctx TM_QW1_OS vp_blk vp_idx false 0;
          if os : bool then mret (TM_QW1_OS, []) else mret (-1, [])
  else
    user ← xive_tctx_ring_match tctx TM_QW0_USER vp_blk vp_idx false logic_serv;
    if user : bool then mret (TM_QW0_USER, []) else mret (-1, []).

(** [XiveTCTXMatch]: the pointer [tctx] is the position of the context in
    the list of CPUs, NULL is [None]. *)
Record XiveTCTXMatch : Type := mkMatch {
  match_tctx : option nat;
  match_ring : Z
}.

(** The [CPU_FOREACH] loop of [xive_presenter_match] over the CPUs [cs],
    the first of which has position [i].  The first component of the
    result is [Some b] when the loop left the function with [return b],
    and [None] when it ran to its end. *)
Fixpoint presenter_match_foreach (cs : list XiveTCTX) (i : nat)
    (format vp_blk vp_idx : Z) (cam_ignore : bool) (logic_serv : Z)
    (mt : XiveTCTXMatch) (l : list LogMsg)
  : Res (option bool * XiveTCTXMatch * list LogMsg) :=
  match cs with
  | [] => mret (None, mt, l)
  | tctx :: cs =>
      '(ring, l') ← xive_presenter_tctx_match tctx format vp_blk vp_idx
                      cam_ignore logic_serv;
      let l := l ++ l' in
      if ring =? -1 then
        presenter_match_foreach cs (S i) format vp_blk vp_idx cam_ignore
          logic_serv mt l
      else
        match match_tctx mt with
        | Some _ => mret (Some false, mt, l ++ [Log_already_found vp_blk vp_idx])
        | None =>
            presenter_match_foreach cs (S i) format vp_blk vp_idx cam_ignore
              logic_serv (mkMatch (Some i) (u8 ring)) l
        end
  end.

Definition xive_presenter_match (cs : list XiveTCTX) (format vp_blk vp_idx : Z)
    (cam_ignore : bool) (priority logic_serv : Z) (mt : XiveTCTXMatch)
  : Res (bool * XiveTCTXMatch * list LogMsg) :=
  '(ret, mt, l) ← presenter_match_foreach cs 0 format vp_blk vp_idx cam_ignore
                    logic_serv mt [];
  match ret with
  | Some b => mret (b, mt, l)
  | None =>
      match match_tctx mt with
      | None => mret (false, mt, l ++ [Log_not_dispatched vp_blk vp_idx])
      | Some _ => mret (true, mt, l)
      end
  end.

(** Lines 2379-2380 of [xive_presenter_notify]: what the presenter does to
    the context it found. *)
Definition presenter_deliver (tctx : XiveTCTX) (ring priority : Z) : Res XiveTCTX :=
  xive_tctx_notify (set_regs tctx (ipb_update (regs tctx) ring priority)) ring.

(** [xive_presenter_notify].  A found match always names a CPU of the
    list; following a pointer that does not is [AssertFail]. *)
Definition xive_presenter_notify (m : XiveMachine) (format vp_blk vp_idx : Z)
    (cam_ignore : bool) (priority logic_serv : Z) : Res XiveMachine :=
  match xive_router_get_vp m vp_blk vp_idx with
  | None => mret (add_log m [Log_no_vp vp_blk vp_idx])
  | Some vp =>
      if Z.land (vp_w0 vp) VP_W0_VALID =? 0 then
        mret (add_log m [Log_vp_invalid vp_blk vp_idx])
      else
        '(found, mt, l) ← xive_presenter_match (cpus m) format vp_blk vp_idx
                            cam_ignore priority logic_serv (mkMatch None 0);
        let m := add_log m l in
        if found : bool then
          match match_tctx mt ≫= fun i => (fun t => (i, t)) <$> cpus m !! i with
          | Some (i, tctx) =>
              tctx ← presenter_deliver tctx (match_ring mt) priority;
              mret (set_cpus m (<[i := tctx]> (cpus m)))
          | None => AssertFail
          end
        else
          let vp := mkVP (vp_w0 vp) (ipb_update (vp_w4 vp) 0 priority) in
          mret (xive_router_set_vp m vp_blk vp_idx vp)
  end.

(** ** Router *)

(** Lines 2419-2422 of [xive_router_eq_notify]: the push into the queue
    and the write-back of the descriptor. *)
Definition eq_notify_enqueue (m : XiveMachine) (eq_blk eq_idx : Z) (eq : XiveEQ)
    (eq_data : Z) : XiveEQ * XiveMachine :=
  if Z.land (w0 eq) EQ_W0_ENQUEUE =? 0 then (eq, m)
  else
    let '(eq, r, l) := xive_eq_push eq eq_data (ram m) in
    (eq, xive_router_set_eq (add_log (set_ram m r) l) eq_blk eq_idx eq).

(** Lines 2444-2457: the ESn check.  The result is [(notify, eq, m)];
    [notify = false] is the [return] of line 2455. *)
Definition eq_notify_esn (m : XiveMachine) (eq_blk eq_idx : Z) (eq : XiveEQ)
  : Res (bool * XiveEQ * XiveMachine) :=
  if Z.land (w0 eq) EQ_W0_UCOND_NOTIFY =? 0 then
    let pq := u8 (GETFIELD EQ_W1_ESn (w1 eq)) in
    '(notify, pq) ← ESB.xive_esb_trigger pq;
    if pq =? GETFIELD EQ_W1_ESn (w1 eq) then mret (notify, eq, m)
    else
      let eq := set_w1 eq (SETFIELD EQ_W1_ESn (w1 eq) pq) in
      mret (notify, eq, xive_router_set_eq m eq_blk eq_idx eq)
  else mret (true, eq, m).

(** Lines 2432-2467: everything after the push. *)
Definition eq_notify_deliver (m : XiveMachine) (eq_blk eq_idx : Z) (eq : XiveEQ)
  : Res XiveMachine :=
  let format := u8 (GETFIELD EQ_W6_FORMAT_BIT (w6 eq)) in
  let priority := u8 (GETFIELD EQ_W7_F0_PRIORITY (w7 eq)) in
  if (format =? 0) && (priority =? 0xff) then mret m
  else
    '(notify, eq, m) ← eq_notify_esn m eq_blk eq_idx eq;
    if notify : bool then
      xive_presenter_notify m format
        (u8 (GETFIELD EQ_W6_NVT_BLOCK (w6 eq)))
        (GETFIELD EQ_W6_NVT_INDEX (w6 eq))
        (negb (GETFIELD EQ_W7_F0_IGNORE (w7 eq) =? 0))
        priority
        (GETFIELD EQ_W7_F1_LOG_SERVER_ID (w7 eq))
    else mret m.

Definition xive_router_eq_notify (m : XiveMachine) (eq_blk eq_idx eq_data : Z)
  : Res XiveMachine :=
  match xive_router_get_eq m eq_blk eq_idx with
  | None => mret (add_log m [Log_no_eq eq_blk eq_idx])
  | Some eq =>
      if Z.land (w0 eq) EQ_W0_VALID =? 0 then
        mret (add_log m [Log_eq_invalid eq_blk eq_idx])
      else
        let '(eq, m) := eq_notify_enqueue m eq_blk eq_idx eq eq_data in
        eq_notify_deliver m eq_blk eq_idx eq
  end.

(** The EQ is masked: line 2436. *)
Definition eq_is_masked (eq : XiveEQ) : bool :=
  (u8 (GETFIELD EQ_W6_FORMAT_BIT (w6 eq)) =? 0) &&
  (u8 (GETFIELD EQ_W7_F0_PRIORITY (w7 eq)) =? 0xff).

(** The call of the presenter for an EQ: lines 2462-2467. *)
Definition eq_presenter_notify (m : XiveMachine) (eq : XiveEQ) : Res XiveMachine :=
  xive_presenter_notify m
    (u8 (GETFIELD EQ_W6_FORMAT_BIT (w6 eq)))
    (u8 (GETFIELD EQ_W6_NVT_BLOCK (w6 eq)))
    (GETFIELD EQ_W6_NVT_INDEX (w6 eq))
    (negb (GETFIELD EQ_W7_F0_IGNORE (w7 eq) =? 0))
    (u8 (GETFIELD EQ_W7_F0_PRIORITY (w7 eq)))
    (GETFIELD EQ_W7_F1_LOG_SERVER_ID (w7 eq)).

(** ** Which CPUs match *)

(** The ring [xive_presenter_tctx_match] returns for a context, -1 for
    none. *)
Definition tctx_match_ring (tctx : XiveTCTX) (format vp_blk vp_idx : Z)
    (cam_ignore : bool) (logic_serv : Z) : Z :=
  match xive_presenter_tctx_match tctx format vp_blk vp_idx cam_ignore logic_serv with
  | Done (ring, _) => ring
  | AssertFail => -1
  end.

(** The CPUs whose context matches, each with its position and the ring
    that matches, in the order of [CPU_FOREACH]; the first CPU of [cs] has
    position [i]. *)
Fixpoint matching_cpus (cs : list XiveTCTX) (i : nat) (format vp_blk vp_idx : Z)
    (cam_ignore : bool) (logic_serv : Z) : list (nat * Z) :=
  match cs with
  | [] => []
  | tctx :: cs =>
      let ring := tctx_match_ring tctx format vp_blk vp_idx cam_ignore logic_serv in
      if ring =? -1
      then matching_cpus cs (S i) format vp_blk vp_idx cam_ignore logic_serv
      else (i, ring) :: matching_cpus cs (S i) format vp_blk vp_idx cam_ignore logic_serv
  end.

(** ** Well-formed states *)

Definition is_byte (b : Z) : Prop := 0 <= b < 256.

#[global] Instance is_byte_dec (b : Z) : Decision (is_byte b).
Proof. unfold is_byte. apply _. Defined.

(** A register file is 64 bytes. *)
Definition wf_regs (r : list Z) : Prop :=
  length r = 64%nat /\ Forall is_byte r.

#[global] Instance wf_regs_dec (r : list Z) : Decision (wf_regs r).
Proof. unfold wf_regs. apply _. Defined.

(** The bytes of a VP descriptor from [w4] on are the eight bytes of [w4]
    and [w5]. *)
Definition wf_vp (vp : XiveVP) : Prop :=
  length (vp_w4 vp) = 8%nat /\ Forall is_byte (vp_w4 vp).

#[global] Instance wf_vp_dec (vp : XiveVP) : Decision (wf_vp vp).
Proof. unfold wf_vp. apply _. Defined.

#[global] Instance Res_eq_dec {A : Type} `{EqDecision A} : EqDecision (Res A).
Proof. solve_decision. Defined.

(** ** Reading a descriptor *)

(** A field mask of [w] bits whose lowest bit is bit [s]. *)
Definition field_mask (s w : Z) : Z := Z.shiftl (Z.ones w) s.

(** The words of a descriptor are 32-bit words. *)
Definition wf_eq (eq : XiveEQ) : Prop :=
  Forall (fun w => 0 <= w < 2 ^ 32)
         [w0 eq; w1 eq; w2 eq; w3 eq; w4 eq; w5 eq; w6 eq; w7 eq].

#[global] Instance wf_eq_dec (eq : XiveEQ) : Decision (wf_eq eq).
Proof. unfold wf_eq. apply _. Defined.

(** The queue a descriptor describes: its base address, the index and the
    generation bit of the next entry, its number of entries; the address
    of the next entry and the word a push of [data] writes there. *)
Definition eq_qaddr_base (eq : XiveEQ) : Z :=
  Z.lor (Z.shiftl (Z.land (w2 eq) 0x0fffffff) 32) (w3 eq).
Definition eq_qindex (eq : XiveEQ) : Z := GETFIELD EQ_W1_PAGE_OFF (w1 eq).
Definition eq_qgen (eq : XiveEQ) : Z := GETFIELD EQ_W1_GENERATION (w1 eq).
Definition eq_qentries (eq : XiveEQ) : Z := 2 ^ (GETFIELD EQ_W0_QSIZE (w0 eq) + 10).
Definition eq_qaddr (eq : XiveEQ) : Z := eq_qaddr_base eq + 4 * eq_qindex eq.
Definition eq_qword (eq : XiveEQ) (data : Z) : Z :=
  Z.lor (Z.shiftl (eq_qgen eq) 31) (Z.land data 0x7fffffff).

(** The 32-bit word a big-endian load reads at address [a] of guest
    memory. *)
Definition be32_load (ram : gmap Z Z) (a : Z) : option Z :=
  b0 ← ram !! a; b1 ← ram !! (a + 1); b2 ← ram !! (a + 2); b3 ← ram !! (a + 3);
  Some (Z.lor (Z.lor (Z.shiftl b0 24) (Z.shiftl b1 16)) (Z.lor (Z.shiftl b2 8) b3)).

(** One push per element of [ds], in order. *)
Fixpoint xive_eq_push_all (eq : XiveEQ) (ds : list Z) (ram : gmap Z Z)
  : XiveEQ * gmap Z Z * list LogMsg :=
  match ds with
  | [] => (eq, ram, [])
  | d :: ds =>
      let '(eq, ram, l) := xive_eq_push eq d ram in
      let '(eq, ram, l') := xive_eq_push_all eq ds ram in
      (eq, ram, l ++ l')
  end.

(** ** States of the literal scenarios *)

(** The EQ of scenario 6: valid, with ENQUEUE and UCOND_NOTIFY, 1024
    entries at 0x10000000, index 1023, generation 0, priority 4, target
    VP 0/5. *)
Definition scenario_eq : XiveEQ :=
  mkEQ (Z.lor (Z.lor EQ_W0_VALID EQ_W0_ENQUEUE) EQ_W0_UCOND_NOTIFY)
       1023 0 0x10000000 0 0 5 (Z.shiftl 4 16).

(** Guest RAM that backs the 4096 bytes of that queue, all zero. *)
Definition scenario_ram : gmap Z Z :=
  list_to_map ((fun a => (a, 0)) <$> seqZ 0x10000000 4096).

(** The thread context of scenario 4 before the acknowledge: CPU 0 of a
    guest, VCPU 5, reset, then with priority 1 pending (IPB 0x40, PIPR 1),
    CPPR 2, the exception bit raised and the output line asserted. *)
Definition scenario_tctx : XiveTCTX :=
  let r := regs (xive_tctx_reset 0 (mkTCTX [] false 0 5 false)) in
  let r := reg_set r (TM_QW1_OS + TM_NSR) TM_QW1_NSR_EO in
  let r := reg_set r (TM_QW1_OS + TM_CPPR) 2 in
  let r := reg_set r (TM_QW1_OS + TM_IPB) 0x40 in
  let r := reg_set r (TM_QW1_OS + TM_PIPR) 1 in
  mkTCTX r true 0 5 false.

(** The VP 0/5 of scenario 1, valid, with an empty backlog. *)
Definition scenario_vp : XiveVP := mkVP VP_W0_VALID (replicate 8 0).

(** The thread context of scenario 1: CPU 0 of a guest, VCPU 5, reset
    (OS CAM 0/5 with VO set), then CPPR 0xFF. *)
Definition scenario_cpu : XiveTCTX :=
  let t := xive_tctx_reset 0 (mkTCTX [] false 0 5 false) in
  set_regs t (reg_set (regs t) (TM_QW1_OS + TM_CPPR) 0xff).

(** A machine with the EQ [eq] at 0/3, the VP 0/5, the CPUs [cs] and the
    guest RAM [r]. *)
Definition scenario_machine (cs : list XiveTCTX) (r : gmap Z Z) (eq : XiveEQ)
  : XiveMachine :=
  mkMachine 0 {[ (0, 3) := eq ]} {[ (0, 5) := scenario_vp ]} cs r [].

(** A valid EQ that is masked (format 0, priority 0xFF), with ENQUEUE and
    UCOND_NOTIFY clear and ESn in state RESET. *)
Definition masked_eq : XiveEQ :=
  mkEQ EQ_W0_VALID 0 0 0x10000000 0 0 5 (Z.shiftl 0xff 16).

(** ** PIPR follows IPB *)

(** On the ring at [ring], PIPR is [ipb_to_pipr] of IPB. *)
Definition pipr_inv (r : list Z) (ring : Z) : Prop :=
  reg_get r (ring + TM_PIPR) = ipb_to_pipr (reg_get r (ring + TM_IPB)).

Definition tm_rings : list Z :=
  [TM_QW0_USER; TM_QW1_OS; TM_QW2_HV_POOL; TM_QW3_HV_PHYS].

(** What can happen to a thread context: the guest is reset, the CPU
    loads from or stores to its TIMA, the presenter delivers a priority
    to one of its rings. *)
Inductive tctx_op : Type :=
| Op_reset (chip_id : Z)
| Op_tm_read (offset size : Z)
| Op_tm_write (offset value size : Z)
| Op_deliver (ring priority : Z).

Section operations.

Variable TM_SHIFT : Z.

Definition run_op (op : tctx_op) (tctx : XiveTCTX) : Res XiveTCTX :=
  match op with
  | Op_reset chip_id => mret (xive_tctx_reset chip_id tctx)
  | Op_tm_read offset size =>
      '(_, tctx, _) ← xive_tm_read TM_SHIFT tctx offset size; mret tctx
  | Op_tm_write offset value size =>
      '(tctx, _) ← xive_tm_write TM_SHIFT tctx offset value size; mret tctx
  | Op_deliver ring priority => presenter_deliver tctx ring priority
  end.

Fixpoint run_ops (ops : list tctx_op) (tctx : XiveTCTX) : Res XiveTCTX :=
  match ops with
  | [] => mret tctx
  | op :: ops => tctx ← run_op op tctx; run_ops ops tctx
  end.

(** A store that [xive_tm_write] hands to [xive_tm_raw_write]. *)
Definition is_raw_store (op : tctx_op) : bool :=
  match op with
  | Op_tm_write offset _ size =>
      (Z.land offset 0x800 =? 0) &&
      negb (has_handler (xive_tm_find_op TM_SHIFT offset size true))
  | _ => false
  end.

(** [xive_tm_raw_write] at [offset] with [size] writes register [j]: it
    accepts the store, and the byte mask of one of the bytes it stores at
    register [j] is not zero. *)
Definition raw_store_writes (offset size j : Z) : bool :=
  let reg_offset := Z.land offset 0x3F in
  let mask := xive_tm_mask TM_SHIFT offset size true in
  negb ((size <? 4) || (mask =? 0) || (Z.land offset 0x30 =? TM_QW0_USER)) &&
  existsb (fun i => negb (u8 (Z.shiftr mask (8 * (size - i - 1))) =? 0) &&
                    (reg_offset + i =? j))
          (seqZ 0 size).

(** An operation that leaves the IPB and the PIPR of the ring at [ring]
    to the code that keeps them in step: every operation but a raw store
    that writes one of these two registers; a delivery is to one of the
    four rings. *)
Definition op_ok (ring : Z) (op : tctx_op) : Prop :=
  match op with
  | Op_tm_write offset _ size =>
      is_raw_store op = true ->
      raw_store_writes offset size (ring + TM_IPB) = false /\
      raw_store_writes offset size (ring + TM_PIPR) = false
  | Op_deliver ring0 _ => In ring0 tm_rings
  | _ => True
  end.

End operations.

(** The machines of the examples: the EQ of scenario 6 with no guest RAM
    behind its queue and one CPU, the same with two CPUs that both have
    VP 0/5 on their OS ring, and one CPU with the masked EQ. *)
Definition machine_one_cpu : XiveMachine :=
  scenario_machine [scenario_cpu] ∅ scenario_eq.
Definition machine_two_cpus : XiveMachine :=
  scenario_machine [scenario_cpu; scenario_cpu] ∅ scenario_eq.
Definition machine_masked : XiveMachine :=
  scenario_machine [scenario_cpu] ∅ masked_eq.

(** The same one-CPU machine with guest RAM behind the last entry of the
    queue only. *)
Definition machine_last_entry : XiveMachine :=
  scenario_machine [scenario_cpu]
    (list_to_map ((fun a => (a, 0)) <$> seqZ 0x10000ffc 4)) scenario_eq.

(** A thread context right after a guest reset. *)
Definition reset_tctx : XiveTCTX := xive_tctx_reset 0 scenario_cpu.

(** A store of 0xFF to the CPPR of the OS ring, a raw store from the OS
    page over the first word of the OS ring, a raw store from the HV page
    to word 2 of the OS ring, a delivery of priority 4 to the OS ring, an
    acknowledge; offsets for a page shift of 16. *)
Definition scenario_ops : list tctx_op :=
  [Op_tm_write 0x20011 0xff 1; Op_tm_write 0x20010 0x00ff0000 4;
   Op_tm_write 0x10018 0x80000005 4; Op_deliver TM_QW1_OS 4; Op_tm_read 0x20810 2].

(** The thread context these operations leave after a reset of
    [scenario_tctx]. *)
Definition scenario_ops_result : XiveTCTX :=
  match run_ops 16 (Op_reset 0 :: scenario_ops) scenario_tctx with
  | Done tctx => tctx
  | AssertFail => scenario_tctx
  end.

(** The guest RAM of [machine_last_entry] after the push of 0xABCD with
    generation 0. *)
Definition ram_last_entry_pushed : gmap Z Z :=
  list_to_map [(0x10000ffc, 0); (0x10000ffd, 0); (0x10000ffe, 0xAB); (0x10000fff, 0xCD)].

(** ** ESB MMIO regions *)

(** Offsets of the operations within an ESB page, as the tables above
    [xive_source_esb_read] and [xive_source_esb_write] list them (the
    macros are declared in [hw/ppc/xive.h]): loads of 0x000..0x7FF are an
    EOI, loads of 0x800..0xBFF return PQ, 0xC00, 0xD00, 0xE00 and 0xF00
    set PQ to 00, 01, 10 and 11; stores of 0x400..0x7FF are an EOI. *)
Definition XIVE_ESB_LOAD_EOI : Z := 0x000.
Definition XIVE_ESB_STORE_EOI : Z := 0x400.
Definition XIVE_ESB_GET : Z := 0x800.
Definition XIVE_ESB_SET_PQ_00 : Z := 0xC00.
Definition XIVE_ESB_SET_PQ_01 : Z := 0xD00.
Definition XIVE_ESB_SET_PQ_10 : Z := 0xE00.
Definition XIVE_ESB_SET_PQ_11 : Z := 0xF00.

(** [case lo ... lo + len:] of a [switch]. *)
Definition in_case (x lo len : Z) : bool := (lo <=? x) && (x <=? lo + len).

(** The four [XIVE_ESB_SET_PQ_xx ... XIVE_ESB_SET_PQ_xx + 0x0FF] cases. *)
Definition in_set_pq_cases (offset : Z) : bool :=
  in_case offset XIVE_ESB_SET_PQ_00 0x0FF || in_case offset XIVE_ESB_SET_PQ_01 0x0FF ||
  in_case offset XIVE_ESB_SET_PQ_10 0x0FF || in_case offset XIVE_ESB_SET_PQ_11 0x0FF.

(** The messages the handlers of the two ESB regions and the entry point
    of the router log, one constructor per format string; these functions
    return the messages they log. *)
Inductive XiveLogMsg : Type :=
| Log_unknown_lisn (lisn : Z)
| Log_invalid_lisn (lisn : Z)
| Esb_no_eq (eq_blk eq_idx : Z)
| Esb_eq_invalid (eq_blk eq_idx : Z)
| Esb_invalid_eq_load (offset : Z)
| Esb_invalid_eq_store (addr : Z)
| Esb_lsi_queued (srcno : Z)
| Esb_trigger_page_load (srcno addr : Z)
| Esb_invalid_load (offset : Z)
| Esb_invalid_store_eoi (srcno : Z)
| Esb_invalid_store (offset : Z).

Definition addr_is_even (addr shift : Z) : bool :=
  Z.land (Z.shiftr addr shift) 1 =? 0.

(** *** The ESBs of an EQ *)

(** [xive_eq_source_read]; [esb_shift] is [xsrc->esb_shift].  The result
    is the value loaded, the machine and the messages logged. *)
Definition xive_eq_source_read (esb_shift : Z) (m : XiveMachine) (addr size : Z)
  : Res (Z * XiveMachine * list XiveLogMsg) :=
  let offset := Z.land addr 0xFFF in
  let eq_blk := u8 (chip_id m) in
  let eq_idx := u32 (Z.shiftr addr (esb_shift + 1)) in
  match xive_router_get_eq m eq_blk eq_idx with
  | None => mret (minus_one_u64, m, [Esb_no_eq eq_blk eq_idx])
  | Some eq =>
      if Z.land (w0 eq) EQ_W0_VALID =? 0 then
        mret (minus_one_u64, m, [Esb_eq_invalid eq_blk eq_idx])
      else
        let eq_esmask := if addr_is_even addr esb_shift then EQ_W1_ESn else EQ_W1_ESe in
        let pq := u8 (GETFIELD eq_esmask (w1 eq)) in
        r ← (if in_case offset XIVE_ESB_LOAD_EOI 0x7FF then
               '(ret, pq) ← ESB.xive_esb_eoi pq; mret (Some (Z.b2z ret, pq))
             else if in_case offset XIVE_ESB_GET 0x3FF then
               mret (Some (pq, pq))
             else if in_set_pq_cases offset then
               mret (Some (ESB.xive_esb_set pq (Z.land (Z.shiftr offset 8) 0x3)))
             else mret None);
        match r with
        | None => mret (minus_one_u64, m, [Esb_invalid_eq_load offset])
        | Some (ret, pq) =>
            if pq =? GETFIELD eq_esmask (w1 eq) then mret (ret, m, [])
            else
              let eq := set_w1 eq (SETFIELD eq_esmask (w1 eq) pq) in
              mret (ret, xive_router_set_eq m eq_blk eq_idx eq, [])
        end
  end.

(** [xive_eq_source_write]: stores are invalid. *)
Definition xive_eq_source_write (m : XiveMachine) (addr value size : Z)
  : XiveMachine * list XiveLogMsg :=
  (m, [Esb_invalid_eq_store addr]).

(** *** The interrupt source (IVSE) *)

(** [XiveSource]: the number of sources, one status byte per source (the
    PQ bits and the level of an LSI line), the bitmap of the sources that
    are LSIs (one boolean per source), the shift of the ESB pages and the
    flags. *)
Record XiveSource : Type := mkSource {
  nr_irqs : Z;
  status : list Z;
  lsi_map : list bool;
  esb_shift : Z;
  esb_flags : Z
}.

Definition set_status (xsrc : XiveSource) (s : list Z) : XiveSource :=
  mkSource (nr_irqs xsrc) s (lsi_map xsrc) (esb_shift xsrc) (esb_flags xsrc).

(** Modelled from the spec: [xive_source_irq_is_lsi] of [hw/ppc/xive.h]
    tests the bit of the source in the bitmap of the LSIs. *)
Definition xive_source_irq_is_lsi (xsrc : XiveSource) (srcno : Z) : bool :=
  default false (lsi_map xsrc !! Z.to_nat srcno).

Section Source.

(** Of [hw/ppc/xive.h], which is not among the sources: the bit of a
    status byte that holds the level of an LSI line, the flag of
    [esb_flags] that allows the store EOI, and whether a source has two
    ESB pages (a function of [esb_shift]). *)
Variable XIVE_STATUS_ASSERTED : Z.
Variable XIVE_SRC_STORE_EOI : Z.
Variable xive_source_esb_has_2page : XiveSource -> bool.

(** The fabric the source notifies: its state, and the [notify] method
    of its class, [None] when that is NULL. *)
Variable Fabric : Type.
Variable xfc_notify : option (Fabric -> Z -> Res Fabric).

(** [assert (srcno < xsrc->nr_irqs)] fails as [AssertFail]. *)
Definition xive_source_esb_get (xsrc : XiveSource) (srcno : Z) : Res Z :=
  if srcno <? nr_irqs xsrc then mret (Z.land (reg_get (status xsrc) srcno) 0x3)
  else AssertFail.

Definition xive_source_esb_set (xsrc : XiveSource) (srcno pq : Z)
  : Res (Z * XiveSource) :=
  if srcno <? nr_irqs xsrc then
    let '(old_pq, b) := ESB.xive_esb_set (reg_get (status xsrc) srcno) pq in
    mret (old_pq, set_status xsrc (reg_set (status xsrc) srcno b))
  else AssertFail.

Definition xive_source_lsi_trigger (xsrc : XiveSource) (srcno : Z)
  : Res (bool * XiveSource) :=
  old_pq ← xive_source_esb_get xsrc srcno;
  if old_pq =? XIVE_ESB_RESET then
    '(_, xsrc) ← xive_source_esb_set xsrc srcno XIVE_ESB_PENDING;
    mret (true, xsrc)
  else mret (false, xsrc).

Definition xive_source_esb_trigger (xsrc : XiveSource) (srcno : Z)
  : Res (bool * XiveSource * list XiveLogMsg) :=
  if srcno <? nr_irqs xsrc then
    '(ret, b) ← ESB.xive_esb_trigger (reg_get (status xsrc) srcno);
    let xsrc := set_status xsrc (reg_set (status xsrc) srcno b) in
    if xive_source_irq_is_lsi xsrc srcno then
      pq ← xive_source_esb_get xsrc srcno;
      mret (ret, xsrc, if pq =? XIVE_ESB_QUEUED then [Esb_lsi_queued srcno] else [])
    else mret (ret, xsrc, [])
  else AssertFail.

Definition xive_source_esb_eoi (xsrc : XiveSource) (srcno : Z)
  : Res (bool * XiveSource) :=
  if srcno <? nr_irqs xsrc then
    '(ret, b) ← ESB.xive_esb_eoi (reg_get (status xsrc) srcno);
    let xsrc := set_status xsrc (reg_set (status xsrc) srcno b) in
    if xive_source_irq_is_lsi xsrc srcno &&
       negb (Z.land (reg_get (status xsrc) srcno) XIVE_STATUS_ASSERTED =? 0)
    then xive_source_lsi_trigger xsrc srcno
    else mret (ret, xsrc)
  else AssertFail.

(** [xive_source_notify]: the source number becomes the LISN. *)
Definition xive_source_notify (f : Fabric) (srcno : Z) : Res Fabric :=
  match xfc_notify with
  | Some notify => notify f (u32 srcno)
  | None => mret f
  end.

Definition xive_source_is_trigger_page (xsrc : XiveSource) (addr : Z) : bool :=
  xive_source_esb_has_2page xsrc && addr_is_even addr (esb_shift xsrc - 1).

(** The label [out] of [xive_source_esb_write] and the end of
    [xive_source_set_irq]: forward the notification. *)
Definition source_forward (notify : bool) (f : Fabric) (srcno : Z) : Res Fabric :=
  if notify then xive_source_notify f srcno else mret f.

(** [xive_source_esb_read]: the value loaded, the source, the fabric and
    the messages logged. *)
Definition xive_source_esb_read (xsrc : XiveSource) (f : Fabric) (addr size : Z)
  : Res (Z * XiveSource * Fabric * list XiveLogMsg) :=
  let offset := Z.land addr 0xFFF in
  let srcno := u32 (Z.shiftr addr (esb_shift xsrc)) in
  if xive_source_is_trigger_page xsrc addr then
    mret (minus_one_u64, xsrc, f, [Esb_trigger_page_load srcno addr])
  else if in_case offset XIVE_ESB_LOAD_EOI 0x7FF then
    '(ret, xsrc) ← xive_source_esb_eoi xsrc srcno;
    f ← source_forward ret f srcno;
    mret (Z.b2z ret, xsrc, f, [])
  else if in_case offset XIVE_ESB_GET 0x3FF then
    ret ← xive_source_esb_get xsrc srcno;
    mret (ret, xsrc, f, [])
  else if in_set_pq_cases offset then
    '(ret, xsrc) ← xive_source_esb_set xsrc srcno (Z.land (Z.shiftr offset 8) 0x3);
    mret (ret, xsrc, f, [])
  else mret (minus_one_u64, xsrc, f, [Esb_invalid_load offset]).

(** [xive_source_esb_write]: the source, the fabric and the messages
    logged. *)
Definition xive_source_esb_write (xsrc : XiveSource) (f : Fabric) (addr value size : Z)
  : Res (XiveSource * Fabric * list XiveLogMsg) :=
  let offset := Z.land addr 0xFFF in
  let srcno := u32 (Z.shiftr addr (esb_shift xsrc)) in
  if xive_source_is_trigger_page xsrc addr then
    '(notify, xsrc, l) ← xive_source_esb_trigger xsrc srcno;
    f ← source_forward notify f srcno;
    mret (xsrc, f, l)
  else if in_case offset 0 0x3FF then
    '(notify, xsrc, l) ← xive_source_esb_trigger xsrc srcno;
    f ← source_forward notify f srcno;
    mret (xsrc, f, l)
  else if in_case offset XIVE_ESB_STORE_EOI 0x3FF then
    if Z.land (esb_flags xsrc) XIVE_SRC_STORE_EOI =? 0 then
      mret (xsrc, f, [Esb_invalid_store_eoi srcno])
    else
      '(notify, xsrc) ← xive_source_esb_eoi xsrc srcno;
      f ← source_forward notify f srcno;
      mret (xsrc, f, [])
  else if in_set_pq_cases offset then
    '(_, xsrc) ← xive_source_esb_set xsrc srcno (Z.land (Z.shiftr offset 8) 0x3);
    mret (xsrc, f, [])
  else mret (xsrc, f, [Esb_invalid_store offset]).

(** [xive_source_set_irq]: the input line [srcno] takes the level
    [val]. *)
Definition xive_source_set_irq (xsrc : XiveSource) (f : Fabric) (srcno val : Z)
  : Res (XiveSource * Fabric * list XiveLogMsg) :=
  if xive_source_irq_is_lsi xsrc (u32 srcno) then
    if val =? 0 then
      let b := u8 (Z.land (reg_get (status xsrc) srcno) (Z.lnot XIVE_STATUS_ASSERTED)) in
      mret (set_status xsrc (reg_set (status xsrc) srcno b), f, [])
    else
      let b := u8 (Z.lor (reg_get (status xsrc) srcno) XIVE_STATUS_ASSERTED) in
      let xsrc := set_status xsrc (reg_set (status xsrc) srcno b) in
      '(notify, xsrc) ← xive_source_lsi_trigger xsrc (u32 srcno);
      f ← source_forward notify f srcno;
      mret (xsrc, f, [])
  else if val =? 0 then mret (xsrc, f, [])
  else
    '(notify, xsrc, l) ← xive_source_esb_trigger xsrc (u32 srcno);
    f ← source_forward notify f srcno;
    mret (xsrc, f, l).

End Source.

(** [xive_source_reset]: [memset (xsrc->status, 0x1, xsrc->nr_irqs)]. *)
Definition xive_source_reset (xsrc : XiveSource) : XiveSource :=
  set_status xsrc
    (replicate (Z.to_nat (nr_irqs xsrc)) 0x1 ++ drop (Z.to_nat (nr_irqs xsrc)) (status xsrc)).

(** *** The entry point of the router *)

Section Router.

(** The fields of an IVE, of [hw/ppc/xive_regs.h], which is not among the
    sources: the masks are parameters. *)
Variables IVE_VALID IVE_MASKED IVE_EQ_BLOCK IVE_EQ_INDEX IVE_EQ_DATA : Z.

(** [xive_router_notify].  The table [ives] of the 64-bit words of the
    IVEs stands for [get_ive] of the concrete router, which is not among
    the sources: a LISN that is not in it is the non-zero (error) result.
    The fabric is the machine with the messages logged here. *)
Definition xive_router_notify (ives : gmap Z Z) (xf : XiveMachine * list XiveLogMsg)
    (lisn : Z) : Res (XiveMachine * list XiveLogMsg) :=
  let '(m, l) := xf in
  match ives !! lisn with
  | None => mret (m, l ++ [Log_unknown_lisn lisn])
  | Some w =>
      if Z.land w IVE_VALID =? 0 then mret (m, l ++ [Log_invalid_lisn lisn])
      else if negb (Z.land w IVE_MASKED =? 0) then mret (m, l)
      else
        m ← xive_router_eq_notify m
               (u8 (GETFIELD IVE_EQ_BLOCK w))
               (u32 (GETFIELD IVE_EQ_INDEX w))
               (u32 (GETFIELD IVE_EQ_DATA w));
        mret (m, l)
  end.

End Router.

(** *** States of a source *)

(** The PQ bits a trigger and an EOI leave. *)
Definition pq_after_trigger (pq : Z) : Z :=
  if pq =? XIVE_ESB_RESET then XIVE_ESB_PENDING
  else if pq =? XIVE_ESB_OFF then XIVE_ESB_OFF else XIVE_ESB_QUEUED.

Definition pq_after_eoi (pq : Z) : Z :=
  if pq =? XIVE_ESB_QUEUED then XIVE_ESB_PENDING
  else if pq =? XIVE_ESB_OFF then XIVE_ESB_OFF else XIVE_ESB_RESET.

(** The source [xsrc] with the PQ bits of source [srcno] replaced by
    [c]. *)
Definition source_with_pq (xsrc : XiveSource) (srcno c : Z) : XiveSource :=
  set_status xsrc
    (reg_set (status xsrc) srcno (Z.lor (Z.land (reg_get (status xsrc) srcno) 0xfc) c)).

(** A realized source: one status byte and one bit of the bitmap per
    source. *)
Definition wf_source (xsrc : XiveSource) : Prop :=
  0 <= nr_irqs xsrc < 2 ^ 32 /\
  Z.of_nat (length (status xsrc)) = nr_irqs xsrc /\
  Forall is_byte (status xsrc) /\
  Z.of_nat (length (lsi_map xsrc)) = nr_irqs xsrc.

#[global] Instance wf_source_dec (xsrc : XiveSource) : Decision (wf_source xsrc).
Proof. unfold wf_source. apply _. Defined.

(** ** The memory nodes of the device tree *)

(** [pow2floor] and [ctzl] of [qemu/host-utils.h], which is not among the
    sources, on a 64-bit host: a 64-bit value rounded down to a power of
    two (0 for 0), and the number of trailing zero bits of a 64-bit value
    (64 for 0). *)
Definition pow2floor (value : Z) : Z :=
  if value =? 0 then 0 else 2 ^ Z.log2 value.

Definition ctzl (val : Z) : Z :=
  match val with
  | Zpos p => pos_ctz p
  | _ => 64
  end.

(** One call [powernv_populate_memory_node (fdt, nodeid, start, size)]:
    the memory node it adds to the device tree. *)
Record MemNode : Type := mkMemNode {
  mn_nodeid : Z;
  mn_start : Z;
  mn_size : Z
}.

(** [sizetmp] of one turn of the inner loop of [powernv_populate_memory]. *)
Definition node_chunk (node_size mem_start : Z) : Z :=
  let sizetmp := pow2floor node_size in
  if ctzl mem_start <? ctzl sizetmp then u64 (Z.shiftl 1 (ctzl mem_start)) else sizetmp.

(** The inner loop ends because every turn takes at least one byte and at
    most what is left of [node_size]. *)
Lemma pos_ctz_nonneg (p : positive) : 0 <= pos_ctz p.
Proof. induction p; cbn [pos_ctz]; lia. Qed.

Lemma ctzl_pow2 (k : Z) : 0 <= k -> ctzl (2 ^ k) = k.
Proof.
  intros Hk. rewrite <- (Z2Nat.id k Hk). generalize (Z.to_nat k). clear. intros n.
  induction n as [|n IH].
  - reflexivity.
  - rewrite Nat2Z.inj_succ, Z.pow_succ_r by lia.
    pose proof (Z.pow_pos_nonneg 2 (Z.of_nat n) ltac:(lia) ltac:(lia)) as Hp.
    destruct (2 ^ Z.of_nat n) as [|p|p] eqn:E; try lia.
    change (2 * Zpos p) with (Zpos p~0). cbn [ctzl pos_ctz]. cbn [ctzl] in IH. lia.
Qed.

Lemma node_chunk_pow2 (n s : Z) :
  0 < n < 2 ^ 64 ->
  exists k, 0 <= k < 64 /\ node_chunk n s = 2 ^ k /\ node_chunk n s <= n.
Proof.
  intros Hn. unfold node_chunk, pow2floor.
  destruct (Z.eqb_spec n 0); [lia|].
  pose proof (Z.log2_nonneg n) as Hl0.
  assert (Hl : Z.log2 n < 64) by (apply Z.log2_lt_pow2; lia).
  destruct (Z.log2_spec n ltac:(lia)) as [Hlo _].
  rewrite ctzl_pow2 by lia.
  destruct (Z.ltb_spec (ctzl s) (Z.log2 n)) as [Hlt|Hge].
  - destruct s as [|p|p]; cbn [ctzl] in *; try lia.
    pose proof (pos_ctz_nonneg p) as Hc0.
    rewrite Z.shiftl_1_l.
    assert (Hc : 2 ^ pos_ctz p < 2 ^ Z.log2 n) by (apply Z.pow_lt_mono_r; lia).
    assert (Hu : u64 (2 ^ pos_ctz p) = 2 ^ pos_ctz p).
    { apply Z.mod_small. split; [apply Z.pow_nonneg; lia|].
      apply Z.pow_lt_mono_r; lia. }
    rewrite Hu. exists (pos_ctz p). repeat split; lia.
  - exists (Z.log2 n). repeat split; lia.
Qed.

Lemma populate_loop_decreases (n s : Z) :
  n > 0 -> 0 <= u64 (n - node_chunk n s) < n.
Proof.
  intros Hn. pose proof (Z.mod_pos_bound (n - node_chunk n s) (2 ^ 64) ltac:(lia)) as Hu.
  fold (u64 (n - node_chunk n s)) in Hu.
  destruct (Z_lt_le_dec n (2 ^ 64)) as [Hlt|Hge]; [|lia].
  destruct (node_chunk_pow2 n s ltac:(lia)) as (k & Hk & Hc & Hle).
  assert (0 < node_chunk n s) by (rewrite Hc; apply Z.pow_pos_nonneg; lia).
  unfold u64. rewrite Z.mod_small by lia. lia.
Qed.

(** The order the inner loop descends along; its accessibility proofs are
    built so that the loop evaluates. *)
Definition size_lt (a b : Z) : Prop := 0 <= a < b.

#[local] Instance size_lt_wf : WellFounded size_lt :=
  Acc_intro_generator 64 (Z.lt_wf 0).
#[local] Opaque size_lt_wf.

(** The inner loop [for ( ; node_size; )]: the nodes it adds and the final
    [mem_start].  [node_size] is unsigned, so the loop runs while it is
    positive. *)
Equations populate_loop (nodeid node_size mem_start : Z) : list MemNode * Z
  by wf node_size size_lt :=
  populate_loop nodeid node_size mem_start with Z_le_gt_dec node_size 0 => {
    | left _ => ([], mem_start);
    | right H =>
        let sizetmp := node_chunk node_size mem_start in
        let r := populate_loop nodeid (u64 (node_size - sizetmp))
                   (u64 (mem_start + sizetmp)) in
        (mkMemNode nodeid mem_start sizetmp :: r.1, r.2) }.
Next Obligation. apply populate_loop_decreases. assumption. Qed.

(** One turn of the outer loop, for node [i] with [node_mem] bytes: the
    nodes added so far and [mem_start]. *)
Definition populate_node (ram_size : Z) (st : list MemNode * Z) (n : nat * Z)
  : list MemNode * Z :=
  let '(out, mem_start) := st in
  let '(i, node_mem) := n in
  if node_mem =? 0 then (out, mem_start) else
  let node_size :=
    if ram_size <=? mem_start then 0
    else if ram_size - mem_start <? node_mem then ram_size - mem_start
    else node_mem in
  let r := populate_loop (Z.of_nat i) node_size mem_start in
  (out ++ r.1, r.2).

(** The nodes the loop runs over: [numa_info] holds [node_mem] of the
    [nb_numa_nodes] NUMA nodes; without NUMA nodes there is one node with
    the whole RAM. *)
Definition numa_nodes (ram_size : Z) (numa_info : list Z) : list Z :=
  if bool_decide (numa_info = []) then [ram_size] else numa_info.

(** [powernv_populate_memory]: the memory nodes added to the device
    tree, in order. *)
Definition powernv_populate_memory (ram_size : Z) (numa_info : list Z) : list MemNode :=
  (foldl (populate_node ram_size) ([], 0) (imap pair (numa_nodes ram_size numa_info))).1.

(** The nodes start where the one before ends: they cover [s, e) in
    order, without gap or overlap. *)
Fixpoint mem_chain (s : Z) (l : list MemNode) (e : Z) : Prop :=
  match l with
  | [] => s = e
  | m :: l => mn_start m = s /\ mem_chain (s + mn_size m) l e
  end.

(** The size of a node is a power of two and its start is a multiple of
    its size. *)
Definition mem_node_aligned (m : MemNode) : Prop :=
  (exists k, 0 <= k < 64 /\ mn_size m = 2 ^ k) /\ (mn_size m | mn_start m).

(** Where the memory of NUMA node [i] starts: the memory of the nodes
    before it, capped by the RAM. *)
Definition numa_limit (ram_size : Z) (nodes : list Z) (i : nat) : Z :=
  Z.min ram_size (foldr Z.add 0 (take i nodes)).

(** 6G of RAM and four NUMA nodes of 1.5G, nothing, 1.5G and 4G. *)
Definition example_ram_size : Z := 0x180000000.
Definition example_numa_info : list Z := [0x60000000; 0; 0x60000000; 0x100000000].

(** ** ISA interrupts through the CPLD *)

Definition MAX_ISA_IRQ : Z := 16.

(** [pnv_lpc_irq_handler_cpld]: [irqstate] is the static variable of the
    function.  The result holds its new value and, when
    [pnv_psi_irq_set (psi, PSIHB_IRQ_EXTERNAL, ...)] is called, the level
    passed to it. *)
Definition pnv_lpc_irq_handler_cpld (irqstate n level : Z) : Z * option bool :=
  let old_state := irqstate in
  if MAX_ISA_IRQ <=? n then (irqstate, None) else
  let irqstate :=
    if negb (level =? 0) then u32 (Z.lor irqstate (u32 (Z.shiftl 1 n)))
    else u32 (Z.land irqstate (u32 (Z.lnot (u32 (Z.shiftl 1 n))))) in
  if negb (irqstate =? old_state) then (irqstate, Some (negb (irqstate =? 0)))
  else (irqstate, None).

(** A run of the handler over the changes [(n, level)] of the ISA lines,
    from the initial value 0 of the static variable: its value and the
    levels given to the PSI, in order. *)
Definition cpld_step (st : Z * list bool) (ev : Z * Z) : Z * list bool :=
  let r := pnv_lpc_irq_handler_cpld st.1 ev.1 ev.2 in
  (r.1, st.2 ++ option_list r.2).

Definition cpld_run (evs : list (Z * Z)) : Z * list bool :=
  foldl cpld_step (0, []) evs.

(** The level of ISA line [k] after the changes [evs]: that of its last
    change, low when there was none. *)
Definition isa_line_level (evs : list (Z * Z)) (k : Z) : bool :=
  foldl (fun lv (ev : Z * Z) => if ev.1 =? k then negb (ev.2 =? 0) else lv) false evs.

(** Lines 4 and 1 raised, line 4 lowered, a change of line 20, line 1
    lowered. *)
Definition example_isa_events : list (Z * Z) :=
  [(4, 1); (1, 1); (4, 0); (20, 1); (1, 0)].

(** ** States of the further examples *)

(** A valid EQ of priority 4 for VP 0/5, with ENQUEUE and UCOND_NOTIFY
    clear and ESn in state RESET, the machine that holds it at 0/3, and
    that machine after the notification of the event data 7. *)
Definition coalescing_eq : XiveEQ :=
  mkEQ EQ_W0_VALID 0 0 0x10000000 0 0 5 (Z.shiftl 4 16).

Definition machine_coalescing : XiveMachine :=
  scenario_machine [scenario_cpu] ∅ coalescing_eq.

Definition machine_coalescing_notified : XiveMachine :=
  match xive_router_eq_notify machine_coalescing 0 3 7 with
  | Done m => m
  | AssertFail => machine_coalescing
  end.

(** A source of eight interrupts with ESB pages of 64K in pairs (shift
    17), all in state RESET and not asserted; interrupt 2 is an LSI. *)
Definition scenario_source : XiveSource :=
  mkSource 8 (replicate 8 0)
    [false; false; true; false; false; false; false; false] 17 0.

(** The same source with the LSI asserted and pending; the bit of
    [XIVE_STATUS_ASSERTED] is taken to be 0x4. *)
Definition lsi_asserted_source : XiveSource :=
  mkSource 8 [0; 0; 6; 0; 0; 0; 0; 0]
    [false; false; true; false; false; false; false; false] 17 0.

(** For the examples a source has two ESB pages when its shift is 17. *)
Definition example_has_2page (xsrc : XiveSource) : bool := esb_shift xsrc =? 17.

(** A fabric that records the LISNs it is notified of. *)
Definition trace_notify : option (list Z -> Z -> Res (list Z)) :=
  Some (fun f lisn => Done (f ++ [lisn])).

(** * Properties *)

(** ** Bytes *)

Lemma byte_cases (P : Z -> bool) :
  forallb P (map Z.of_nat (seq 0 256)) = true ->
  forall x, 0 <= x < 256 -> P x = true.
Proof.
  intros H x Hx. rewrite forallb_forall in H. apply H.
  apply in_map_iff. exists (Z.to_nat x). split; [lia|]. apply in_seq. lia.
Qed.

Lemma byte_ind (P : Z -> Prop) {Hdec : forall x, Decision (P x)} :
  forallb (fun x => bool_decide (P x)) (map Z.of_nat (seq 0 256)) = true ->
  forall x, 0 <= x < 256 -> P x.
Proof.
  intros H x Hx. eapply bool_decide_eq_true_1.
  revert x Hx. apply byte_cases. exact H.
Qed.

(** A statement about every byte, checked on the 256 of them. *)
Ltac by_bytes :=
  match goal with
  | |- forall x, _ -> @?P x => apply (@byte_ind P _); vm_compute; reflexivity
  end.

(** A decidable statement, evaluated. *)
Ltac by_decide :=
  match goal with
  | |- ?P => apply (bool_decide_unpack P); vm_compute; exact I
  end.

Lemma land_byte (x m : Z) : 0 <= m < 256 -> 0 <= Z.land x m < 256.
Proof.
  intros Hm.
  assert (H0 : 0 <= Z.land x m) by (apply Z.land_nonneg; lia).
  change 256 with (2 ^ 8).
  apply (Z.bounded_iff_bits_nonneg' 8); [lia|lia|].
  intros l Hl. rewrite Z.land_spec.
  rewrite (proj1 (Z.bounded_iff_bits_nonneg' 8 m ltac:(lia) ltac:(lia)));
    [|change (2 ^ 8) with 256; lia|lia].
  apply andb_false_r.
Qed.

Lemma u8_small (x : Z) : 0 <= x < 256 -> u8 x = x.
Proof. intros H. unfold u8. apply Z.mod_small. change (2 ^ 8) with 256. lia. Qed.

Lemma u8_range (x : Z) : 0 <= u8 x < 256.
Proof. unfold u8. apply Z.mod_pos_bound. reflexivity. Qed.

(** ** The ESB state machine *)

Lemma with_state_byte (pq : Z) (s : ESB.esb_state) :
  ESB.with_state pq s = ESB.with_state (Z.land pq 0xff) s.
Proof. unfold ESB.with_state. rewrite <- Z.land_assoc. reflexivity. Qed.

(** Every status byte is [with_state pq s] for the state [s] its two low
    bits encode. *)
Lemma with_state_self (pq : Z) :
  0 <= pq < 256 ->
  exists s, Z.land pq 3 = ESB.esb_code s /\ ESB.with_state pq s = pq.
Proof.
  revert pq.
  assert (H : forall pq, 0 <= pq < 256 ->
            (Z.land pq 3 = 0 /\ ESB.with_state pq ESB.RESET = pq) \/
            (Z.land pq 3 = 1 /\ ESB.with_state pq ESB.OFF = pq) \/
            (Z.land pq 3 = 2 /\ ESB.with_state pq ESB.PENDING = pq) \/
            (Z.land pq 3 = 3 /\ ESB.with_state pq ESB.QUEUED = pq)) by by_bytes.
  intros pq Hpq. destruct (H pq Hpq) as [?|[?|[?|?]]];
    [exists ESB.RESET|exists ESB.OFF|exists ESB.PENDING|exists ESB.QUEUED]; assumption.
Qed.

(** C1. The ESB state machine implements the transition tables with their
    forward flags, whatever the other bits of the status byte: trigger
    takes RESET to PENDING and forwards, PENDING to QUEUED, QUEUED to
    QUEUED and OFF to OFF without forwarding; eoi takes RESET to RESET,
    PENDING to RESET, OFF to OFF without forwarding, and QUEUED to PENDING
    and forwards. *)
Theorem esb_transition_tables (pq : Z) :
  ESB.xive_esb_trigger (ESB.with_state pq ESB.RESET)
    = Done (true, ESB.with_state pq ESB.PENDING) /\
  ESB.xive_esb_trigger (ESB.with_state pq ESB.PENDING)
    = Done (false, ESB.with_state pq ESB.QUEUED) /\
  ESB.xive_esb_trigger (ESB.with_state pq ESB.QUEUED)
    = Done (false, ESB.with_state pq ESB.QUEUED) /\
  ESB.xive_esb_trigger (ESB.with_state pq ESB.OFF)
    = Done (false, ESB.with_state pq ESB.OFF) /\
  ESB.xive_esb_eoi (ESB.with_state pq ESB.RESET)
    = Done (false, ESB.with_state pq ESB.RESET) /\
  ESB.xive_esb_eoi (ESB.with_state pq ESB.PENDING)
    = Done (false, ESB.with_state pq ESB.RESET) /\
  ESB.xive_esb_eoi (ESB.with_state pq ESB.QUEUED)
    = Done (true, ESB.with_state pq ESB.PENDING) /\
  ESB.xive_esb_eoi (ESB.with_state pq ESB.OFF)
    = Done (false, ESB.with_state pq ESB.OFF).
Proof.
  rewrite !(with_state_byte pq).
  generalize (land_byte pq 0xff ltac:(lia)). generalize (Z.land pq 255). clear pq.
  by_bytes.
Qed.

(** C8, as stated, fails: from RESET the four operations end in PENDING. *)
Lemma esb_cycle_from_reset_counterexample :
  ESB.trigger_eoi_eoi_trigger XIVE_ESB_RESET = Done XIVE_ESB_PENDING /\
  ~ (forall s, s = ESB.RESET \/ s = ESB.PENDING ->
       ESB.trigger_eoi_eoi_trigger (ESB.esb_code s) = Done (ESB.esb_code s)).
Proof.
  split; [reflexivity|].
  intros H. specialize (H ESB.RESET (or_introl eq_refl)). discriminate H.
Qed.

(** C8, amended. trigger, eoi, eoi, trigger brings a status byte in state
    PENDING back to PENDING; from RESET it ends in PENDING: the last
    trigger finds RESET and moves on. *)
Theorem esb_cycle_pending (pq : Z) :
  ESB.trigger_eoi_eoi_trigger (ESB.with_state pq ESB.PENDING)
    = Done (ESB.with_state pq ESB.PENDING) /\
  ESB.trigger_eoi_eoi_trigger (ESB.with_state pq ESB.RESET)
    = Done (ESB.with_state pq ESB.PENDING).
Proof.
  rewrite !(with_state_byte pq).
  generalize (land_byte pq 0xff ltac:(lia)). generalize (Z.land pq 255). clear pq.
  by_bytes.
Qed.

(** ** Register files *)

Lemma reg_set_length (r : list Z) (i v : Z) : length (reg_set r i v) = length r.
Proof. unfold reg_set. apply length_insert. Qed.

Lemma reg_get_set (r : list Z) (i j v : Z) :
  reg_get (reg_set r i v) j =
  if decide (Z.to_nat i = Z.to_nat j /\ (Z.to_nat i < length r)%nat)
  then u8 v else reg_get r j.
Proof. unfold reg_get, reg_set. apply list_lookup_total_insert. Qed.

Lemma reg_get_set_eq (r : list Z) (i v : Z) :
  0 <= i < Z.of_nat (length r) -> reg_get (reg_set r i v) i = u8 v.
Proof. intros H. rewrite reg_get_set. case_decide; [reflexivity|lia]. Qed.

Lemma reg_get_set_ne (r : list Z) (i j v : Z) :
  0 <= i -> 0 <= j -> i <> j -> reg_get (reg_set r i v) j = reg_get r j.
Proof. intros Hi Hj Hne. rewrite reg_get_set. case_decide; [lia|reflexivity]. Qed.

Lemma wf_regs_set (r : list Z) (i v : Z) : wf_regs r -> wf_regs (reg_set r i v).
Proof.
  intros [Hl Hb]. split.
  - now rewrite reg_set_length.
  - apply Forall_insert; [assumption|apply u8_range].
Qed.

Lemma wf_regs_get (r : list Z) (i : Z) : wf_regs r -> 0 <= reg_get r i < 256.
Proof.
  intros [Hl Hb]. unfold reg_get.
  destruct (decide (Z.to_nat i < length r)%nat) as [Hi|Hi].
  - apply (Forall_lookup_total_1 _ _ _ Hb Hi).
  - rewrite list_lookup_total_alt, lookup_ge_None_2 by lia. simpl. lia.
Qed.

Lemma reg_set_same (r : list Z) (i : Z) :
  wf_regs r -> reg_set r i (reg_get r i) = r.
Proof.
  intros Hwf. unfold reg_set. rewrite u8_small by (apply wf_regs_get, Hwf).
  unfold reg_get.
  destruct (decide (Z.to_nat i < length r)%nat) as [Hi|Hi].
  - apply list_insert_id. rewrite list_lookup_total_alt.
    destruct (lookup_lt_is_Some_2 r _ Hi) as [x ->]. reflexivity.
  - apply list_insert_ge. lia.
Qed.

Lemma land_byte_l (x m : Z) : 0 <= x < 256 -> 0 <= Z.land x m < 256.
Proof. intros H. rewrite Z.land_comm. now apply land_byte. Qed.


(** What [accept_regs] leaves in a ring. *)
Lemma accept_regs_spec (r : list Z) (ring mask : Z) :
  wf_regs r -> 0 <= ring <= 48 ->
  let r' := accept_regs r ring mask in
  let pipr := reg_get r (ring + TM_PIPR) in
  wf_regs r' /\
  reg_get r' (ring + TM_CPPR) = pipr /\
  reg_get r' (ring + TM_IPB) =
    Z.land (reg_get r (ring + TM_IPB)) (Z.lnot (priority_to_ipb pipr)) /\
  reg_get r' (ring + TM_PIPR) = ipb_to_pipr (reg_get r' (ring + TM_IPB)) /\
  reg_get r' (ring + TM_NSR) = Z.land (reg_get r (ring + TM_NSR)) (Z.lnot mask) /\
  (forall i, 0 <= i -> i <> ring + TM_NSR -> i <> ring + TM_CPPR ->
             i <> ring + TM_IPB -> i <> ring + TM_PIPR ->
             reg_get r' i = reg_get r i).
Proof.
  intros Hwf Hring r' pipr.
  pose proof Hwf as [Hlen _].
  assert (Hp : 0 <= pipr < 256) by apply (wf_regs_get _ _ Hwf).
  assert (Hipb : 0 <= reg_get r (ring + TM_IPB) < 256) by apply (wf_regs_get _ _ Hwf).
  assert (Hnsr : 0 <= reg_get r (ring + TM_NSR) < 256) by apply (wf_regs_get _ _ Hwf).
  assert (Hpp : forall x, 0 <= x < 256 -> 0 <= ipb_to_pipr x < 256) by by_bytes.
  subst r'. unfold accept_regs. fold pipr.
  unfold TM_NSR, TM_CPPR, TM_IPB, TM_PIPR in *.
  repeat split.
  - repeat apply wf_regs_set. exact Hwf.
  - repeat apply wf_regs_set. exact Hwf.
  - rewrite !reg_get_set, !reg_set_length.
    repeat (case_decide; try lia). now apply u8_small.
  - rewrite !reg_get_set, !reg_set_length.
    repeat (case_decide; try lia). apply u8_small. now apply land_byte_l.
  - rewrite !reg_get_set, !reg_set_length.
    repeat (case_decide; try lia).
    rewrite (u8_small (ipb_to_pipr _)); [reflexivity|].
    apply Hpp, u8_range.
  - rewrite !reg_get_set, !reg_set_length.
    repeat (case_decide; try lia). apply u8_small. now apply land_byte_l.
  - intros i Hi H1 H2 H3 H4. rewrite !reg_get_set, !reg_set_length.
    repeat (case_decide; try lia).
Qed.

(** ** The ACK_OS_REG load *)

Lemma land_within (offset op k : Z) :
  Z.land offset 0xFFF = op -> Z.land 0xFFF k = k ->
  Z.land offset k = Z.land op k.
Proof. intros <- Hk. rewrite <- Z.land_assoc, Hk. reflexivity. Qed.





(** ** Event queues *)

Lemma GETFIELD_field (m s w v : Z) :
  m = field_mask s w -> MASK_TO_LSH m = s -> 0 <= s -> 0 <= w ->
  GETFIELD m v = Z.land (Z.shiftr v s) (Z.ones w).
Proof.
  intros -> Hs H0 Hw. unfold GETFIELD. rewrite Hs. unfold field_mask.
  Z.bitblast.
Qed.

Lemma GETFIELD_range (m s w v : Z) :
  m = field_mask s w -> MASK_TO_LSH m = s -> 0 <= s -> 0 <= w ->
  0 <= GETFIELD m v < 2 ^ w.
Proof.
  intros Hm Hs H0 Hw. rewrite (GETFIELD_field m s w v Hm Hs H0 Hw).
  rewrite Z.land_ones by lia. apply Z.mod_pos_bound. apply Z.pow_pos_nonneg; lia.
Qed.

Lemma dma_write4 (ram : gmap Z Z) (a b0 b1 b2 b3 : Z) :
  dma_memory_write ram a [b0; b1; b2; b3] =
  if bool_decide (is_Some (ram !! a)) && bool_decide (is_Some (ram !! (a + 1))) &&
     bool_decide (is_Some (ram !! (a + 2))) && bool_decide (is_Some (ram !! (a + 3)))
  then Some (<[a + 3 := b3]> (<[a + 2 := b2]> (<[a + 1 := b1]> (<[a := b0]> ram))))
  else None.
Proof.
  unfold dma_memory_write. cbn [length seq forallb imap foldl Z.of_nat Pos.of_succ_nat Pos.succ].
  rewrite Z.add_0_r, andb_true_r, !andb_assoc. reflexivity.
Qed.

Lemma be32_roundtrip (w : Z) :
  0 <= w < 2 ^ 32 ->
  Z.lor (Z.lor (Z.shiftl (Z.land (Z.shiftr w 24) 0xff) 24)
               (Z.shiftl (Z.land (Z.shiftr w 16) 0xff) 16))
        (Z.lor (Z.shiftl (Z.land (Z.shiftr w 8) 0xff) 8) (Z.land w 0xff)) = w.
Proof.
  intros Hw. rewrite <- (Z.mod_small w (2 ^ 32)) at 5 by lia.
  change 0xff with (Z.ones 8). Z.bitblast.
Qed.

Lemma dma_write_be32_load (ram ram' : gmap Z Z) (a w : Z) :
  0 <= w < 2 ^ 32 ->
  dma_memory_write ram a (be32_bytes w) = Some ram' ->
  be32_load ram' a = Some w.
Proof.
  intros Hw. unfold be32_bytes. rewrite dma_write4.
  destruct (_ && _); [|discriminate]. intros [= <-].
  unfold be32_load.
  rewrite (lookup_insert_ne _ (a + 3) a), (lookup_insert_ne _ (a + 2) a),
    (lookup_insert_ne _ (a + 1) a), lookup_insert_eq by lia.
  cbn [mbind option_bind].
  rewrite (lookup_insert_ne _ (a + 3) (a + 1)), (lookup_insert_ne _ (a + 2) (a + 1)),
    lookup_insert_eq by lia.
  cbn [mbind option_bind].
  rewrite (lookup_insert_ne _ (a + 3) (a + 2)), lookup_insert_eq by lia.
  cbn [mbind option_bind].
  rewrite lookup_insert_eq. cbn [mbind option_bind].
  f_equal. now apply be32_roundtrip.
Qed.

Lemma PAGE_OFF_field : EQ_W1_PAGE_OFF = field_mask 0 22 /\ MASK_TO_LSH EQ_W1_PAGE_OFF = 0.
Proof. split; reflexivity. Qed.
Lemma GENERATION_field : EQ_W1_GENERATION = field_mask 22 1 /\ MASK_TO_LSH EQ_W1_GENERATION = 22.
Proof. split; reflexivity. Qed.
Lemma ESn_field : EQ_W1_ESn = field_mask 30 2 /\ MASK_TO_LSH EQ_W1_ESn = 30.
Proof. split; reflexivity. Qed.
Lemma ESe_field : EQ_W1_ESe = field_mask 28 2 /\ MASK_TO_LSH EQ_W1_ESe = 28.
Proof. split; reflexivity. Qed.
Lemma QSIZE_field : EQ_W0_QSIZE = field_mask 16 3 /\ MASK_TO_LSH EQ_W0_QSIZE = 16.
Proof. split; reflexivity. Qed.

Lemma GETFIELD_SETFIELD_eq (m s w v val : Z) :
  m = field_mask s w /\ MASK_TO_LSH m = s -> 0 <= s -> 0 <= w -> s + w <= 32 ->
  GETFIELD m (SETFIELD m v val) = Z.land val (Z.ones w).
Proof.
  intros [-> Hs] H0 Hw Hsw. unfold GETFIELD, SETFIELD, u32. rewrite Hs. unfold field_mask.
  Z.bitblast.
Qed.

Lemma GETFIELD_SETFIELD_ne (m s w m' s' w' v val : Z) :
  m = field_mask s w /\ MASK_TO_LSH m = s -> 0 <= s -> 0 <= w ->
  m' = field_mask s' w' /\ MASK_TO_LSH m' = s' -> 0 <= s' -> 0 <= w' -> s' + w' <= 32 ->
  s + w <= s' \/ s' + w' <= s ->
  GETFIELD m' (SETFIELD m v val) = GETFIELD m' v.
Proof.
  intros [-> Hs] H0 Hw [-> Hs'] H0' Hw' Hsw' Hd. unfold GETFIELD, SETFIELD, u32. rewrite Hs, Hs'. unfold field_mask.
  Z.bitblast.
Qed.

Lemma SETFIELD_range (m v val : Z) : 0 <= SETFIELD m v val < 2 ^ 32.
Proof. unfold SETFIELD, u32. apply Z.mod_pos_bound. reflexivity. Qed.

Lemma eq_qindex_range (eq : XiveEQ) : 0 <= eq_qindex eq < 4194304.
Proof. apply (GETFIELD_range _ 0 22); try apply PAGE_OFF_field; lia. Qed.

Lemma eq_qgen_range (eq : XiveEQ) : 0 <= eq_qgen eq < 2.
Proof. apply (GETFIELD_range _ 22 1); try apply GENERATION_field; lia. Qed.

Lemma eq_qentries_range (eq : XiveEQ) : 1024 <= eq_qentries eq <= 131072.
Proof.
  unfold eq_qentries.
  pose proof (GETFIELD_range EQ_W0_QSIZE 16 3 (w0 eq)
                (proj1 QSIZE_field) (proj2 QSIZE_field) ltac:(lia) ltac:(lia)) as H.
  change (2 ^ 3) with 8 in H.
  change 1024 with (2 ^ 10). change 131072 with (2 ^ 17).
  split; apply Z.pow_le_mono_r; lia.
Qed.

Lemma eq_qaddr_base_range (eq : XiveEQ) :
  wf_eq eq -> 0 <= eq_qaddr_base eq < 1152921504606846976.
Proof.
  intros Hwf. unfold wf_eq in Hwf. rewrite !Forall_cons in Hwf.
  destruct Hwf as (_ & _ & _ & H3 & _).
  unfold eq_qaddr_base.
  assert (H0 : 0 <= Z.lor (Z.shiftl (Z.land (w2 eq) 0xfffffff) 32) (w3 eq)).
  { apply Z.lor_nonneg. split; [apply Z.shiftl_nonneg, Z.land_nonneg|]; lia. }
  change 1152921504606846976 with (2 ^ 60).
  apply (Z.bounded_iff_bits_nonneg' 60); [lia|exact H0|].
  intros l Hl. rewrite Z.lor_spec, Z.shiftl_spec, Z.land_spec by lia.
  change 0xfffffff with (Z.ones 28). rewrite Z.ones_spec_high by lia.
  rewrite (proj1 (Z.bounded_iff_bits_nonneg' 32 (w3 eq) ltac:(lia) ltac:(lia))) by lia.
  rewrite andb_false_r. reflexivity.
Qed.

Lemma qdata_word (g d : Z) :
  0 <= g < 2 ->
  u32 (Z.lor (u32 (Z.shiftl g 31)) (Z.land d 0x7fffffff)) =
  Z.lor (Z.shiftl g 31) (Z.land d 0x7fffffff).
Proof.
  intros Hg. assert (Hc : g = 0 \/ g = 1) by lia.
  assert (Hr : 0 <= Z.land d 0x7fffffff < 2 ^ 31).
  { change 0x7fffffff with (Z.ones 31). rewrite Z.land_ones by lia.
    apply Z.mod_pos_bound. reflexivity. }
  destruct Hc as [-> | ->].
  - change (u32 (Z.shiftl 0 31)) with 0. change (Z.shiftl 0 31) with 0.
    rewrite Z.lor_0_l. unfold u32. apply Z.mod_small. lia.
  - change (u32 (Z.shiftl 1 31)) with (2 ^ 31). change (Z.shiftl 1 31) with (2 ^ 31).
    unfold u32. apply Z.mod_small.
    rewrite Z.lor_comm, Z.or_to_plus.
    + lia.
    + change 0x7fffffff with (Z.ones 31). change (2 ^ 31) with (Z.shiftl (Z.ones 1) 31).
      Z.bitblast.
Qed.

Lemma qdata_word_range (g d : Z) :
  0 <= g < 2 -> 0 <= Z.lor (Z.shiftl g 31) (Z.land d 0x7fffffff) < 2 ^ 32.
Proof.
  intros Hg. rewrite <- qdata_word by assumption. unfold u32 at 1.
  apply Z.mod_pos_bound. reflexivity.
Qed.

Lemma xive_eq_push_unfold (eq : XiveEQ) (data : Z) (ram : gmap Z Z) :
  wf_eq eq ->
  xive_eq_push eq data ram =
  match dma_memory_write ram (eq_qaddr eq) (be32_bytes (eq_qword eq data)) with
  | None => (eq, ram, [Log_eq_write_failed (eq_qaddr eq)])
  | Some ram' =>
      let q := (eq_qindex eq + 1) mod eq_qentries eq in
      (set_w1 eq (SETFIELD EQ_W1_PAGE_OFF
                    (if q =? 0
                     then SETFIELD EQ_W1_GENERATION (w1 eq) (Z.lxor (eq_qgen eq) 1)
                     else w1 eq) q),
       ram', [])
  end.
Proof.
  intros Hwf. unfold xive_eq_push.
  fold (eq_qaddr_base eq) (eq_qindex eq) (eq_qgen eq).
  pose proof (eq_qindex_range eq) as Hq. pose proof (eq_qgen_range eq) as Hg.
  pose proof (eq_qaddr_base_range eq Hwf) as Hb.
  pose proof (eq_qentries_range eq) as Hn.
  assert (Hs : u32 (Z.shiftl (eq_qindex eq) 2) = 4 * eq_qindex eq).
  { rewrite Z.shiftl_mul_pow2 by lia. unfold u32. change (2 ^ 2) with 4.
    change (2 ^ 32) with 4294967296. rewrite Z.mod_small; lia. }
  assert (Ha : u64 (eq_qaddr_base eq + u32 (Z.shiftl (eq_qindex eq) 2)) = eq_qaddr eq).
  { rewrite Hs. unfold u64, eq_qaddr. apply Z.mod_small.
    change (2 ^ 64) with 18446744073709551616. lia. }
  assert (He : u32 (Z.shiftl 1 (GETFIELD EQ_W0_QSIZE (w0 eq) + 10)) = eq_qentries eq).
  { pose proof (GETFIELD_range EQ_W0_QSIZE 16 3 (w0 eq)
                (proj1 QSIZE_field) (proj2 QSIZE_field) ltac:(lia) ltac:(lia)).
    rewrite Z.shiftl_1_l. unfold u32. fold (eq_qentries eq). apply Z.mod_small.
    change (2 ^ 32) with 4294967296. lia. }
  assert (Hi : u32 (eq_qindex eq + 1) = eq_qindex eq + 1).
  { unfold u32. apply Z.mod_small. change (2 ^ 32) with 4294967296. lia. }
  rewrite Ha, He, Hi, (qdata_word _ _ Hg). fold (eq_qword eq data).
  destruct (dma_memory_write _ _ _); [|reflexivity].
  cbv zeta. destruct (_ =? 0); reflexivity.
Qed.

Lemma xive_eq_push_ok (eq : XiveEQ) (data : Z) (ram ram' : gmap Z Z) :
  wf_eq eq ->
  dma_memory_write ram (eq_qaddr eq) (be32_bytes (eq_qword eq data)) = Some ram' ->
  exists eq',
    xive_eq_push eq data ram = (eq', ram', []) /\
    be32_load ram' (eq_qaddr eq) = Some (eq_qword eq data) /\
    eq_qindex eq' = (eq_qindex eq + 1) mod eq_qentries eq /\
    eq_qgen eq' = (if eq_qindex eq' =? 0 then Z.lxor (eq_qgen eq) 1 else eq_qgen eq) /\
    GETFIELD EQ_W1_ESn (w1 eq') = GETFIELD EQ_W1_ESn (w1 eq) /\
    GETFIELD EQ_W1_ESe (w1 eq') = GETFIELD EQ_W1_ESe (w1 eq) /\
    (w0 eq', w2 eq', w3 eq', w4 eq', w5 eq', w6 eq', w7 eq') =
      (w0 eq, w2 eq, w3 eq, w4 eq, w5 eq, w6 eq, w7 eq) /\
    wf_eq eq'.
Proof.
  intros Hwf Hdma. rewrite (xive_eq_push_unfold _ _ _ Hwf), Hdma. cbv zeta.
  pose proof (eq_qindex_range eq) as Hq. pose proof (eq_qgen_range eq) as Hg.
  pose proof (eq_qentries_range eq) as Hn.
  set (q := (eq_qindex eq + 1) mod eq_qentries eq).
  assert (Hq' : 0 <= q < eq_qentries eq) by (apply Z.mod_pos_bound; lia).
  assert (Hland : Z.land q (Z.ones 22) = q).
  { rewrite Z.land_ones by lia. apply Z.mod_small.
    change (2 ^ 22) with 4194304. lia. }
  eexists. split; [reflexivity|].
  split; [apply (dma_write_be32_load ram); [apply qdata_word_range, Hg|exact Hdma]|].
  change (eq_qindex (set_w1 eq ?x)) with (GETFIELD EQ_W1_PAGE_OFF x).
  change (eq_qgen (set_w1 eq ?x)) with (GETFIELD EQ_W1_GENERATION x).
  cbn [w1 set_w1 w0 w2 w3 w4 w5 w6 w7].
  rewrite (GETFIELD_SETFIELD_eq EQ_W1_PAGE_OFF 0 22) by (try apply PAGE_OFF_field; lia).
  rewrite (GETFIELD_SETFIELD_ne EQ_W1_PAGE_OFF 0 22 EQ_W1_GENERATION 22 1)
    by (try apply PAGE_OFF_field; try apply GENERATION_field; lia).
  rewrite (GETFIELD_SETFIELD_ne EQ_W1_PAGE_OFF 0 22 EQ_W1_ESn 30 2)
    by (try apply PAGE_OFF_field; try apply ESn_field; lia).
  rewrite (GETFIELD_SETFIELD_ne EQ_W1_PAGE_OFF 0 22 EQ_W1_ESe 28 2)
    by (try apply PAGE_OFF_field; try apply ESe_field; lia).
  rewrite Hland.
  split; [reflexivity|].
  assert (Hwf' : forall x, wf_eq (set_w1 eq (SETFIELD EQ_W1_PAGE_OFF x q))).
  { intros x. unfold wf_eq in *. rewrite !Forall_cons in *. cbn [w1 set_w1 w0 w2 w3 w4 w5 w6 w7].
    pose proof (SETFIELD_range EQ_W1_PAGE_OFF x q). tauto. }
  destruct (q =? 0) eqn:Hq0.
  - rewrite (GETFIELD_SETFIELD_eq EQ_W1_GENERATION 22 1) by (try apply GENERATION_field; lia).
    rewrite (GETFIELD_SETFIELD_ne EQ_W1_GENERATION 22 1 EQ_W1_ESn 30 2)
      by (try apply GENERATION_field; try apply ESn_field; lia).
    rewrite (GETFIELD_SETFIELD_ne EQ_W1_GENERATION 22 1 EQ_W1_ESe 28 2)
      by (try apply GENERATION_field; try apply ESe_field; lia).
    repeat split; try reflexivity; [|apply Hwf'].
    assert (Hc : eq_qgen eq = 0 \/ eq_qgen eq = 1) by lia.
    destruct Hc as [-> | ->]; reflexivity.
  - repeat split; try reflexivity. apply Hwf'.
Qed.

Lemma dma_write_mapped (ram : gmap Z Z) (a w : Z) :
  (forall k, 0 <= k < 4 -> is_Some (ram !! (a + k))) ->
  exists ram', dma_memory_write ram a (be32_bytes w) = Some ram' /\
               forall x, is_Some (ram' !! x) <-> is_Some (ram !! x).
Proof.
  intros Hm. unfold be32_bytes. rewrite dma_write4.
  pose proof (Hm 0 ltac:(lia)) as H0. rewrite Z.add_0_r in H0.
  pose proof (Hm 1 ltac:(lia)) as H1.
  pose proof (Hm 2 ltac:(lia)) as H2.
  pose proof (Hm 3 ltac:(lia)) as H3.
  rewrite !bool_decide_eq_true_2 by assumption. cbn [andb].
  eexists. split; [reflexivity|].
  intros x. rewrite !lookup_insert_is_Some'.
  split; [|tauto].
  intros [<-|[<-|[<-|[<-|H]]]]; assumption.
Qed.

Lemma lxor_parity (g y : Z) :
  Z.lxor (Z.lxor g 1) (y mod 2) = Z.lxor g ((1 + y) mod 2).
Proof.
  rewrite Z.lxor_assoc. f_equal.
  assert (H : y mod 2 = 0 \/ y mod 2 = 1) by (pose proof (Z.mod_pos_bound y 2); lia).
  rewrite Z.add_mod by lia.
  destruct H as [-> | ->]; reflexivity.
Qed.

Lemma xive_eq_push_all_ok (ds : list Z) : forall (eq : XiveEQ) (ram : gmap Z Z),
  wf_eq eq ->
  eq_qindex eq < eq_qentries eq ->
  (forall k, 0 <= k < 4 * eq_qentries eq -> is_Some (ram !! (eq_qaddr_base eq + k))) ->
  exists eq' ram',
    xive_eq_push_all eq ds ram = (eq', ram', []) /\
    eq_qindex eq' = (eq_qindex eq + Z.of_nat (length ds)) mod eq_qentries eq /\
    eq_qgen eq' =
      Z.lxor (eq_qgen eq)
             (((eq_qindex eq + Z.of_nat (length ds)) / eq_qentries eq) mod 2) /\
    eq_qentries eq' = eq_qentries eq.
Proof.
  induction ds as [|d ds IH]; intros eq ram Hwf Hlt Hmap.
  - pose proof (eq_qindex_range eq). pose proof (eq_qentries_range eq).
    exists eq, ram. cbn [xive_eq_push_all length Z.of_nat].
    rewrite Z.add_0_r, Z.mod_small, Z.div_small by lia.
    change (0 mod 2) with 0. rewrite Z.lxor_0_r. auto.
  - pose proof (eq_qindex_range eq) as Hq. pose proof (eq_qentries_range eq) as Hn.
    destruct (dma_write_mapped ram (eq_qaddr eq) (eq_qword eq d)) as (ram1 & Hdma & Hdom).
    { intros k Hk. unfold eq_qaddr. rewrite <- Z.add_assoc. apply Hmap. lia. }
    destruct (xive_eq_push_ok eq d ram ram1 Hwf Hdma)
      as (eq1 & Hpush & _ & Hidx & Hgen & _ & _ & Hws & Hwf1).
    assert (Hent : eq_qentries eq1 = eq_qentries eq).
    { unfold eq_qentries. injection Hws as -> _ _ _ _ _ _. reflexivity. }
    assert (Hbase : eq_qaddr_base eq1 = eq_qaddr_base eq).
    { unfold eq_qaddr_base. injection Hws as _ -> -> _ _ _ _. reflexivity. }
    assert (Hlt1 : eq_qindex eq1 < eq_qentries eq1).
    { rewrite Hidx, Hent. apply Z.mod_pos_bound. lia. }
    destruct (IH eq1 ram1 Hwf1 Hlt1) as (eq2 & ram2 & Hall & Hidx2 & Hgen2 & Hent2).
    { intros k Hk. rewrite Hbase. apply Hdom, Hmap. rewrite <- Hent. exact Hk. }
    exists eq2, ram2. cbn [xive_eq_push_all]. rewrite Hpush, Hall.
    split; [reflexivity|].
    rewrite Hent in *. rewrite Hent2.
    set (N := eq_qentries eq) in *. set (q := eq_qindex eq) in *.
    set (K := Z.of_nat (length ds)) in *.
    replace (Z.of_nat (length (d :: ds))) with (K + 1)
      by (subst K; cbn [length]; lia).
    assert (HK : 0 <= K) by (subst K; lia).
    destruct (Z.eq_dec (q + 1) N) as [Hwrap|Hno].
    + assert (Hi0 : eq_qindex eq1 = 0).
      { rewrite Hidx, Hwrap. apply Z.mod_same. lia. }
      rewrite Hi0 in *. cbn [Z.eqb] in Hgen.
      rewrite Hidx2, Hgen2, Hgen. rewrite !Z.add_0_l.
      replace (q + (K + 1)) with (K + 1 * N) by lia.
      rewrite Z.mod_add, Z.div_add by lia.
      repeat split. rewrite (Z.add_comm _ 1). apply lxor_parity.
    + assert (Hi1 : eq_qindex eq1 = q + 1).
      { rewrite Hidx. apply Z.mod_small. lia. }
      rewrite Hi1 in *.
      assert (Hg : eq_qgen eq1 = eq_qgen eq).
      { rewrite Hgen. destruct (Z.eqb_spec (q + 1) 0); [lia|reflexivity]. }
      rewrite Hidx2, Hgen2, Hg.
      replace (q + (K + 1)) with (q + 1 + K) by lia. auto.
Qed.

Lemma eq_notify_enqueue_push (m : XiveMachine) (eq_blk eq_idx : Z) (eq : XiveEQ)
    (eq_data : Z) :
  Z.land (w0 eq) EQ_W0_ENQUEUE <> 0 ->
  exists eq' r l,
    xive_eq_push eq eq_data (ram m) = (eq', r, l) /\
    eq_notify_enqueue m eq_blk eq_idx eq eq_data =
      (eq', xive_router_set_eq (add_log (set_ram m r) l) eq_blk eq_idx eq') /\
    xive_router_get_eq (snd (eq_notify_enqueue m eq_blk eq_idx eq eq_data))
      eq_blk eq_idx = Some eq'.
Proof.
  intros He. unfold eq_notify_enqueue.
  destruct (Z.eqb_spec (Z.land (w0 eq) EQ_W0_ENQUEUE) 0) as [H0|_]; [contradiction|].
  destruct (xive_eq_push eq eq_data (ram m)) as [[eq' r] l].
  exists eq', r, l. repeat split.
  unfold xive_router_get_eq, xive_router_set_eq. cbn [snd eq_table].
  apply lookup_insert_eq.
Qed.

(** C3. On a descriptor with ENQUEUE set, a push whose DMA write goes
    through writes the big-endian word (generation << 31) | (data &
    0x7fffffff) at qaddr_base + (qindex << 2), increments qindex modulo
    2^(QSIZE+10), flips the generation bit exactly when qindex wraps to 0,
    and the descriptor is written back.  Hence K pushes into a queue of N
    entries backed by guest RAM, from index q and generation g, leave
    index (q + K) mod N and generation g XOR (((q + K) / N) mod 2); from
    index 0 these are K mod N and g XOR ((K / N) mod 2). *)
Theorem eq_push_queue (eq : XiveEQ) :
  wf_eq eq ->
  Z.land (w0 eq) EQ_W0_ENQUEUE <> 0 ->
  (forall (m : XiveMachine) (eq_blk eq_idx data : Z) (ram' : gmap Z Z),
     dma_memory_write (ram m) (eq_qaddr eq) (be32_bytes (eq_qword eq data)) = Some ram' ->
     exists eq',
       xive_eq_push eq data (ram m) = (eq', ram', []) /\
       eq_notify_enqueue m eq_blk eq_idx eq data =
         (eq', xive_router_set_eq (add_log (set_ram m ram') []) eq_blk eq_idx eq') /\
       be32_load ram' (eq_qaddr eq) = Some (eq_qword eq data) /\
       eq_qindex eq' = (eq_qindex eq + 1) mod 2 ^ (GETFIELD EQ_W0_QSIZE (w0 eq) + 10) /\
       eq_qgen eq' = (if eq_qindex eq' =? 0 then Z.lxor (eq_qgen eq) 1 else eq_qgen eq)) /\
  (forall (ds : list Z) (ram : gmap Z Z),
     let N := 2 ^ (GETFIELD EQ_W0_QSIZE (w0 eq) + 10) in
     let K := Z.of_nat (length ds) in
     eq_qindex eq < N ->
     (forall k, 0 <= k < 4 * N -> is_Some (ram !! (eq_qaddr_base eq + k))) ->
     exists eq' ram',
       xive_eq_push_all eq ds ram = (eq', ram', []) /\
       eq_qindex eq' = (eq_qindex eq + K) mod N /\
       eq_qgen eq' = Z.lxor (eq_qgen eq) (((eq_qindex eq + K) / N) mod 2) /\
       (eq_qindex eq = 0 ->
        eq_qindex eq' = K mod N /\
        eq_qgen eq' = Z.lxor (eq_qgen eq) ((K / N) mod 2))).
Proof.
  intros Hwf Henq. split.
  - intros m blk idx data ram' Hdma.
    destruct (xive_eq_push_ok eq data (ram m) ram' Hwf Hdma)
      as (eq' & Hpush & Hload & Hidx & Hgen & _).
    destruct (eq_notify_enqueue_push m blk idx eq data Henq)
      as (eq1 & r1 & l1 & Hpush1 & Henq1 & _).
    rewrite Hpush in Hpush1. injection Hpush1 as <- <- <-.
    exists eq'. auto.
  - intros ds ram N K Hlt Hmap.
    destruct (xive_eq_push_all_ok ds eq ram Hwf Hlt Hmap)
      as (eq' & ram' & Hall & Hidx & Hgen & _).
    exists eq', ram'. fold N K in Hidx, Hgen. unfold eq_qentries in Hidx, Hgen.
    fold N in Hidx, Hgen.
    repeat split; try assumption.
    + rewrite Hidx, H. reflexivity.
    + rewrite Hgen, H. reflexivity.
Qed.

(** The push of scenario 6 writes its word at the last entry of the queue,
    wraps the index and flips the generation. *)
Lemma eq_push_queue_witness :
  wf_eq scenario_eq /\
  Z.land (w0 scenario_eq) EQ_W0_ENQUEUE <> 0 /\
  (exists eq' ram',
     xive_eq_push scenario_eq 0xABCD (ram machine_last_entry) = (eq', ram', []) /\
     be32_load ram' 0x10000ffc = Some 0xABCD /\
     eq_qindex eq' = 0 /\ eq_qgen eq' = 1) /\
  exists eq' ram',
    xive_eq_push_all scenario_eq [0xABCD] scenario_ram = (eq', ram', []) /\
    eq_qindex eq' = 0 /\ eq_qgen eq' = 1.
Proof.
  assert (Hwf : wf_eq scenario_eq) by by_decide.
  assert (Henq : Z.land (w0 scenario_eq) EQ_W0_ENQUEUE <> 0)
    by (vm_compute; discriminate).
  split; [exact Hwf|]. split; [exact Henq|].
  destruct (eq_push_queue scenario_eq Hwf Henq) as [Hone Hall].
  split.
  - assert (Hdma : dma_memory_write (ram machine_last_entry) (eq_qaddr scenario_eq)
                     (be32_bytes (eq_qword scenario_eq 0xABCD)) = Some ram_last_entry_pushed)
      by (vm_compute; reflexivity).
    destruct (Hone machine_last_entry 0 3 0xABCD _ Hdma)
      as (eq' & Hp & _ & Hl & Hi & Hg).
    exists eq', ram_last_entry_pushed. split; [exact Hp|]. split; [exact Hl|].
    rewrite Hg, Hi. split; reflexivity.
  - destruct (Hall [0xABCD] scenario_ram) as (eq' & ram' & Hp & Hi & Hg & _).
    + vm_compute. reflexivity.
    + intros k Hk.
      assert (HF : Forall (fun a => is_Some (scenario_ram !! a)) (seqZ 0x10000000 4096))
        by by_decide.
      rewrite Forall_seqZ in HF. apply HF.
      change (eq_qaddr_base scenario_eq) with 0x10000000.
      change (4 * 2 ^ (GETFIELD EQ_W0_QSIZE (w0 scenario_eq) + 10)) with 4096 in Hk.
      lia.
    + exists eq', ram'. split; [exact Hp|]. split; [exact Hi|exact Hg].
Defined.

(** ** Special operations of the TIMA *)

Lemma page_range (TM_SHIFT offset : Z) : 0 <= Z.land (Z.shiftr offset TM_SHIFT) 3 < 4.
Proof.
  change 3 with (Z.ones 2). rewrite Z.land_ones by lia. apply Z.mod_pos_bound. reflexivity.
Qed.

(** C5, as stated, fails: the handler of the OS page is found from the OS
    page and not from the USER page, whichever the page shift. *)
Lemma tm_user_page_counterexample :
  xive_tm_find_op 16 0x20810 2 false = Some tm_op_ack_os_reg /\
  xive_tm_find_op 16 0x30810 2 false = None /\
  xive_tm_find_op 12 0x2810 2 false = Some tm_op_ack_os_reg /\
  xive_tm_find_op 12 0x3810 2 false = None.
Proof. repeat split. Qed.

(** C5, amended. A handler registered for a page is also invoked from the
    more privileged pages, those of lower number (HW 0, HV 1, OS 2,
    USER 3), and from no less privileged page: every handler of the table
    is registered for the OS page, is found from the HW, HV and OS pages
    and is not found from the USER page. *)
Theorem tm_find_op_privilege (TM_SHIFT offset size : Z) (write : bool) (xto : XiveTmOp) :
  In xto xive_tm_operations ->
  op_offset xto = Z.land offset 0xFFF ->
  op_size xto = size ->
  (if write then has_handler (write_handler xto)
   else has_handler (read_handler xto)) = true ->
  let page := Z.land (Z.shiftr offset TM_SHIFT) 0x3 in
  (page <= page_offset xto ->
   xive_tm_find_op TM_SHIFT offset size write = Some xto) /\
  (page_offset xto < page ->
   xive_tm_find_op TM_SHIFT offset size write = None) /\
  page_offset xto = XIVE_TM_OS_PAGE /\
  (page = XIVE_TM_USER_PAGE ->
   xive_tm_find_op TM_SHIFT offset size write = None).
Proof.
  intros Hin Hoff Hsize Hh page.
  unfold xive_tm_find_op. fold page. rewrite <- Hoff, <- Hsize.
  pose proof (page_range TM_SHIFT offset) as Hp. fold page in Hp. clearbody page.
  unfold XIVE_TM_OS_PAGE, XIVE_TM_USER_PAGE.
  cbn [In xive_tm_operations] in Hin.
  revert Hh Hin; intros Hh [<-|[<-|[<-|[]]]]; destruct write; try discriminate Hh;
    unfold tm_op_set_os_cppr, tm_op_ack_os_reg, tm_op_set_os_pending;
    cbn [page_offset]; unfold XIVE_TM_OS_PAGE.
  all: split; [intros Hle; assert (Hc : page = 0 \/ page = 1 \/ page = 2) by lia;
               destruct Hc as [-> | [-> | ->]]; reflexivity|].
  all: split; [intros Hlt; assert (Hc : page = 3) by lia; rewrite Hc; reflexivity|].
  all: split; [reflexivity|intros ->; reflexivity].
Qed.

(** The accept handler is found from the HV page. *)
Lemma tm_find_op_privilege_witness :
  In tm_op_ack_os_reg xive_tm_operations /\
  xive_tm_find_op 16 0x10810 2 false = Some tm_op_ack_os_reg.
Proof.
  assert (Hin : In tm_op_ack_os_reg xive_tm_operations) by (right; left; reflexivity).
  split; [exact Hin|].
  apply (tm_find_op_privilege 16 0x10810 2 false tm_op_ack_os_reg Hin
           eq_refl eq_refl eq_refl).
  vm_compute. discriminate.
Defined.

(** ** Raw loads from the TIMA *)

Lemma testbit_foldl_lor {A : Type} (F : A -> Z) (l : list A) : forall (acc n : Z),
  Z.testbit (foldl (fun ret i => Z.lor ret (F i)) acc l) n =
  Z.testbit acc n || existsb (fun i => Z.testbit (F i) n) l.
Proof.
  induction l as [|x l IH]; intros acc n; cbn [foldl existsb].
  - now rewrite orb_false_r.
  - rewrite IH, Z.lor_spec, orb_assoc. reflexivity.
Qed.

Lemma testbit_foldl_lor_if {A : Type} (C : A -> bool) (G : A -> Z) (l : list A) :
  forall (acc n : Z),
  Z.testbit (foldl (fun m i => if C i then m else Z.lor m (G i)) acc l) n =
  Z.testbit acc n || existsb (fun i => negb (C i) && Z.testbit (G i) n) l.
Proof.
  induction l as [|x l IH]; intros acc n; cbn [foldl existsb].
  - now rewrite orb_false_r.
  - rewrite IH. destruct (C x); cbn [negb andb orb].
    + reflexivity.
    + rewrite Z.lor_spec, orb_assoc. reflexivity.
Qed.

Lemma existsb_single (f : Z -> bool) (l : list Z) (k : Z) :
  In k l -> (forall i, In i l -> i <> k -> f i = false) ->
  existsb f l = f k.
Proof.
  intros Hk Hne. destruct (f k) eqn:Hfk.
  - apply existsb_exists. exists k. auto.
  - destruct (existsb f l) eqn:He; [|reflexivity].
    apply existsb_exists in He. destruct He as (i & Hi & Hfi).
    destruct (Z.eq_dec i k) as [->|Hik]; [congruence|].
    rewrite (Hne i Hi Hik) in Hfi. discriminate.
Qed.

Lemma testbit_byte_high (x i : Z) : 0 <= x < 256 -> 8 <= i -> Z.testbit x i = false.
Proof.
  intros Hx Hi.
  apply (proj1 (Z.bounded_iff_bits_nonneg' 8 x ltac:(lia) ltac:(lia))); [|lia].
  change (2 ^ 8) with 256. lia.
Qed.

(** Bit [j] of byte [k] of the value the load loop assembles. *)
Lemma be_fold_bit (b : Z -> Z) (size k j : Z) :
  (forall i, 0 <= b i < 256) ->
  0 <= k < size -> size <= 8 -> 0 <= j < 8 ->
  Z.testbit (foldl (fun ret i => Z.lor ret (u64 (Z.shiftl (b i) (8 * (size - i - 1)))))
                   0 (seqZ 0 size))
            (j + 8 * (size - k - 1)) = Z.testbit (b k) j.
Proof.
  intros Hb Hk Hs Hj.
  rewrite (testbit_foldl_lor (fun i => u64 (Z.shiftl (b i) (8 * (size - i - 1))))).
  rewrite Z.testbit_0_l, orb_false_l.
  rewrite (existsb_single _ _ k).
  - unfold u64. rewrite Z.testbit_mod_pow2 by lia.
    rewrite Z.shiftl_spec by lia.
    replace (j + 8 * (size - k - 1) - 8 * (size - k - 1)) with j by lia.
    destruct (Z.ltb_spec (j + 8 * (size - k - 1)) 64); [reflexivity|lia].
  - apply list_elem_of_In, elem_of_seqZ. lia.
  - intros i Hi Hik. apply list_elem_of_In, elem_of_seqZ in Hi.
    unfold u64. rewrite Z.testbit_mod_pow2 by lia.
    rewrite Z.shiftl_spec by lia.
    destruct (Z_lt_le_dec i k).
    + rewrite Z.testbit_neg_r by lia. apply andb_false_r.
    + rewrite (testbit_byte_high (b i)) by (auto; lia). apply andb_false_r.
Qed.

Lemma mask_fold_bit (C : Z -> bool) (size k j : Z) :
  0 <= k < size -> size <= 8 -> 0 <= j < 8 ->
  Z.testbit (foldl (fun m i => if C i then m
                               else Z.lor m (u64 (Z.shiftl 0xff (8 * (size - i - 1)))))
                   0 (seqZ 0 size))
            (j + 8 * (size - k - 1)) = negb (C k).
Proof.
  intros Hk Hs Hj.
  rewrite (testbit_foldl_lor_if C (fun i => u64 (Z.shiftl 0xff (8 * (size - i - 1))))).
  rewrite Z.testbit_0_l, orb_false_l.
  rewrite (existsb_single _ _ k).
  - unfold u64. rewrite Z.testbit_mod_pow2 by lia.
    rewrite Z.shiftl_spec by lia.
    replace (j + 8 * (size - k - 1) - 8 * (size - k - 1)) with j by lia.
    change 0xff with (Z.ones 8). rewrite Z.ones_spec_low by lia.
    destruct (Z.ltb_spec (j + 8 * (size - k - 1)) 64); [|lia].
    now rewrite !andb_true_r.
  - apply list_elem_of_In, elem_of_seqZ. lia.
  - intros i Hi Hik. apply list_elem_of_In, elem_of_seqZ in Hi.
    unfold u64. rewrite Z.testbit_mod_pow2 by lia.
    rewrite Z.shiftl_spec by lia.
    destruct (Z_lt_le_dec i k).
    + rewrite Z.testbit_neg_r by lia. now rewrite !andb_false_r.
    + rewrite (testbit_byte_high 0xff) by lia. now rewrite !andb_false_r.
Qed.

Lemma mask_fold_zero (C : Z -> bool) (size : Z) :
  (forall i, 0 <= i < size -> C i = true) ->
  foldl (fun m i => if C i then m
                    else Z.lor m (u64 (Z.shiftl 0xff (8 * (size - i - 1)))))
        0 (seqZ 0 size) = 0.
Proof.
  intros HC. apply Z.bits_inj'. intros n Hn.
  rewrite (testbit_foldl_lor_if C (fun i => u64 (Z.shiftl 0xff (8 * (size - i - 1))))).
  rewrite Z.testbit_0_l, orb_false_l.
  destruct (existsb _ _) eqn:He; [|reflexivity].
  apply existsb_exists in He. destruct He as (i & Hi & Hfi).
  apply list_elem_of_In, elem_of_seqZ in Hi. rewrite HC in Hfi by lia. discriminate.
Qed.

Lemma masked_byte (raw mask s bk : Z) (c : bool) :
  (forall j, 0 <= j < 8 -> Z.testbit raw (j + s) = Z.testbit bk j) ->
  (forall j, 0 <= j < 8 -> Z.testbit mask (j + s) = c) ->
  0 <= bk < 256 -> 0 <= s ->
  Z.land (Z.shiftr (Z.land raw mask) s) 0xff = if c then bk else 0.
Proof.
  intros Hraw Hmask Hbk Hs. apply Z.bits_inj'. intros n Hn.
  change 0xff with (Z.ones 8).
  rewrite Z.land_spec, Z.shiftr_spec, Z.land_spec by lia.
  destruct (Z_lt_le_dec n 8).
  - rewrite Z.ones_spec_low, Hraw, Hmask by lia. rewrite andb_true_r.
    destruct c; [apply andb_true_r|]. rewrite Z.testbit_0_l. apply andb_false_r.
  - rewrite Z.ones_spec_high by lia. rewrite andb_false_r.
    destruct c; [|now rewrite Z.testbit_0_l]. symmetry. now apply testbit_byte_high.
Qed.

Lemma find_op_read_raw (TM_SHIFT offset size : Z) :
  Z.land offset 0x800 = 0 -> xive_tm_find_op TM_SHIFT offset size false = None.
Proof.
  intros H. unfold xive_tm_find_op.
  cbn [List.find xive_tm_operations tm_op_set_os_cppr tm_op_ack_os_reg
       tm_op_set_os_pending page_offset op_offset op_size write_handler
       read_handler has_handler negb andb orb].
  rewrite !andb_false_r.
  destruct (Z.eqb_spec TM_SPC_ACK_OS_REG (Z.land offset 0xFFF)) as [He|Hne].
  - symmetry in He. pose proof (land_within offset _ 0x800 He eq_refl) as Hc.
    rewrite H in Hc. discriminate Hc.
  - rewrite andb_false_r. reflexivity.
Qed.

(** C10. A load below 2K reaches the raw read.  A load of fewer than 4
    bytes, one whose access map gives an all-zero mask (as when no byte of
    the access is readable from the page), or one into the QW0_USER ring
    is rejected: it logs a guest error and returns all-ones.  A permitted
    load returns, byte by byte from the most significant one, the register
    byte where the read-access map of the page allows it and 0 where it
    does not; the context is unchanged. *)
Theorem tm_raw_read_filtered (TM_SHIFT : Z) (tctx : XiveTCTX) (offset size : Z) :
  Z.land offset 0x800 = 0 ->
  let page := Z.land (Z.shiftr offset TM_SHIFT) 0x3 in
  let reg := Z.land offset 0x3F in
  let readable i := negb (Z.land (view_get page (reg + i)) 0x2 =? 0) in
  let mask := xive_tm_mask TM_SHIFT offset size false in
  minus_one_u64 = Z.ones 64 /\
  (size < 4 \/ mask = 0 \/ Z.land offset 0x30 = TM_QW0_USER ->
   xive_tm_read TM_SHIFT tctx offset size =
     Done (minus_one_u64, tctx, [Log_tima_invalid_read offset])) /\
  ((forall i, 0 <= i < size -> readable i = false) -> mask = 0) /\
  (4 <= size <= 8 -> mask <> 0 -> Z.land offset 0x30 <> TM_QW0_USER ->
   wf_regs (regs tctx) -> reg + size <= 64 ->
   exists v,
     xive_tm_read TM_SHIFT tctx offset size = Done (v, tctx, []) /\
     forall i, 0 <= i < size ->
       Z.land (Z.shiftr v (8 * (size - i - 1))) 0xff =
       if readable i then reg_get (regs tctx) (reg + i) else 0).
Proof.
  intros Hraw page reg readable mask.
  split; [reflexivity|].
  assert (Hread : xive_tm_read TM_SHIFT tctx offset size =
            let '(v, l) := xive_tm_raw_read TM_SHIFT tctx offset size in
            Done (v, tctx, l)).
  { unfold xive_tm_read. rewrite Hraw, (find_op_read_raw _ _ _ Hraw). reflexivity. }
  rewrite Hread. unfold xive_tm_raw_read. fold mask reg.
  split; [|split].
  - intros Hrej.
    assert (Hb : (size <? 4) || (mask =? 0) || (Z.land offset 48 =? TM_QW0_USER) = true).
    { destruct Hrej as [H|[H|H]].
      - apply Z.ltb_lt in H. now rewrite H.
      - apply Z.eqb_eq in H. rewrite H. now rewrite orb_true_r.
      - apply Z.eqb_eq in H. rewrite H. now rewrite orb_true_r. }
    rewrite Hb. reflexivity.
  - intros Hnone. subst mask. unfold xive_tm_mask. fold page reg.
    apply (mask_fold_zero (fun i => Z.land (view_get page (reg + i)) 2 =? 0)).
    intros i Hi. specialize (Hnone i Hi). unfold readable in Hnone.
    now apply negb_false_iff in Hnone.
  - intros Hsize Hmask Hring Hwf Hin.
    assert (Hb : (size <? 4) || (mask =? 0) || (Z.land offset 48 =? TM_QW0_USER) = false).
    { apply Z.eqb_neq in Hmask, Hring. rewrite Hmask, Hring.
      destruct (Z.ltb_spec size 4); [lia|reflexivity]. }
    rewrite Hb. eexists. split; [reflexivity|].
    intros i Hi.
    apply (masked_byte _ _ _ _ (readable i)).
    + intros j Hj.
      apply (be_fold_bit (fun i => reg_get (regs tctx) (reg + i)) size i j); try lia.
      intros k. apply wf_regs_get, Hwf.
    + intros j Hj. subst mask. unfold xive_tm_mask. fold page reg.
      apply (mask_fold_bit (fun i => Z.land (view_get page (reg + i)) 2 =? 0)); lia.
    + apply wf_regs_get, Hwf.
    + lia.
Qed.

(** A 4-byte load of NSR, CPPR, IPB, LSMFB from the OS page. *)
Lemma tm_raw_read_filtered_witness :
  Z.land 0x20010 0x800 = 0 /\
  exists v, xive_tm_read 16 scenario_tctx 0x20010 4 = Done (v, scenario_tctx, []).
Proof.
  split; [reflexivity|].
  destruct (tm_raw_read_filtered 16 scenario_tctx 0x20010 4 eq_refl)
    as (_ & _ & _ & H).
  destruct H as (v & Hv & _).
  - lia.
  - vm_compute. discriminate.
  - vm_compute. discriminate.
  - by_decide.
  - vm_compute. discriminate.
  - exists v. exact Hv.
Defined.

(** ** The presenter *)

Section presenter.
Variables (format vp_blk vp_idx : Z) (cam_ignore : bool) (logic_serv : Z).

Lemma tctx_match_done (tctx : XiveTCTX) :
  exists ring l,
    xive_presenter_tctx_match tctx format vp_blk vp_idx cam_ignore logic_serv
      = Done (ring, l) /\
    (ring = -1 \/ ring = TM_QW3_HV_PHYS \/ ring = TM_QW2_HV_POOL \/
     ring = TM_QW1_OS \/ ring = TM_QW0_USER).
Proof.
  unfold xive_presenter_tctx_match, xive_tctx_ring_match.
  cbn [Z.eqb TM_QW3_HV_PHYS TM_QW2_HV_POOL TM_QW1_OS TM_QW0_USER Pos.eqb
       mbind mret Res_bind Res_ret].
  destruct (format =? 0).
  - destruct cam_ignore; [eauto 10|].
    repeat (match goal with |- context [if ?b then _ else _] => destruct b end);
      eauto 10.
  - repeat (match goal with |- context [if ?b then _ else _] => destruct b end);
      eauto 10.
Qed.

Lemma tctx_match_ring_spec (tctx : XiveTCTX) :
  exists l,
    xive_presenter_tctx_match tctx format vp_blk vp_idx cam_ignore logic_serv
      = Done (tctx_match_ring tctx format vp_blk vp_idx cam_ignore logic_serv, l) /\
    (tctx_match_ring tctx format vp_blk vp_idx cam_ignore logic_serv = -1 \/
     In (tctx_match_ring tctx format vp_blk vp_idx cam_ignore logic_serv)
        [TM_QW3_HV_PHYS; TM_QW2_HV_POOL; TM_QW1_OS; TM_QW0_USER]).
Proof.
  destruct (tctx_match_done tctx) as (ring & l & H & Hr).
  unfold tctx_match_ring. rewrite H. exists l. split; [reflexivity|].
  cbn [In]. intuition auto.
Qed.

Lemma presenter_match_foreach_spec (cs : list XiveTCTX) :
  forall (i : nat) (mt : XiveTCTXMatch) (l : list LogMsg),
  exists l',
    presenter_match_foreach cs i format vp_blk vp_idx cam_ignore logic_serv mt l =
    Done
      match matching_cpus cs i format vp_blk vp_idx cam_ignore logic_serv,
            match_tctx mt with
      | [], _ => (None, mt, l ++ l')
      | _ :: _, Some _ =>
          (Some false, mt, l ++ l' ++ [Log_already_found vp_blk vp_idx])
      | [(j, r)], None => (None, mkMatch (Some j) (u8 r), l ++ l')
      | (j, r) :: _ :: _, None =>
          (Some false, mkMatch (Some j) (u8 r),
           l ++ l' ++ [Log_already_found vp_blk vp_idx])
      end.
Proof.
  induction cs as [|tctx cs IH]; intros i mt l.
  - exists []. cbn [presenter_match_foreach matching_cpus]. rewrite app_nil_r. reflexivity.
  - cbn [presenter_match_foreach matching_cpus].
    destruct (tctx_match_ring_spec tctx) as (l1 & Hm & _). rewrite Hm.
    cbn [mbind Res_bind].
    set (ring := tctx_match_ring tctx format vp_blk vp_idx cam_ignore logic_serv).
    destruct (ring =? -1) eqn:Hr.
    + destruct (IH (S i) mt (l ++ l1)) as (l2 & ->).
      exists (l1 ++ l2).
      destruct (matching_cpus cs (S i) _ _ _ _ _) as [|[j r] [|? ?]];
        destruct (match_tctx mt); rewrite <- ?app_assoc; reflexivity.
    + destruct (match_tctx mt) eqn:Hmt.
      * exists l1.
        destruct (matching_cpus cs (S i) _ _ _ _ _) as [|[j r] [|? ?]];
          rewrite <- ?app_assoc; reflexivity.
      * destruct (IH (S i) (mkMatch (Some i) (u8 ring)) (l ++ l1)) as (l2 & ->).
        cbn [match_tctx].
        exists (l1 ++ l2).
        destruct (matching_cpus cs (S i) _ _ _ _ _) as [|[j r] [|? ?]];
          rewrite <- ?app_assoc; reflexivity.
Qed.

Lemma xive_presenter_match_spec (cs : list XiveTCTX) (priority : Z) :
  exists l,
    xive_presenter_match cs format vp_blk vp_idx cam_ignore priority logic_serv
      (mkMatch None 0) =
    Done
      match matching_cpus cs 0 format vp_blk vp_idx cam_ignore logic_serv with
      | [] => (false, mkMatch None 0, l ++ [Log_not_dispatched vp_blk vp_idx])
      | [(j, r)] => (true, mkMatch (Some j) (u8 r), l)
      | (j, r) :: _ :: _ =>
          (false, mkMatch (Some j) (u8 r), l ++ [Log_already_found vp_blk vp_idx])
      end.
Proof.
  unfold xive_presenter_match.
  destruct (presenter_match_foreach_spec cs 0%nat (mkMatch None 0) []) as (l & ->).
  exists l. cbn [match_tctx mbind Res_bind app].
  destruct (matching_cpus cs 0 _ _ _ _ _) as [|[j r] [|? ?]]; reflexivity.
Qed.

Lemma matching_cpus_lookup (cs : list XiveTCTX) : forall (i j : nat) (r : Z),
  In (j, r) (matching_cpus cs i format vp_blk vp_idx cam_ignore logic_serv) ->
  (i <= j)%nat /\
  exists tctx, cs !! (j - i)%nat = Some tctx /\
    r = tctx_match_ring tctx format vp_blk vp_idx cam_ignore logic_serv /\ r <> -1.
Proof.
  induction cs as [|tctx cs IH]; intros i j r Hin; cbn [matching_cpus] in Hin.
  - destruct Hin.
  - destruct (Z.eqb_spec (tctx_match_ring tctx format vp_blk vp_idx cam_ignore logic_serv) (-1))
      as [He|Hne].
    + destruct (IH _ _ _ Hin) as (Hle & t & Hl & Hr).
      split; [lia|]. exists t. split; [|exact Hr].
      replace (j - i)%nat with (S (j - S i)) by lia. exact Hl.
    + destruct Hin as [[= <- <-]|Hin].
      * split; [lia|]. exists tctx. rewrite Nat.sub_diag. auto.
      * destruct (IH _ _ _ Hin) as (Hle & t & Hl & Hr).
        split; [lia|]. exists t. split; [|exact Hr].
        replace (j - i)%nat with (S (j - S i)) by lia. exact Hl.
Qed.

End presenter.

Lemma reg_get_byte (a : list Z) (i : Z) : Forall is_byte a -> 0 <= reg_get a i < 256.
Proof.
  intros Hb. unfold reg_get.
  destruct (decide (Z.to_nat i < length a)%nat) as [Hi|Hi].
  - apply (Forall_lookup_total_1 _ _ _ Hb Hi).
  - rewrite list_lookup_total_alt, lookup_ge_None_2 by lia. simpl. lia.
Qed.

Lemma reg_set_byte (a : list Z) (i v : Z) : Forall is_byte a -> Forall is_byte (reg_set a i v).
Proof. intros Hb. apply Forall_insert; [assumption|apply u8_range]. Qed.

Lemma lor_byte (x y : Z) : 0 <= x < 256 -> 0 <= y < 256 -> 0 <= Z.lor x y < 256.
Proof.
  intros Hx Hy.
  assert (H0 : 0 <= Z.lor x y) by (apply Z.lor_nonneg; lia).
  change 256 with (2 ^ 8).
  apply (Z.bounded_iff_bits_nonneg' 8); [lia|lia|].
  intros l Hl. rewrite Z.lor_spec, !testbit_byte_high by lia. reflexivity.
Qed.

Lemma priority_to_ipb_byte (p : Z) : 0 <= priority_to_ipb p < 256.
Proof. unfold priority_to_ipb. destruct (_ <? _); [lia|apply u8_range]. Qed.

Lemma ipb_to_pipr_byte (x : Z) : 0 <= x < 256 -> 0 <= ipb_to_pipr x < 256.
Proof. revert x. by_bytes. Qed.

Lemma ipb_update_spec (a : list Z) (base prio : Z) :
  Forall is_byte a -> 0 <= base -> base + 7 < Z.of_nat (length a) ->
  let a' := ipb_update a base prio in
  length a' = length a /\ Forall is_byte a' /\
  reg_get a' (base + TM_IPB) =
    Z.lor (reg_get a (base + TM_IPB)) (priority_to_ipb prio) /\
  reg_get a' (base + TM_PIPR) = ipb_to_pipr (reg_get a' (base + TM_IPB)) /\
  (forall i, 0 <= i -> i <> base + TM_IPB -> i <> base + TM_PIPR ->
             reg_get a' i = reg_get a i).
Proof.
  intros Hb H0 Hlen a'. subst a'. unfold ipb_update.
  pose proof (reg_get_byte a (base + TM_IPB) Hb) as Hipb.
  pose proof (priority_to_ipb_byte prio) as Hp.
  pose proof (lor_byte _ _ Hipb Hp) as Hlor.
  unfold TM_IPB, TM_PIPR in *.
  split; [now rewrite !reg_set_length|].
  split; [now repeat apply reg_set_byte|].
  rewrite !reg_get_set, !reg_set_length.
  repeat split.
  - repeat (case_decide; try lia). now apply u8_small.
  - repeat (case_decide; try lia). apply u8_small, ipb_to_pipr_byte, u8_range.
  - intros i Hi H1 H2. rewrite !reg_get_set, !reg_set_length.
    repeat (case_decide; try lia).
Qed.

Lemma u8_ring (ring : Z) :
  In ring [TM_QW3_HV_PHYS; TM_QW2_HV_POOL; TM_QW1_OS; TM_QW0_USER] -> u8 ring = ring.
Proof. cbn [In]. intros [<-|[<-|[<-|[<-|[]]]]]; reflexivity. Qed.

Lemma xive_tctx_notify_cases (tctx : XiveTCTX) (ring : Z) :
  let r := regs tctx in
  (reg_get r (ring + TM_PIPR) < reg_get r (ring + TM_CPPR) -> ring = TM_QW1_OS ->
   xive_tctx_notify tctx ring =
     Done (qemu_irq_raise
             (set_regs tctx (reg_set r (ring + TM_NSR)
                               (Z.lor (reg_get r (ring + TM_NSR)) TM_QW1_NSR_EO))))) /\
  (reg_get r (ring + TM_PIPR) < reg_get r (ring + TM_CPPR) -> ring <> TM_QW1_OS ->
   xive_tctx_notify tctx ring = AssertFail) /\
  (reg_get r (ring + TM_CPPR) <= reg_get r (ring + TM_PIPR) ->
   xive_tctx_notify tctx ring = Done tctx).
Proof.
  intros r. unfold xive_tctx_notify, exception_mask. fold r.
  repeat split.
  - intros Hlt ->. apply Z.ltb_lt in Hlt. rewrite Hlt. reflexivity.
  - intros Hlt Hne. apply Z.ltb_lt in Hlt. apply Z.eqb_neq in Hne.
    rewrite Hlt, Hne. reflexivity.
  - intros Hge. apply Z.ltb_ge in Hge. rewrite Hge. reflexivity.
Qed.

(** C9, as stated, fails: with two thread contexts that match, the
    presenter logs the warning, leaves the thread contexts alone, and
    writes the backlog IPB of the VP. *)
Lemma presenter_duplicate_counterexample :
  length (matching_cpus (cpus machine_two_cpus) 0 0 0 5 false 0) = 2%nat /\
  exists m',
    xive_presenter_notify machine_two_cpus 0 0 5 false 4 0 = Done m' /\
    cpus m' = cpus machine_two_cpus /\
    In (Log_already_found 0 5) (log m') /\
    xive_router_get_vp machine_two_cpus 0 5 = Some scenario_vp /\
    xive_router_get_vp m' 0 5 = Some (mkVP VP_W0_VALID [0; 0; 0x08; 0; 0; 0; 0; 4]) /\
    vp_table m' <> vp_table machine_two_cpus.
Proof.
  set (m := machine_two_cpus). split; [reflexivity|].
  eexists. split; [vm_compute; reflexivity|].
  split; [reflexivity|]. split; [left; reflexivity|].
  split; [reflexivity|]. split; [reflexivity|].
  intros Heq. apply (f_equal (fun t => t !! (0, 5))) in Heq.
  vm_compute in Heq. discriminate Heq.
Qed.

(** C9, amended. For a valid VP and any priority.  When exactly one
    thread context matches, the IPB of the matching ring gets the bit of
    the priority and its PIPR is recomputed; then, if the new PIPR is not
    below CPPR the NSR and the output line are left as they are; if it is
    below CPPR and the ring is the OS ring, NSR.EO is set and the line is
    asserted; if it is below CPPR on another ring the assertion of
    [exception_mask] fails.  When no context matches, the bit of the
    priority is written into the backlog IPB of the VP, which is written
    back with [set_vp].  When more than one context matches, the warning
    is logged, no thread context is updated, and the presenter goes on as
    when none matches: the backlog IPB of the VP is written. *)
Theorem presenter_delivery (m : XiveMachine) (format vp_blk vp_idx : Z)
    (cam_ignore : bool) (priority logic_serv : Z) (vp : XiveVP) :
  xive_router_get_vp m vp_blk vp_idx = Some vp ->
  Z.land (vp_w0 vp) VP_W0_VALID <> 0 ->
  let M := matching_cpus (cpus m) 0 format vp_blk vp_idx cam_ignore logic_serv in
  let notify :=
    xive_presenter_notify m format vp_blk vp_idx cam_ignore priority logic_serv in
  let backlog := mkVP (vp_w0 vp) (ipb_update (vp_w4 vp) 0 priority) in
  (forall i ring, M = [(i, ring)] ->
     exists tctx l,
       cpus m !! i = Some tctx /\
       In ring [TM_QW3_HV_PHYS; TM_QW2_HV_POOL; TM_QW1_OS; TM_QW0_USER] /\
       let r1 := ipb_update (regs tctx) ring priority in
       (wf_regs (regs tctx) ->
        reg_get r1 (ring + TM_IPB) =
          Z.lor (reg_get (regs tctx) (ring + TM_IPB)) (priority_to_ipb priority) /\
        reg_get r1 (ring + TM_PIPR) = ipb_to_pipr (reg_get r1 (ring + TM_IPB))) /\
       (reg_get r1 (ring + TM_PIPR) < reg_get r1 (ring + TM_CPPR) ->
        ring = TM_QW1_OS ->
        notify =
          Done (set_cpus (add_log m l)
                  (<[i := qemu_irq_raise
                            (set_regs tctx
                               (reg_set r1 (ring + TM_NSR)
                                  (Z.lor (reg_get r1 (ring + TM_NSR)) TM_QW1_NSR_EO)))]>
                     (cpus m)))) /\
       (reg_get r1 (ring + TM_PIPR) < reg_get r1 (ring + TM_CPPR) ->
        ring <> TM_QW1_OS ->
        notify = AssertFail) /\
       (reg_get r1 (ring + TM_CPPR) <= reg_get r1 (ring + TM_PIPR) ->
        notify = Done (set_cpus (add_log m l) (<[i := set_regs tctx r1]> (cpus m))))) /\
  (M = [] ->
   exists l, In (Log_not_dispatched vp_blk vp_idx) l /\
     notify = Done (xive_router_set_vp (add_log m l) vp_blk vp_idx backlog)) /\
  (forall a b rest, M = a :: b :: rest ->
   exists l, In (Log_already_found vp_blk vp_idx) l /\
     notify = Done (xive_router_set_vp (add_log m l) vp_blk vp_idx backlog)) /\
  (wf_vp vp ->
   reg_get (vp_w4 backlog) TM_IPB =
     Z.lor (reg_get (vp_w4 vp) TM_IPB) (priority_to_ipb priority)).
Proof.
  intros Hvp Hvalid M notify backlog.
  assert (Hn : notify =
    ('(found, mt, l) ← xive_presenter_match (cpus m) format vp_blk vp_idx
                         cam_ignore priority logic_serv (mkMatch None 0);
     let m := add_log m l in
     if found : bool then
       match match_tctx mt ≫= fun i => (fun t => (i, t)) <$> cpus m !! i with
       | Some (i, tctx) =>
           let tctx := set_regs tctx (ipb_update (regs tctx) (match_ring mt) priority) in
           tctx ← xive_tctx_notify tctx (match_ring mt);
           mret (set_cpus m (<[i := tctx]> (cpus m)))
       | None => AssertFail
       end
     else mret (xive_router_set_vp m vp_blk vp_idx backlog))).
  { subst notify. unfold xive_presenter_notify. rewrite Hvp.
    apply Z.eqb_neq in Hvalid. rewrite Hvalid. reflexivity. }
  destruct (xive_presenter_match_spec format vp_blk vp_idx cam_ignore logic_serv
              (cpus m) priority) as (l & Hmatch).
  fold M in Hmatch. rewrite Hmatch in Hn. clear Hmatch.
  split; [|split; [|split]].
  - intros i ring HM. rewrite HM in Hn. cbn [mbind Res_bind match_tctx match_ring] in Hn.
    destruct (matching_cpus_lookup format vp_blk vp_idx cam_ignore logic_serv
                (cpus m) 0%nat i ring) as (_ & tctx & Hl & Hr & Hne).
    { fold M. rewrite HM. left. reflexivity. }
    rewrite Nat.sub_0_r in Hl.
    assert (Hring : In ring [TM_QW3_HV_PHYS; TM_QW2_HV_POOL; TM_QW1_OS; TM_QW0_USER]).
    { destruct (tctx_match_ring_spec format vp_blk vp_idx cam_ignore logic_serv tctx)
        as (_ & _ & [H|H]); rewrite <- Hr in H; [contradiction|exact H]. }
    exists tctx, l. split; [exact Hl|]. split; [exact Hring|].
    cbn [cpus add_log option_bind] in Hn. rewrite Hl in Hn.
    cbn [fmap option_fmap option_map option_bind] in Hn.
    rewrite (u8_ring _ Hring) in Hn. cbv zeta in Hn.
    intros r1. fold r1 in Hn.
    pose proof (xive_tctx_notify_cases (set_regs tctx r1) ring) as (Hraise & Hfail & Hkeep).
    cbn [regs set_regs] in Hraise, Hfail, Hkeep.
    split; [|split; [|split]].
    + intros [Hlen Hb].
      assert (Hbase : 0 <= ring /\ ring + 7 < 64).
      { cbn [In] in Hring. unfold TM_QW3_HV_PHYS, TM_QW2_HV_POOL, TM_QW1_OS, TM_QW0_USER in Hring.
        lia. }
      destruct (ipb_update_spec (regs tctx) ring priority Hb ltac:(lia) ltac:(lia))
        as (_ & _ & Hi & Hp & _).
      split; assumption.
    + intros Hlt Hos. rewrite Hn, (Hraise Hlt Hos). reflexivity.
    + intros Hlt Hos. rewrite Hn, (Hfail Hlt Hos). reflexivity.
    + intros Hge. rewrite Hn, (Hkeep Hge). reflexivity.
  - intros HM. rewrite HM in Hn. exists (l ++ [Log_not_dispatched vp_blk vp_idx]).
    split; [apply in_or_app; right; left; reflexivity|exact Hn].
  - intros [j r] b rest HM. rewrite HM in Hn.
    exists (l ++ [Log_already_found vp_blk vp_idx]).
    split; [apply in_or_app; right; left; reflexivity|exact Hn].
  - intros [Hlen Hb]. subst backlog. cbn [vp_w4].
    destruct (ipb_update_spec (vp_w4 vp) 0 priority Hb ltac:(lia) ltac:(lia))
      as (_ & _ & Hi & _).
    exact Hi.
Qed.

(** Scenario 1: one thread context matches on its OS ring; priority 4 is
    below CPPR 0xFF, the exception is raised and the line asserted. *)
Lemma presenter_delivery_witness :
  xive_router_get_vp machine_one_cpu 0 5 = Some scenario_vp /\
  Z.land (vp_w0 scenario_vp) VP_W0_VALID <> 0 /\
  exists m' tctx',
    xive_presenter_notify machine_one_cpu 0 0 5 false 4 0 = Done m' /\
    cpus m' = [tctx'] /\ output tctx' = true /\
    reg_get (regs tctx') (TM_QW1_OS + TM_IPB) = 0x08.
Proof.
  set (m := machine_one_cpu).
  assert (H1 : xive_router_get_vp m 0 5 = Some scenario_vp) by reflexivity.
  assert (H2 : Z.land (vp_w0 scenario_vp) VP_W0_VALID <> 0) by (vm_compute; discriminate).
  split; [exact H1|]. split; [exact H2|].
  destruct (presenter_delivery m 0 0 5 false 4 0 scenario_vp H1 H2) as (Hone & _).
  destruct (Hone 0%nat TM_QW1_OS eq_refl) as (tctx & l & Hl & _ & _ & Hraise & _).
  injection Hl as <-.
  eexists _, _. split; [apply Hraise; reflexivity|].
  split; [reflexivity|]. split; reflexivity.
Defined.

(** ** The router *)

Lemma machine_set_eq_id (m : XiveMachine) (l : list LogMsg) (eq_blk eq_idx : Z)
    (eq : XiveEQ) :
  xive_router_get_eq m eq_blk eq_idx = Some eq ->
  xive_router_set_eq (add_log (set_ram m (ram m)) l) eq_blk eq_idx eq = add_log m l.
Proof.
  intros Hget. destruct m as [c et vt cs r lg].
  unfold xive_router_set_eq, add_log, set_ram, xive_router_get_eq in *.
  cbn [chip_id eq_table vp_table cpus ram log] in *.
  rewrite (insert_id _ _ _ Hget). reflexivity.
Qed.

Lemma xive_eq_push_fail (eq : XiveEQ) (data : Z) (r : gmap Z Z) :
  wf_eq eq ->
  dma_memory_write r (eq_qaddr eq) (be32_bytes (eq_qword eq data)) = None ->
  xive_eq_push eq data r = (eq, r, [Log_eq_write_failed (eq_qaddr eq)]).
Proof. intros Hwf Hdma. rewrite (xive_eq_push_unfold _ _ _ Hwf), Hdma. reflexivity. Qed.

(** The push leaves the ESn field and the words other than [w1] alone. *)
Lemma xive_eq_push_frame (eq : XiveEQ) (data : Z) (r : gmap Z Z) :
  wf_eq eq ->
  let eq' := fst (fst (xive_eq_push eq data r)) in
  GETFIELD EQ_W1_ESn (w1 eq') = GETFIELD EQ_W1_ESn (w1 eq) /\
  (w0 eq', w2 eq', w3 eq', w4 eq', w5 eq', w6 eq', w7 eq') =
    (w0 eq, w2 eq, w3 eq, w4 eq, w5 eq, w6 eq, w7 eq).
Proof.
  intros Hwf eq'. subst eq'.
  destruct (dma_memory_write r (eq_qaddr eq) (be32_bytes (eq_qword eq data)))
    as [r'|] eqn:Hdma.
  - destruct (xive_eq_push_ok eq data r r' Hwf Hdma)
      as (eq1 & Hpush & _ & _ & _ & Hn & _ & Hw & _).
    rewrite Hpush. cbn [fst]. auto.
  - rewrite (xive_eq_push_fail _ _ _ Hwf Hdma). cbn [fst]. auto.
Qed.

Lemma eq_notify_enqueue_frame (m : XiveMachine) (eq_blk eq_idx : Z) (eq : XiveEQ)
    (data : Z) :
  wf_eq eq ->
  xive_router_get_eq m eq_blk eq_idx = Some eq ->
  let eq1 := fst (eq_notify_enqueue m eq_blk eq_idx eq data) in
  let m1 := snd (eq_notify_enqueue m eq_blk eq_idx eq data) in
  GETFIELD EQ_W1_ESn (w1 eq1) = GETFIELD EQ_W1_ESn (w1 eq) /\
  (w0 eq1, w2 eq1, w3 eq1, w4 eq1, w5 eq1, w6 eq1, w7 eq1) =
    (w0 eq, w2 eq, w3 eq, w4 eq, w5 eq, w6 eq, w7 eq) /\
  xive_router_get_eq m1 eq_blk eq_idx = Some eq1 /\
  cpus m1 = cpus m /\ vp_table m1 = vp_table m.
Proof.
  intros Hwf Hget eq1 m1. subst eq1 m1. unfold eq_notify_enqueue.
  destruct (Z.land (w0 eq) EQ_W0_ENQUEUE =? 0).
  - cbn [fst snd]. auto.
  - pose proof (xive_eq_push_frame eq data (ram m) Hwf) as (Hn & Hw).
    destruct (xive_eq_push eq data (ram m)) as [[eq' r] l].
    cbn [fst snd] in *. repeat split; try assumption.
    unfold xive_router_get_eq, xive_router_set_eq. cbn [eq_table].
    apply lookup_insert_eq.
Qed.

Lemma esn_trigger_cases (pq : Z) :
  0 <= pq < 4 ->
  exists notify pq',
    ESB.xive_esb_trigger (u8 pq) = Done (notify, pq') /\
    ESB.xive_esb_trigger pq = Done (notify, pq') /\ 0 <= pq' < 4.
Proof.
  intros H. assert (Hc : pq = 0 \/ pq = 1 \/ pq = 2 \/ pq = 3) by lia.
  destruct Hc as [-> | [-> | [-> | ->]]];
    [exists true, 2|exists false, 1|exists false, 3|exists false, 3];
    (split; [reflexivity|]); (split; [reflexivity|]); lia.
Qed.

Lemma eq_notify_esn_spec (m : XiveMachine) (eq_blk eq_idx : Z) (eq : XiveEQ) :
  xive_router_get_eq m eq_blk eq_idx = Some eq ->
  Z.land (w0 eq) EQ_W0_UCOND_NOTIFY = 0 ->
  exists notify pq eq2 m2,
    ESB.xive_esb_trigger (GETFIELD EQ_W1_ESn (w1 eq)) = Done (notify, pq) /\
    eq_notify_esn m eq_blk eq_idx eq = Done (notify, eq2, m2) /\
    GETFIELD EQ_W1_ESn (w1 eq2) = pq /\
    xive_router_get_eq m2 eq_blk eq_idx = Some eq2 /\
    (w0 eq2, w6 eq2, w7 eq2) = (w0 eq, w6 eq, w7 eq) /\
    cpus m2 = cpus m /\ vp_table m2 = vp_table m.
Proof.
  intros Hget Hu. unfold eq_notify_esn. rewrite Hu. cbn [Z.eqb].
  pose proof (GETFIELD_range EQ_W1_ESn 30 2 (w1 eq) (proj1 ESn_field) (proj2 ESn_field)
                ltac:(lia) ltac:(lia)) as Hr.
  change (2 ^ 2) with 4 in Hr.
  destruct (esn_trigger_cases _ Hr) as (notify & pq & Ht8 & Ht & Hpq).
  rewrite Ht8. cbn [mbind Res_bind].
  exists notify, pq.
  destruct (Z.eqb_spec pq (GETFIELD EQ_W1_ESn (w1 eq))) as [He|Hne].
  - exists eq, m. auto 10.
  - eexists _, _. split; [exact Ht|]. split; [reflexivity|].
    cbn [w1 set_w1 w0 w6 w7].
    split.
    { rewrite (GETFIELD_SETFIELD_eq EQ_W1_ESn 30 2) by (try apply ESn_field; lia).
      change (Z.ones 2) with 3. rewrite Z.land_ones with (n := 2) by lia.
      apply Z.mod_small. change (2 ^ 2) with 4. lia. }
    split; [|auto].
    unfold xive_router_get_eq, xive_router_set_eq. cbn [eq_table].
    apply lookup_insert_eq.
Qed.

(** C6, as stated, fails: the notification of a valid masked EQ with
    UCOND_NOTIFY clear and ESn in state RESET changes nothing, where a
    trigger on ESn would have left PENDING. *)
Lemma masked_eq_esn_counterexample :
  xive_router_get_eq machine_masked 0 3 = Some masked_eq /\
  Z.land (w0 masked_eq) EQ_W0_VALID <> 0 /\
  Z.land (w0 masked_eq) EQ_W0_UCOND_NOTIFY = 0 /\
  eq_is_masked masked_eq = true /\
  GETFIELD EQ_W1_ESn (w1 masked_eq) = XIVE_ESB_RESET /\
  ESB.xive_esb_trigger XIVE_ESB_RESET = Done (true, XIVE_ESB_PENDING) /\
  xive_router_eq_notify machine_masked 0 3 0xABCD = Done machine_masked.
Proof.
  set (m := machine_masked). repeat split; try reflexivity. vm_compute. discriminate.
Qed.

(** C6, amended. On a valid EQ the masked-EQ check (format 0 and priority
    0xFF) comes before the ESn trigger: the notification of a masked EQ
    stops after the push, and the ESn state it leaves written back is the
    one it found.  On a valid EQ that is not masked and has UCOND_NOTIFY
    clear, the trigger is then applied to the ESn field, the new state is
    written back with [set_eq], and the presenter is called only if the
    trigger forwards. *)
Theorem eq_notify_masked_before_esn (m : XiveMachine) (eq_blk eq_idx data : Z)
    (eq : XiveEQ) :
  xive_router_get_eq m eq_blk eq_idx = Some eq ->
  wf_eq eq ->
  Z.land (w0 eq) EQ_W0_VALID <> 0 ->
  let eq1 := fst (eq_notify_enqueue m eq_blk eq_idx eq data) in
  let m1 := snd (eq_notify_enqueue m eq_blk eq_idx eq data) in
  xive_router_get_eq m1 eq_blk eq_idx = Some eq1 /\
  GETFIELD EQ_W1_ESn (w1 eq1) = GETFIELD EQ_W1_ESn (w1 eq) /\
  (eq_is_masked eq = true ->
   xive_router_eq_notify m eq_blk eq_idx data = Done m1) /\
  (eq_is_masked eq = false ->
   Z.land (w0 eq) EQ_W0_UCOND_NOTIFY = 0 ->
   exists notify pq eq2 m2,
     ESB.xive_esb_trigger (GETFIELD EQ_W1_ESn (w1 eq)) = Done (notify, pq) /\
     eq_notify_esn m1 eq_blk eq_idx eq1 = Done (notify, eq2, m2) /\
     xive_router_get_eq m2 eq_blk eq_idx = Some eq2 /\
     GETFIELD EQ_W1_ESn (w1 eq2) = pq /\
     xive_router_eq_notify m eq_blk eq_idx data =
       if notify then eq_presenter_notify m2 eq else Done m2).
Proof.
  intros Hget Hwf Hvalid eq1 m1.
  destruct (eq_notify_enqueue_frame m eq_blk eq_idx eq data Hwf Hget)
    as (Hesn & Hw & Hget1 & _).
  fold eq1 m1 in Hesn, Hw, Hget1.
  injection Hw as Hw0 _ _ _ _ Hw6 Hw7.
  assert (Hn : xive_router_eq_notify m eq_blk eq_idx data =
               eq_notify_deliver m1 eq_blk eq_idx eq1).
  { unfold xive_router_eq_notify. rewrite Hget.
    apply Z.eqb_neq in Hvalid. rewrite Hvalid.
    subst eq1 m1. destruct (eq_notify_enqueue m eq_blk eq_idx eq data). reflexivity. }
  split; [exact Hget1|]. split; [exact Hesn|].
  rewrite Hn. unfold eq_notify_deliver, eq_is_masked. rewrite Hw6, Hw7.
  split.
  - intros ->. reflexivity.
  - intros -> Hu. rewrite <- Hw0 in Hu.
    destruct (eq_notify_esn_spec m1 eq_blk eq_idx eq1 Hget1 Hu)
      as (notify & pq & eq2 & m2 & Ht & He & Hpq & Hget2 & Hw2 & _).
    rewrite Hesn in Ht.
    exists notify, pq, eq2, m2. repeat split; try assumption.
    rewrite He. cbn [mbind Res_bind].
    injection Hw2 as _ Hw26 Hw27. unfold eq_presenter_notify.
    rewrite Hw26, Hw27, Hw6, Hw7. reflexivity.
Qed.

(** The masked EQ of the counterexample: the notification stops at the
    mask check. *)
Lemma eq_notify_masked_before_esn_witness :
  xive_router_get_eq machine_masked 0 3 = Some masked_eq /\
  wf_eq masked_eq /\
  Z.land (w0 masked_eq) EQ_W0_VALID <> 0 /\
  xive_router_eq_notify machine_masked 0 3 0xABCD =
    Done (snd (eq_notify_enqueue machine_masked 0 3 masked_eq 0xABCD)).
Proof.
  set (m := machine_masked).
  assert (H1 : xive_router_get_eq m 0 3 = Some masked_eq) by reflexivity.
  assert (H2 : wf_eq masked_eq) by by_decide.
  assert (H3 : Z.land (w0 masked_eq) EQ_W0_VALID <> 0) by (vm_compute; discriminate).
  split; [exact H1|]. split; [exact H2|]. split; [exact H3|].
  destruct (eq_notify_masked_before_esn m 0 3 0xABCD masked_eq H1 H2 H3)
    as (_ & _ & Hm & _).
  exact (Hm eq_refl).
Defined.

(** C7, as stated, fails: with the queue out of guest RAM the write
    fails and is logged, the descriptor stays as it was, and the presenter
    still finds the thread context, sets the IPB bit, raises NSR.EO and
    asserts the output line. *)
Lemma dma_failure_counterexample :
  dma_memory_write (ram machine_one_cpu) (eq_qaddr scenario_eq)
    (be32_bytes (eq_qword scenario_eq 0xABCD)) = None /\
  exists m' tctx',
    xive_router_eq_notify machine_one_cpu 0 3 0xABCD = Done m' /\
    log m' = [Log_eq_write_failed 0x10000ffc] /\
    eq_table m' = eq_table machine_one_cpu /\
    cpus m' = [tctx'] /\
    reg_get (regs scenario_cpu) (TM_QW1_OS + TM_IPB) = 0 /\
    reg_get (regs tctx') (TM_QW1_OS + TM_IPB) = 0x08 /\
    reg_get (regs tctx') (TM_QW1_OS + TM_NSR) = TM_QW1_NSR_EO /\
    output scenario_cpu = false /\ output tctx' = true.
Proof.
  set (m := machine_one_cpu). split; [reflexivity|].
  eexists _, _. split; [vm_compute; reflexivity|].
  repeat split.
Qed.

(** C7, amended. When the DMA write of an EQ entry fails, the failure is
    logged, guest memory and the descriptor are as they were (qindex and
    generation are not advanced), and the notification goes on with what
    follows the push exactly as it does after a push that succeeded: the
    masked-EQ check, the ESn check, and the presenter. *)
Theorem eq_notify_dma_failure (m : XiveMachine) (eq_blk eq_idx data : Z)
    (eq : XiveEQ) :
  xive_router_get_eq m eq_blk eq_idx = Some eq ->
  wf_eq eq ->
  Z.land (w0 eq) EQ_W0_VALID <> 0 ->
  Z.land (w0 eq) EQ_W0_ENQUEUE <> 0 ->
  dma_memory_write (ram m) (eq_qaddr eq) (be32_bytes (eq_qword eq data)) = None ->
  let m1 := add_log m [Log_eq_write_failed (eq_qaddr eq)] in
  xive_eq_push eq data (ram m) = (eq, ram m, [Log_eq_write_failed (eq_qaddr eq)]) /\
  eq_notify_enqueue m eq_blk eq_idx eq data = (eq, m1) /\
  xive_router_get_eq m1 eq_blk eq_idx = Some eq /\
  ram m1 = ram m /\
  xive_router_eq_notify m eq_blk eq_idx data = eq_notify_deliver m1 eq_blk eq_idx eq /\
  (eq_is_masked eq = false -> Z.land (w0 eq) EQ_W0_UCOND_NOTIFY <> 0 ->
   xive_router_eq_notify m eq_blk eq_idx data = eq_presenter_notify m1 eq).
Proof.
  intros Hget Hwf Hvalid Henq Hdma m1.
  pose proof (xive_eq_push_fail eq data (ram m) Hwf Hdma) as Hpush.
  assert (He : eq_notify_enqueue m eq_blk eq_idx eq data = (eq, m1)).
  { unfold eq_notify_enqueue. apply Z.eqb_neq in Henq. rewrite Henq, Hpush.
    subst m1. rewrite (machine_set_eq_id _ _ _ _ _ Hget). reflexivity. }
  assert (Hn : xive_router_eq_notify m eq_blk eq_idx data =
               eq_notify_deliver m1 eq_blk eq_idx eq).
  { unfold xive_router_eq_notify. rewrite Hget.
    apply Z.eqb_neq in Hvalid. rewrite Hvalid, He. reflexivity. }
  repeat split; try assumption.
  intros Hm Hu. rewrite Hn. unfold eq_notify_deliver, eq_notify_esn.
  unfold eq_is_masked in Hm. rewrite Hm.
  apply Z.eqb_neq in Hu. rewrite Hu. reflexivity.
Qed.

(** The queue of scenario 6 with no guest RAM behind it. *)
Lemma eq_notify_dma_failure_witness :
  xive_router_get_eq machine_one_cpu 0 3 = Some scenario_eq /\
  wf_eq scenario_eq /\
  Z.land (w0 scenario_eq) EQ_W0_VALID <> 0 /\
  Z.land (w0 scenario_eq) EQ_W0_ENQUEUE <> 0 /\
  dma_memory_write (ram machine_one_cpu) (eq_qaddr scenario_eq)
    (be32_bytes (eq_qword scenario_eq 0xABCD)) = None /\
  xive_router_eq_notify machine_one_cpu 0 3 0xABCD =
    eq_presenter_notify (add_log machine_one_cpu [Log_eq_write_failed (eq_qaddr scenario_eq)])
      scenario_eq.
Proof.
  set (m := machine_one_cpu).
  assert (H1 : xive_router_get_eq m 0 3 = Some scenario_eq) by reflexivity.
  assert (H2 : wf_eq scenario_eq) by by_decide.
  assert (H3 : Z.land (w0 scenario_eq) EQ_W0_VALID <> 0) by (vm_compute; discriminate).
  assert (H4 : Z.land (w0 scenario_eq) EQ_W0_ENQUEUE <> 0) by (vm_compute; discriminate).
  assert (H5 : dma_memory_write (ram m) (eq_qaddr scenario_eq)
                 (be32_bytes (eq_qword scenario_eq 0xABCD)) = None) by reflexivity.
  split; [exact H1|]. split; [exact H2|]. split; [exact H3|]. split; [exact H4|].
  split; [exact H5|].
  destruct (eq_notify_dma_failure m 0 3 0xABCD scenario_eq H1 H2 H3 H4 H5)
    as (_ & _ & _ & _ & _ & Hp).
  apply Hp; [reflexivity|vm_compute; discriminate].
Defined.

(** ** PIPR and IPB *)


Lemma rings_cases (ring : Z) :
  In ring tm_rings -> ring = 0 \/ ring = 16 \/ ring = 32 \/ ring = 48.
Proof. cbn [In tm_rings]. unfold TM_QW0_USER, TM_QW1_OS, TM_QW2_HV_POOL, TM_QW3_HV_PHYS. lia. Qed.

Lemma pipr_inv_reg_set (r : list Z) (i v ring : Z) :
  0 <= i -> 0 <= ring -> i <> ring + TM_IPB -> i <> ring + TM_PIPR ->
  pipr_inv r ring -> pipr_inv (reg_set r i v) ring.
Proof.
  unfold pipr_inv, TM_IPB, TM_PIPR. intros Hi Hr H1 H2 H.
  rewrite !reg_get_set_ne by lia. exact H.
Qed.

Lemma pipr_inv_ipb_update (r : list Z) (base p ring : Z) :
  wf_regs r -> In base tm_rings -> In ring tm_rings ->
  ring = base \/ pipr_inv r ring ->
  pipr_inv (ipb_update r base p) ring.
Proof.
  intros [Hlen Hb] Hbase Hring Hor.
  apply rings_cases in Hbase, Hring.
  destruct (ipb_update_spec r base p Hb ltac:(lia) ltac:(lia))
    as (_ & _ & Hi & Hp & Hframe).
  destruct (Z.eq_dec ring base) as [->|Hne].
  - exact Hp.
  - destruct Hor as [?|Hinv]; [contradiction|].
    unfold pipr_inv, TM_IPB, TM_PIPR in *.
    rewrite !Hframe by lia. exact Hinv.
Qed.

Lemma wf_ipb_update (r : list Z) (base p : Z) :
  wf_regs r -> In base tm_rings -> wf_regs (ipb_update r base p).
Proof.
  intros [Hlen Hb] Hbase. apply rings_cases in Hbase.
  destruct (ipb_update_spec r base p Hb ltac:(lia) ltac:(lia)) as (Hl & Hb' & _).
  split; [congruence|exact Hb'].
Qed.

Lemma xive_tctx_notify_regs (tctx tctx' : XiveTCTX) (ring : Z) :
  xive_tctx_notify tctx ring = Done tctx' ->
  regs tctx' = regs tctx \/
  exists v, regs tctx' = reg_set (regs tctx) (ring + TM_NSR) v.
Proof.
  unfold xive_tctx_notify. destruct (_ <? _).
  - destruct (exception_mask ring) as [mask|]; [|discriminate].
    cbn [mbind Res_bind mret Res_ret]. intros [= <-]. right. eexists. reflexivity.
  - intros [= <-]. left. reflexivity.
Qed.

Lemma xive_tctx_notify_inv (tctx tctx' : XiveTCTX) (ring0 : Z) :
  xive_tctx_notify tctx ring0 = Done tctx' ->
  In ring0 tm_rings ->
  (wf_regs (regs tctx) -> wf_regs (regs tctx')) /\
  (forall ring, In ring tm_rings ->
     pipr_inv (regs tctx) ring -> pipr_inv (regs tctx') ring).
Proof.
  intros Hn Hr0. apply rings_cases in Hr0.
  destruct (xive_tctx_notify_regs _ _ _ Hn) as [->|[v ->]].
  - auto.
  - split; [apply wf_regs_set|].
    intros ring Hr. apply rings_cases in Hr.
    apply pipr_inv_reg_set; unfold TM_NSR, TM_IPB, TM_PIPR; lia.
Qed.

Lemma accept_regs_inv (r : list Z) (mask ring : Z) :
  wf_regs r -> In ring tm_rings ->
  pipr_inv r ring -> pipr_inv (accept_regs r TM_QW1_OS mask) ring.
Proof.
  intros Hwf Hr Hinv. apply rings_cases in Hr.
  destruct (accept_regs_spec r TM_QW1_OS mask Hwf ltac:(unfold TM_QW1_OS; lia))
    as (_ & _ & _ & Hp & _ & Hframe).
  destruct (Z.eq_dec ring TM_QW1_OS) as [->|Hne].
  - exact Hp.
  - unfold pipr_inv, TM_QW1_OS, TM_NSR, TM_CPPR, TM_IPB, TM_PIPR in *.
    rewrite !Hframe by lia. exact Hinv.
Qed.

Lemma xive_tctx_accept_inv (tctx tctx' : XiveTCTX) (v : Z) :
  xive_tctx_accept tctx TM_QW1_OS = Done (v, tctx') ->
  wf_regs (regs tctx) ->
  wf_regs (regs tctx') /\
  (forall ring, In ring tm_rings ->
     pipr_inv (regs tctx) ring -> pipr_inv (regs tctx') ring).
Proof.
  unfold xive_tctx_accept.
  change (exception_mask TM_QW1_OS) with (Done TM_QW1_NSR_EO).
  cbn [mbind Res_bind mret Res_ret qemu_irq_lower set_output regs].
  intros H Hwf. destruct (_ =? 0); injection H as _ <-; cbn [regs set_regs].
  - auto.
  - split.
    + apply (accept_regs_spec _ TM_QW1_OS _ Hwf). unfold TM_QW1_OS. lia.
    + intros ring Hr. now apply accept_regs_inv.
Qed.

Lemma find_op_in (TM_SHIFT offset size : Z) (write : bool) (xto : XiveTmOp) :
  xive_tm_find_op TM_SHIFT offset size write = Some xto ->
  xto = tm_op_set_os_cppr \/ xto = tm_op_ack_os_reg \/ xto = tm_op_set_os_pending.
Proof.
  unfold xive_tm_find_op. intros H. apply List.find_some in H. destruct H as [Hin _].
  cbn [In xive_tm_operations] in Hin.
  unfold tm_op_set_os_cppr, tm_op_ack_os_reg, tm_op_set_os_pending.
  intuition auto.
Qed.

Lemma xive_tm_read_cases (TM_SHIFT : Z) (tctx tctx' : XiveTCTX) (offset size v : Z)
    (l : list LogMsg) :
  xive_tm_read TM_SHIFT tctx offset size = Done (v, tctx', l) ->
  tctx' = tctx \/ xive_tctx_accept tctx TM_QW1_OS = Done (v, tctx').
Proof.
  unfold xive_tm_read.
  destruct (xive_tm_find_op TM_SHIFT offset size false) as [xto|] eqn:Hf.
  - destruct (find_op_in _ _ _ _ _ Hf) as [-> | [-> | ->]];
      cbn [read_handler tm_op_set_os_cppr tm_op_ack_os_reg tm_op_set_os_pending].
    + destruct (negb _); discriminate.
    + unfold xive_tm_ack_os_reg.
      destruct (xive_tctx_accept tctx TM_QW1_OS) as [[v' t']|];
        cbn [mbind Res_bind mret Res_ret];
        destruct (negb _); try discriminate; intros [= <- <- <-]; right; reflexivity.
    + destruct (negb _); discriminate.
  - destruct (negb _).
    + intros [= <- <- <-]. left. reflexivity.
    + destruct (xive_tm_raw_read TM_SHIFT tctx offset size).
      intros [= <- <- <-]. left. reflexivity.
Qed.

Lemma xive_tm_write_cases (TM_SHIFT : Z) (tctx tctx' : XiveTCTX) (offset value size : Z)
    (l : list LogMsg) :
  xive_tm_write TM_SHIFT tctx offset value size = Done (tctx', l) ->
  is_raw_store TM_SHIFT (Op_tm_write offset value size) = false ->
  tctx' = tctx \/
  xive_tctx_set_cppr tctx TM_QW1_OS (Z.land value 0xff) = Done tctx' \/
  xive_tctx_notify
    (set_regs tctx (ipb_update (regs tctx) TM_QW1_OS (Z.land value 0xff))) TM_QW1_OS
    = Done tctx'.
Proof.
  unfold xive_tm_write, is_raw_store.
  destruct (xive_tm_find_op TM_SHIFT offset size true) as [xto|] eqn:Hf.
  - intros H _. destruct (find_op_in _ _ _ _ _ Hf) as [-> | [-> | ->]];
      cbn [write_handler tm_op_set_os_cppr tm_op_ack_os_reg tm_op_set_os_pending] in H.
    + unfold xive_tm_set_os_cppr in H.
      destruct (xive_tctx_set_cppr tctx TM_QW1_OS (Z.land value 255)) as [t'|];
        cbn [mbind Res_bind mret Res_ret] in H;
        destruct (negb _); try discriminate; injection H as <- _; auto.
    + destruct (negb _); discriminate.
    + unfold xive_tm_set_os_pending in H.
      destruct (xive_tctx_notify _ TM_QW1_OS) as [t'|];
        cbn [mbind Res_bind mret Res_ret] in H;
        destruct (negb _); try discriminate; injection H as <- _; auto.
  - cbn [has_handler negb]. rewrite andb_true_r.
    destruct (Z.land offset 0x800 =? 0); [discriminate 2|].
    cbn [negb]. intros [= <- <-] _. left. reflexivity.
Qed.

Lemma xive_tm_write_raw (TM_SHIFT : Z) (tctx : XiveTCTX) (offset value size : Z) :
  is_raw_store TM_SHIFT (Op_tm_write offset value size) = true ->
  xive_tm_write TM_SHIFT tctx offset value size =
    Done (xive_tm_raw_write TM_SHIFT tctx offset value size).
Proof.
  unfold is_raw_store, xive_tm_write. intros H.
  apply andb_true_iff in H as [H8 Hh]. rewrite H8. cbn [negb].
  destruct (xive_tm_find_op TM_SHIFT offset size true); [discriminate Hh|reflexivity].
Qed.

(** A raw store keeps the register file well formed and leaves every
    register it does not write. *)
Lemma raw_write_frame (TM_SHIFT : Z) (tctx : XiveTCTX) (offset value size : Z) :
  (wf_regs (regs tctx) ->
   wf_regs (regs (xive_tm_raw_write TM_SHIFT tctx offset value size).1)) /\
  (forall j, 0 <= j -> raw_store_writes TM_SHIFT offset size j = false ->
     reg_get (regs (xive_tm_raw_write TM_SHIFT tctx offset value size).1) j =
     reg_get (regs tctx) j).
Proof.
  unfold xive_tm_raw_write, raw_store_writes.
  set (mask := xive_tm_mask TM_SHIFT offset size true).
  set (reg := Z.land offset 0x3F).
  assert (Hreg : 0 <= reg).
  { subst reg. change 0x3F with (Z.ones 6). rewrite Z.land_ones by lia.
    apply Z.mod_pos_bound. lia. }
  destruct ((size <? 4) || (mask =? 0) || (Z.land offset 48 =? TM_QW0_USER));
    cbn [fst negb andb regs set_regs]; [auto|].
  assert (Hl : Forall (fun i => 0 <= i) (seqZ 0 size)).
  { apply Forall_forall. intros i Hi. apply elem_of_seqZ in Hi. lia. }
  revert Hl. generalize (seqZ 0 size). generalize (regs tctx). intros r l.
  revert r. induction l as [|i l IH]; intros r Hl; cbn [foldl existsb].
  - auto.
  - apply Forall_cons in Hl as [Hi Hl]. destruct (IH
      (if u8 (Z.shiftr mask (8 * (size - i - 1))) =? 0 then r
       else reg_set r (reg + i)
              (Z.land (Z.shiftr value (8 * (size - i - 1)))
                 (u8 (Z.shiftr mask (8 * (size - i - 1)))))) Hl) as [IHw IHg].
    split.
    + intros Hwf. apply IHw.
      destruct (_ =? 0); [exact Hwf|apply wf_regs_set, Hwf].
    + intros j Hj Hex. apply orb_false_iff in Hex as [Hhere Hrest].
      rewrite (IHg j Hj Hrest).
      destruct (u8 (Z.shiftr mask (8 * (size - i - 1))) =? 0); [reflexivity|].
      cbn [negb andb] in Hhere. apply Z.eqb_neq in Hhere.
      apply reg_get_set_ne; lia.
Qed.

(** A byte mask that is not zero belongs to a register the page may
    write. *)
Lemma byte_mask_writable (TM_SHIFT offset size k : Z) :
  0 <= k < size ->
  u8 (Z.shiftr (xive_tm_mask TM_SHIFT offset size true) (8 * (size - k - 1))) <> 0 ->
  Z.land (view_get (Z.land (Z.shiftr offset TM_SHIFT) 0x3) (Z.land offset 0x3F + k)) 0x1
    <> 0.
Proof.
  intros Hk Hne Hz. apply Hne. clear Hne.
  apply Z.bits_inj'. intros n Hn. rewrite Z.bits_0. unfold u8.
  destruct (Z.ltb_spec n 8); [|apply Z.mod_pow2_bits_high; lia].
  rewrite Z.mod_pow2_bits_low, Z.shiftr_spec by lia.
  unfold xive_tm_mask. rewrite testbit_foldl_lor_if. rewrite Z.bits_0. cbn [orb].
  apply not_true_is_false. intros He. apply existsb_exists in He as (i & Hi & Hb).
  apply andb_true_iff in Hb as [Hc Hb]. apply negb_true_iff, Z.eqb_neq in Hc.
  apply list_elem_of_In, elem_of_seqZ in Hi.
  assert (i = k); [|subst i; contradiction].
  unfold u64 in Hb. rewrite Z.testbit_mod_pow2 in Hb by lia.
  apply andb_true_iff in Hb as [_ Hb]. rewrite Z.shiftl_spec in Hb by lia.
  destruct (Z_lt_le_dec (n + 8 * (size - k - 1) - 8 * (size - i - 1)) 0) as [Hlt|Hge].
  - rewrite Z.testbit_neg_r in Hb by lia. discriminate.
  - destruct (Z_lt_le_dec (n + 8 * (size - k - 1) - 8 * (size - i - 1)) 8) as [Hlt|Hge8].
    + lia.
    + rewrite (testbit_byte_high 0xff) in Hb by lia. discriminate.
Qed.

(** The OS and the USER page may write neither the IPB nor the PIPR of a
    ring. *)
Lemma os_user_view_pipr (page ring : Z) :
  XIVE_TM_OS_PAGE <= page <= 3 -> In ring tm_rings ->
  Z.land (view_get page (ring + TM_IPB)) 0x1 = 0 /\
  Z.land (view_get page (ring + TM_PIPR)) 0x1 = 0.
Proof.
  unfold XIVE_TM_OS_PAGE. intros Hp Hr. apply rings_cases in Hr.
  assert (Hc : page = 2 \/ page = 3) by lia.
  destruct Hc as [-> | ->]; destruct Hr as [-> | [-> | [-> | ->]]];
    split; reflexivity.
Qed.

Lemma raw_store_os_user (TM_SHIFT offset size ring : Z) :
  XIVE_TM_OS_PAGE <= Z.land (Z.shiftr offset TM_SHIFT) 0x3 -> In ring tm_rings ->
  raw_store_writes TM_SHIFT offset size (ring + TM_IPB) = false /\
  raw_store_writes TM_SHIFT offset size (ring + TM_PIPR) = false.
Proof.
  intros Hp Hr.
  assert (Hp3 : Z.land (Z.shiftr offset TM_SHIFT) 0x3 <= 3).
  { change 3 with (Z.ones 2) at 1. rewrite Z.land_ones by lia.
    pose proof (Z.mod_pos_bound (Z.shiftr offset TM_SHIFT) (2 ^ 2) ltac:(lia)). lia. }
  destruct (os_user_view_pipr _ ring (conj Hp Hp3) Hr) as [Hi Hpi].
  assert (H : forall j,
            Z.land (view_get (Z.land (Z.shiftr offset TM_SHIFT) 0x3) j) 0x1 = 0 ->
            raw_store_writes TM_SHIFT offset size j = false).
  { intros j Hj. unfold raw_store_writes. apply andb_false_iff. right.
    apply not_true_is_false. intros He. apply existsb_exists in He as (i & Hin & Hb).
    apply andb_true_iff in Hb as [Hm Hij].
    apply negb_true_iff, Z.eqb_neq in Hm. apply Z.eqb_eq in Hij.
    apply list_elem_of_In, elem_of_seqZ in Hin.
    apply (byte_mask_writable TM_SHIFT offset size i ltac:(lia) Hm).
    rewrite Hij. exact Hj. }
  split; apply H; assumption.
Qed.

Lemma xive_tctx_set_cppr_inv (tctx tctx' : XiveTCTX) (cppr : Z) :
  xive_tctx_set_cppr tctx TM_QW1_OS cppr = Done tctx' ->
  (wf_regs (regs tctx) -> wf_regs (regs tctx')) /\
  (forall ring, In ring tm_rings ->
     pipr_inv (regs tctx) ring -> pipr_inv (regs tctx') ring).
Proof.
  unfold xive_tctx_set_cppr. intros H.
  destruct (xive_tctx_notify_inv _ _ _ H) as (Hwf & Hinv).
  { right; left; reflexivity. }
  cbn [regs set_regs] in Hwf, Hinv. split.
  - intros Hw. apply Hwf, wf_regs_set, Hw.
  - intros ring Hr Hi. apply (Hinv ring Hr).
    apply rings_cases in Hr.
    apply pipr_inv_reg_set; unfold TM_QW1_OS, TM_CPPR, TM_IPB, TM_PIPR; try lia.
    exact Hi.
Qed.

Lemma reset_wf_inv (chip_id : Z) (tctx : XiveTCTX) :
  wf_regs (regs (xive_tctx_reset chip_id tctx)) /\
  pipr_inv (regs (xive_tctx_reset chip_id tctx)) TM_QW1_OS.
Proof.
  unfold xive_tctx_reset.
  destruct (cpu_msr_hv tctx); cbn [negb regs set_regs].
  - split; [by_decide|reflexivity].
  - split; [|reflexivity].
    unfold copy_bytes, be32_bytes. cbn [imap foldl].
    repeat apply wf_regs_set. by_decide.
Qed.

Lemma run_op_inv (TM_SHIFT ring : Z) (op : tctx_op) (tctx tctx' : XiveTCTX) :
  wf_regs (regs tctx) -> In ring tm_rings -> op_ok TM_SHIFT ring op ->
  run_op TM_SHIFT op tctx = Done tctx' ->
  wf_regs (regs tctx') /\
  ((forall chip_id, op <> Op_reset chip_id) ->
   pipr_inv (regs tctx) ring -> pipr_inv (regs tctx') ring) /\
  (forall chip_id, op = Op_reset chip_id -> pipr_inv (regs tctx') TM_QW1_OS) /\
  (forall p, op = Op_deliver ring p -> pipr_inv (regs tctx') ring).
Proof.
  intros Hwf Hring Hok Hrun.
  destruct op as [chip|offset size|offset value size|ring0 p]; cbn [run_op] in Hrun.
  - injection Hrun as <-. destruct (reset_wf_inv chip tctx) as (Hw & Hi).
    split; [exact Hw|]. split; [intros Hne; now destruct (Hne chip)|].
    split; [intros _ _; exact Hi|discriminate].
  - destruct (xive_tm_read TM_SHIFT tctx offset size) as [[[v t'] l]|] eqn:Hr;
      [|discriminate]. cbn [mbind Res_bind mret Res_ret] in Hrun. injection Hrun as ->.
    assert (H : wf_regs (regs tctx') /\
                (pipr_inv (regs tctx) ring -> pipr_inv (regs tctx') ring)).
    { destruct (xive_tm_read_cases _ _ _ _ _ _ _ Hr) as [->|Ha]; [auto|].
      destruct (xive_tctx_accept_inv _ _ _ Ha Hwf) as (Hw' & Hi). auto. }
    destruct H as (Hw & Hi).
    split; [exact Hw|]. split; [intros _; exact Hi|].
    split; discriminate.
  - destruct (xive_tm_write TM_SHIFT tctx offset value size) as [[t' l]|] eqn:Hw;
      [|discriminate]. cbn [mbind Res_bind mret Res_ret] in Hrun. injection Hrun as ->.
    assert (H : wf_regs (regs tctx') /\
                (pipr_inv (regs tctx) ring -> pipr_inv (regs tctx') ring)).
    { destruct (is_raw_store TM_SHIFT (Op_tm_write offset value size)) eqn:Hraw.
      - rewrite (xive_tm_write_raw _ _ _ _ _ Hraw) in Hw.
        destruct (raw_write_frame TM_SHIFT tctx offset value size) as [Hwf' Hframe].
        destruct (Hok Hraw) as [Hi Hp].
        assert (Ht : (xive_tm_raw_write TM_SHIFT tctx offset value size).1 = tctx')
          by (destruct (xive_tm_raw_write TM_SHIFT tctx offset value size);
              cbn [fst]; congruence).
        rewrite Ht in Hwf', Hframe.
        apply rings_cases in Hring.
        split; [auto|]. unfold pipr_inv. intros Hinv.
        rewrite !Hframe by (try assumption; unfold TM_IPB, TM_PIPR; lia).
        exact Hinv.
      - destruct (xive_tm_write_cases _ _ _ _ _ _ _ Hw Hraw) as [->|[Hc|Hp]]; [auto| |].
        + destruct (xive_tctx_set_cppr_inv _ _ _ Hc) as (Hw' & Hi). auto.
        + destruct (xive_tctx_notify_inv _ _ _ Hp) as (Hw' & Hi).
          { right; left; reflexivity. }
          cbn [regs set_regs] in Hw', Hi.
          assert (Hos : In TM_QW1_OS tm_rings) by (right; left; reflexivity).
          split; [apply Hw', wf_ipb_update; assumption|].
          intros Hinv. apply (Hi ring Hring).
          apply pipr_inv_ipb_update; auto. }
    destruct H as (Hw' & Hi).
    split; [exact Hw'|]. split; [intros _; exact Hi|].
    split; discriminate.
  - cbn [op_ok] in Hok. unfold presenter_deliver in Hrun.
    destruct (xive_tctx_notify_inv _ _ _ Hrun Hok) as (Hw' & Hi).
    cbn [regs set_regs] in Hw', Hi.
    split; [apply Hw', wf_ipb_update; assumption|].
    split; [|split; [discriminate|]].
    + intros _ Hinv. apply (Hi ring Hring).
      apply pipr_inv_ipb_update; auto.
    + intros p' [= <- <-]. apply (Hi ring0 Hok).
      apply pipr_inv_ipb_update; auto.
Qed.

Lemma run_ops_inv (TM_SHIFT : Z) (ops : list tctx_op) : forall (tctx tctx' : XiveTCTX),
  wf_regs (regs tctx) -> pipr_inv (regs tctx) TM_QW1_OS ->
  Forall (op_ok TM_SHIFT TM_QW1_OS) ops ->
  run_ops TM_SHIFT ops tctx = Done tctx' ->
  wf_regs (regs tctx') /\ pipr_inv (regs tctx') TM_QW1_OS.
Proof.
  assert (Hos : In TM_QW1_OS tm_rings) by (right; left; reflexivity).
  induction ops as [|op ops IH]; intros tctx tctx' Hwf Hinv Hok Hrun;
    cbn [run_ops] in Hrun.
  - injection Hrun as <-. auto.
  - apply Forall_cons in Hok. destruct Hok as [Hop Hok].
    destruct (run_op TM_SHIFT op tctx) as [t1|] eqn:H1; [|discriminate].
    cbn [mbind Res_bind] in Hrun.
    destruct (run_op_inv _ _ _ _ _ Hwf Hos Hop H1) as (Hw1 & Hpres & Hreset & _).
    apply (IH t1 tctx' Hw1); [|exact Hok|exact Hrun].
    destruct op as [chip| | |]; [now apply (Hreset chip)| | |];
      (apply Hpres; [discriminate|exact Hinv]).
Qed.

(** C4, as stated, fails: after a guest reset the IPB of the HV_PHYS ring
    is 0 and its PIPR is 0, not 0xFF; and a raw 4-byte store from the HW
    page to the first word of the OS ring sets IPB and leaves PIPR. *)
Lemma pipr_invariant_counterexample :
  reg_get (regs reset_tctx) (TM_QW3_HV_PHYS + TM_IPB) = 0 /\
  reg_get (regs reset_tctx) (TM_QW3_HV_PHYS + TM_PIPR) = 0 /\
  ipb_to_pipr 0 = 0xff /\
  ~ (forall ring, In ring tm_rings -> pipr_inv (regs reset_tctx) ring) /\
  exists t',
    xive_tm_write 16 reset_tctx 0x00010 0x00004000 4 = Done (t', []) /\
    reg_get (regs t') (TM_QW1_OS + TM_IPB) = 0x40 /\
    reg_get (regs t') (TM_QW1_OS + TM_PIPR) = 0xff /\
    ipb_to_pipr 0x40 = 1 /\
    ~ pipr_inv (regs t') TM_QW1_OS.
Proof.
  set (t := reset_tctx). repeat split.
  - intros H. specialize (H TM_QW3_HV_PHYS ltac:(right; right; right; left; reflexivity)).
    vm_compute in H. discriminate H.
  - eexists. split; [vm_compute; reflexivity|]. repeat split.
    intros H. vm_compute in H. discriminate H.
Qed.

(** C4, amended. After a guest reset followed by any sequence of TIMA
    loads, TIMA stores, presenter deliveries and further resets in which
    no raw store writes the IPB or the PIPR of the OS ring, the PIPR of
    the OS ring is [ipb_to_pipr] of its IPB.  From such a state, each of
    these operations other than a reset keeps PIPR = ipb_to_pipr (IPB) on
    every ring on which it holds and whose IPB and PIPR it does not write
    by a raw store, and a delivery establishes it on the ring it delivers
    to.  A store that is rejected writes nothing, and no store from the
    OS page or the USER page writes the IPB or the PIPR of any ring, so
    all of these are among the operations that keep it.  [ipb_to_pipr] of
    a non-zero IPB is the priority of its most favoured set bit, and it
    is 0xFF for 0. *)
Theorem pipr_tracks_ipb (TM_SHIFT : Z) (ops : list tctx_op) (chip_id : Z)
    (t0 tctx : XiveTCTX) :
  Forall (op_ok TM_SHIFT TM_QW1_OS) ops ->
  run_ops TM_SHIFT (Op_reset chip_id :: ops) t0 = Done tctx ->
  pipr_inv (regs tctx) TM_QW1_OS /\
  (forall ring op tctx',
     In ring tm_rings -> op_ok TM_SHIFT ring op ->
     run_op TM_SHIFT op tctx = Done tctx' ->
     ((forall c, op <> Op_reset c) ->
      pipr_inv (regs tctx) ring -> pipr_inv (regs tctx') ring) /\
     (forall p, op = Op_deliver ring p -> pipr_inv (regs tctx') ring)) /\
  (forall ring offset value size,
     In ring tm_rings ->
     (xive_tm_raw_write TM_SHIFT tctx offset value size).2 <> [] \/
     XIVE_TM_OS_PAGE <= Z.land (Z.shiftr offset TM_SHIFT) 0x3 ->
     op_ok TM_SHIFT ring (Op_tm_write offset value size)) /\
  (forall x, 0 < x < 256 ->
     0 <= ipb_to_pipr x <= 7 /\
     Z.testbit x (7 - ipb_to_pipr x) = true /\
     forall p, 0 <= p < ipb_to_pipr x -> Z.testbit x (7 - p) = false) /\
  ipb_to_pipr 0 = 0xff.
Proof.
  intros Hoks Hrun. cbn [run_ops run_op mbind Res_bind mret Res_ret] in Hrun.
  destruct (reset_wf_inv chip_id t0) as (Hw0 & Hi0).
  destruct (run_ops_inv TM_SHIFT ops _ _ Hw0 Hi0 Hoks Hrun) as (Hw & Hinv).
  split; [exact Hinv|].
  split.
  { intros ring op tctx' Hring Hok Hop.
    destruct (run_op_inv _ _ _ _ _ Hw Hring Hok Hop) as (_ & Hp & _ & Hd). auto. }
  split.
  { intros ring offset value size Hring Hor. cbn [op_ok]. intros _.
    destruct Hor as [Hrej|Hpage]; [|apply raw_store_os_user; assumption].
    assert (Hb : (size <? 4) || (xive_tm_mask TM_SHIFT offset size true =? 0) ||
                 (Z.land offset 0x30 =? TM_QW0_USER) = true).
    { unfold xive_tm_raw_write in Hrej.
      destruct ((size <? 4) || (xive_tm_mask TM_SHIFT offset size true =? 0) ||
                (Z.land offset 48 =? TM_QW0_USER)); [reflexivity|].
      cbn [snd] in Hrej. now destruct Hrej. }
    unfold raw_store_writes. rewrite Hb. split; reflexivity. }
  split; [|reflexivity].
  assert (H1 : forall x, 0 <= x < 256 -> 0 < x ->
            0 <= ipb_to_pipr x <= 7 /\ Z.testbit x (7 - ipb_to_pipr x) = true)
    by by_bytes.
  assert (H2 : forall x, 0 <= x < 256 ->
            forallb (fun p => negb (p <? ipb_to_pipr x) || negb (Z.testbit x (7 - p)))
                    (map Z.of_nat (seq 0 8)) = true) by by_bytes.
  intros x Hx. destruct (H1 x ltac:(lia) ltac:(lia)) as (Hr7 & Hbit).
  split; [exact Hr7|]. split; [exact Hbit|].
  intros p Hpr. specialize (H2 x ltac:(lia)).
  rewrite forallb_forall in H2. specialize (H2 p).
  assert (Hlt : (p <? ipb_to_pipr x) = true) by (apply Z.ltb_lt; lia).
  rewrite Hlt in H2. cbn [negb orb] in H2.
  apply negb_true_iff, H2, in_map_iff. exists (Z.to_nat p).
  split; [lia|apply in_seq; lia].
Qed.

(** From the reset: a store to CPPR, a raw store from the OS page over
    the first word of the OS ring, a raw store from the HV page to word 2
    of the OS ring, a delivery of priority 4 to the OS ring, an
    acknowledge. *)
Lemma pipr_tracks_ipb_witness :
  Forall (op_ok 16 TM_QW1_OS) scenario_ops /\
  run_ops 16 (Op_reset 0 :: scenario_ops) scenario_tctx = Done scenario_ops_result /\
  pipr_inv (regs scenario_ops_result) TM_QW1_OS.
Proof.
  assert (Hok : Forall (op_ok 16 TM_QW1_OS) scenario_ops).
  { apply Forall_cons. split; [intros _; split; vm_compute; reflexivity|].
    apply Forall_cons. split; [intros _; split; vm_compute; reflexivity|].
    apply Forall_cons. split; [intros _; split; vm_compute; reflexivity|].
    apply Forall_cons. split; [right; left; reflexivity|].
    apply Forall_cons. split; [exact I|].
    apply Forall_nil_2. }
  assert (Hrun : run_ops 16 (Op_reset 0 :: scenario_ops) scenario_tctx
                 = Done scenario_ops_result) by (vm_compute; reflexivity).
  split; [exact Hok|]. split; [exact Hrun|].
  exact (proj1 (pipr_tracks_ipb 16 scenario_ops 0 scenario_tctx scenario_ops_result
                  Hok Hrun)).
Defined.

(** * Further properties *)

(** ** Priorities and the pending buffer *)

(** X1. [priority_to_ipb] and [ipb_to_pipr] are inverse on the priorities
    0..7: the PIPR of the IPB that holds one priority is that priority.
    A priority above 7 has no IPB bit, and the PIPR of the empty buffer is
    0xFF. *)
Theorem priority_ipb_roundtrip (p : Z) :
  0 <= p < 256 ->
  ipb_to_pipr (priority_to_ipb p) = (if p <=? XIVE_PRIORITY_MAX then p else 0xff) /\
  (priority_to_ipb p = 0 <-> XIVE_PRIORITY_MAX < p) /\
  (p <= XIVE_PRIORITY_MAX -> priority_to_ipb p = 2 ^ (XIVE_PRIORITY_MAX - p)).
Proof. revert p. by_bytes. Qed.

(** Priority 4 is IPB 0x08 and back. *)
Lemma priority_ipb_roundtrip_witness :
  priority_to_ipb 4 = 0x08 /\ ipb_to_pipr (priority_to_ipb 4) = 4.
Proof.
  destruct (priority_ipb_roundtrip 4 ltac:(lia)) as (H1 & _ & H3).
  split; [apply H3; unfold XIVE_PRIORITY_MAX; lia|exact H1].
Defined.

(** The PIPR of a buffer to which one priority is added is the more
    favoured of the old PIPR and that priority. *)
Lemma pipr_lor_min (x p : Z) :
  0 <= x < 256 -> 0 <= p < 256 ->
  ipb_to_pipr (Z.lor x (priority_to_ipb p)) =
  Z.min (ipb_to_pipr x) (if p <=? XIVE_PRIORITY_MAX then p else 0xff).
Proof.
  intros Hx Hp.
  destruct (Z.leb_spec p XIVE_PRIORITY_MAX) as [Hle|Hgt].
  - unfold XIVE_PRIORITY_MAX in Hle.
    assert (Hc : p = 0 \/ p = 1 \/ p = 2 \/ p = 3 \/ p = 4 \/ p = 5 \/ p = 6 \/ p = 7) by lia.
    revert x Hx.
    destruct Hc as [-> | [-> | [-> | [-> | [-> | [-> | [-> | ->]]]]]]]; by_bytes.
  - assert (H0 : priority_to_ipb p = 0).
    { unfold priority_to_ipb. destruct (Z.ltb_spec XIVE_PRIORITY_MAX p); [reflexivity|lia]. }
    rewrite H0, Z.lor_0_r.
    pose proof (ipb_to_pipr_byte x Hx). lia.
Qed.

Lemma ipb_update_min (a : list Z) (base p : Z) :
  Forall is_byte a -> 0 <= base -> base + 7 < Z.of_nat (length a) -> 0 <= p < 256 ->
  reg_get (ipb_update a base p) (base + TM_PIPR) =
    Z.min (ipb_to_pipr (reg_get a (base + TM_IPB)))
          (if p <=? XIVE_PRIORITY_MAX then p else 0xff).
Proof.
  intros Hb H0 Hlen Hp.
  destruct (ipb_update_spec a base p Hb H0 Hlen) as (_ & _ & Hipb & Hpipr & _).
  rewrite Hpipr, Hipb. apply pipr_lor_min; [apply reg_get_byte, Hb|exact Hp].
Qed.

(** X2. [ipb_update] with priority [p] on a ring ORs the bit of [p] into
    IPB and leaves in PIPR the more favoured (numerically lower) of [p] and
    the priority the old IPB held; a priority above 7 leaves IPB as it
    was.  PIPR never becomes less favoured. *)
Theorem ipb_update_most_favoured (a : list Z) (base p : Z) :
  Forall is_byte a -> 0 <= base -> base + 7 < Z.of_nat (length a) -> 0 <= p < 256 ->
  let a' := ipb_update a base p in
  reg_get a' (base + TM_IPB) = Z.lor (reg_get a (base + TM_IPB)) (priority_to_ipb p) /\
  reg_get a' (base + TM_PIPR) =
    Z.min (ipb_to_pipr (reg_get a (base + TM_IPB)))
          (if p <=? XIVE_PRIORITY_MAX then p else 0xff) /\
  reg_get a' (base + TM_PIPR) <= ipb_to_pipr (reg_get a (base + TM_IPB)).
Proof.
  intros Hb H0 Hlen Hp a'.
  destruct (ipb_update_spec a base p Hb H0 Hlen) as (_ & _ & Hipb & _).
  pose proof (ipb_update_min a base p Hb H0 Hlen Hp) as Hmin.
  fold a' in Hipb, Hmin.
  split; [exact Hipb|]. split; [exact Hmin|]. rewrite Hmin. lia.
Qed.

(** Priority 4 on the OS ring of the context of scenario 1, whose IPB is
    empty. *)
Lemma ipb_update_most_favoured_witness :
  reg_get (ipb_update (regs scenario_cpu) TM_QW1_OS 4) (TM_QW1_OS + TM_PIPR) = 4.
Proof.
  destruct (ipb_update_most_favoured (regs scenario_cpu) TM_QW1_OS 4) as (_ & H & _).
  - by_decide.
  - vm_compute. discriminate.
  - vm_compute. reflexivity.
  - lia.
  - rewrite H. vm_compute. reflexivity.
Defined.

(** The array [ipb_update] leaves, as two stores. *)
Lemma ipb_update_normal (a : list Z) (base p : Z) :
  Forall is_byte a -> 0 <= base -> base + 7 < Z.of_nat (length a) ->
  let x := Z.lor (reg_get a (base + TM_IPB)) (priority_to_ipb p) in
  ipb_update a base p =
    <[Z.to_nat (base + TM_PIPR) := ipb_to_pipr x]> (<[Z.to_nat (base + TM_IPB) := x]> a).
Proof.
  intros Hb H0 Hlen x. unfold ipb_update, TM_IPB, TM_PIPR in *.
  assert (Hx : 0 <= x < 256).
  { apply lor_byte; [apply reg_get_byte, Hb|apply priority_to_ipb_byte]. }
  rewrite reg_get_set_eq by lia. fold x.
  unfold reg_set. rewrite (u8_small x) by lia.
  rewrite (u8_small (ipb_to_pipr x)) by (apply ipb_to_pipr_byte; lia).
  reflexivity.
Qed.

Lemma ipb_update_twice (a : list Z) (base p q : Z) :
  Forall is_byte a -> 0 <= base -> base + 7 < Z.of_nat (length a) ->
  let x := Z.lor (Z.lor (reg_get a (base + TM_IPB)) (priority_to_ipb p))
                 (priority_to_ipb q) in
  ipb_update (ipb_update a base p) base q =
    <[Z.to_nat (base + TM_PIPR) := ipb_to_pipr x]> (<[Z.to_nat (base + TM_IPB) := x]> a).
Proof.
  intros Hb H0 Hlen x.
  destruct (ipb_update_spec a base p Hb H0 Hlen) as (Hl & Hb' & Hipb & _).
  rewrite (ipb_update_normal (ipb_update a base p) base q) by (try assumption; lia).
  rewrite Hipb. fold x.
  rewrite (ipb_update_normal a base p) by assumption.
  unfold TM_IPB, TM_PIPR.
  rewrite (list_insert_insert_ne _ (Z.to_nat (base + 2)) (Z.to_nat (base + 7))) by lia.
  rewrite !list_insert_insert_eq. reflexivity.
Qed.

(** X3. The pending buffer is a set of priorities: recording a priority
    that is already pending changes nothing, and two priorities recorded
    in either order leave the same registers. *)
Theorem ipb_update_set_like (a : list Z) (base p q : Z) :
  Forall is_byte a -> 0 <= base -> base + 7 < Z.of_nat (length a) ->
  ipb_update (ipb_update a base p) base p = ipb_update a base p /\
  ipb_update (ipb_update a base p) base q = ipb_update (ipb_update a base q) base p.
Proof.
  intros Hb H0 Hlen. split.
  - rewrite ipb_update_twice by assumption.
    rewrite <- Z.lor_assoc, Z.lor_diag.
    symmetry. apply ipb_update_normal; assumption.
  - rewrite !ipb_update_twice by assumption.
    rewrite <- !Z.lor_assoc, (Z.lor_comm (priority_to_ipb p)). reflexivity.
Qed.

(** Priorities 4 and 1 on the OS ring of the context of scenario 1. *)
Lemma ipb_update_set_like_witness :
  ipb_update (ipb_update (regs scenario_cpu) TM_QW1_OS 4) TM_QW1_OS 1 =
  ipb_update (ipb_update (regs scenario_cpu) TM_QW1_OS 1) TM_QW1_OS 4.
Proof.
  apply (ipb_update_set_like (regs scenario_cpu) TM_QW1_OS 4 1).
  - by_decide.
  - vm_compute. discriminate.
  - vm_compute. reflexivity.
Defined.

(** ** Acknowledge *)

Lemma pipr_after_accept (x : Z) :
  0 <= x < 256 ->
  ipb_to_pipr x <= ipb_to_pipr (Z.land x (Z.lnot (priority_to_ipb (ipb_to_pipr x)))).
Proof. revert x. by_bytes. Qed.

(** X4. Once the OS has acknowledged an exception the same interrupt is
    not presented again: on an OS ring whose PIPR is that of its IPB and
    whose NSR has the exception bit, [xive_tctx_accept] lowers the line
    and leaves CPPR at the priority accepted and PIPR no more favoured
    than CPPR, so that the check [xive_tctx_notify] makes next changes
    nothing. *)
Theorem accept_no_refire (tctx : XiveTCTX) :
  wf_regs (regs tctx) ->
  pipr_inv (regs tctx) TM_QW1_OS ->
  Z.land (reg_get (regs tctx) (TM_QW1_OS + TM_NSR)) TM_QW1_NSR_EO <> 0 ->
  exists v tctx',
    xive_tctx_accept tctx TM_QW1_OS = Done (v, tctx') /\
    output tctx' = false /\
    reg_get (regs tctx') (TM_QW1_OS + TM_CPPR) = reg_get (regs tctx) (TM_QW1_OS + TM_PIPR) /\
    reg_get (regs tctx') (TM_QW1_OS + TM_CPPR) <= reg_get (regs tctx') (TM_QW1_OS + TM_PIPR) /\
    xive_tctx_notify tctx' TM_QW1_OS = Done tctx'.
Proof.
  intros Hwf Hinv Heo.
  unfold xive_tctx_accept.
  change (exception_mask TM_QW1_OS) with (Done TM_QW1_NSR_EO).
  cbn [mbind Res_bind mret Res_ret qemu_irq_lower set_output regs].
  apply Z.eqb_neq in Heo. rewrite Heo.
  eexists _, _. split; [reflexivity|].
  cbn [regs set_regs output].
  destruct (accept_regs_spec (regs tctx) TM_QW1_OS TM_QW1_NSR_EO Hwf
              ltac:(unfold TM_QW1_OS; lia)) as (_ & Hc & Hi & Hp & _).
  assert (Hle : reg_get (accept_regs (regs tctx) TM_QW1_OS TM_QW1_NSR_EO) (TM_QW1_OS + TM_CPPR)
                <= reg_get (accept_regs (regs tctx) TM_QW1_OS TM_QW1_NSR_EO)
                     (TM_QW1_OS + TM_PIPR)).
  { rewrite Hp, Hi, Hc, Hinv. apply pipr_after_accept, wf_regs_get, Hwf. }
  split; [reflexivity|]. split; [exact Hc|]. split; [exact Hle|].
  apply xive_tctx_notify_cases. exact Hle.
Qed.

(** The acknowledge of scenario 4. *)
Lemma accept_no_refire_witness :
  exists v tctx',
    xive_tctx_accept scenario_tctx TM_QW1_OS = Done (v, tctx') /\
    xive_tctx_notify tctx' TM_QW1_OS = Done tctx'.
Proof.
  destruct (accept_no_refire scenario_tctx) as (v & t & Ha & _ & _ & _ & Hn).
  - by_decide.
  - vm_compute. reflexivity.
  - vm_compute. discriminate.
  - exists v, t. split; assumption.
Defined.

(** ** Stores to the TIMA *)

(** A 1-byte store at the offset of one of the two store handlers, from
    the OS page or a more privileged one, finds that handler. *)
Lemma find_op_store (TM_SHIFT offset : Z) (xto : XiveTmOp) :
  xto = tm_op_set_os_cppr \/ xto = tm_op_set_os_pending ->
  Z.land (Z.shiftr offset TM_SHIFT) 0x3 <= XIVE_TM_OS_PAGE ->
  Z.land offset 0xFFF = op_offset xto ->
  xive_tm_find_op TM_SHIFT offset 1 true = Some xto.
Proof.
  intros Hx Hp Ho. unfold xive_tm_find_op. rewrite Ho.
  pose proof (page_range TM_SHIFT offset) as Hr.
  unfold XIVE_TM_OS_PAGE in Hp.
  assert (Hc : Z.land (Z.shiftr offset TM_SHIFT) 3 = 0 \/
               Z.land (Z.shiftr offset TM_SHIFT) 3 = 1 \/
               Z.land (Z.shiftr offset TM_SHIFT) 3 = 2) by lia.
  destruct Hx as [-> | ->]; destruct Hc as [-> | [-> | ->]]; reflexivity.
Qed.

(** X5. A 1-byte store to the CPPR of the OS ring, from the OS page or a
    more privileged one, is not a raw store: it sets CPPR to the byte
    stored, or to 0xFF when that is above 7, and then raises NSR.EO and
    the output line exactly when PIPR is below the new CPPR; no other
    register changes.  A store of 0 never raises. *)
Theorem tm_store_os_cppr (TM_SHIFT : Z) (tctx : XiveTCTX) (offset value : Z) :
  wf_regs (regs tctx) ->
  Z.land (Z.shiftr offset TM_SHIFT) 0x3 <= XIVE_TM_OS_PAGE ->
  Z.land offset 0xFFF = TM_QW1_OS + TM_CPPR ->
  let c := if XIVE_PRIORITY_MAX <? Z.land value 0xff then 0xff else Z.land value 0xff in
  let r := reg_set (regs tctx) (TM_QW1_OS + TM_CPPR) c in
  let pipr := reg_get (regs tctx) (TM_QW1_OS + TM_PIPR) in
  reg_get r (TM_QW1_OS + TM_CPPR) = c /\
  xive_tm_write TM_SHIFT tctx offset value 1 =
    Done (if pipr <? c
          then qemu_irq_raise
                 (set_regs tctx
                    (reg_set r (TM_QW1_OS + TM_NSR)
                       (Z.lor (reg_get (regs tctx) (TM_QW1_OS + TM_NSR)) TM_QW1_NSR_EO)))
          else set_regs tctx r, []) /\
  (c = 0 -> xive_tm_write TM_SHIFT tctx offset value 1 = Done (set_regs tctx r, [])).
Proof.
  intros Hwf Hp Ho c r pipr.
  assert (Hc : 0 <= c < 256).
  { subst c. pose proof (land_byte value 0xff ltac:(lia)).
    destruct (_ <? _); lia. }
  assert (Hcppr : reg_get r (TM_QW1_OS + TM_CPPR) = c).
  { subst r. rewrite reg_get_set_eq by (destruct Hwf as [-> _]; unfold TM_QW1_OS, TM_CPPR; lia).
    apply u8_small, Hc. }
  assert (Hw : xive_tm_write TM_SHIFT tctx offset value 1 =
    Done (if pipr <? c
          then qemu_irq_raise
                 (set_regs tctx
                    (reg_set r (TM_QW1_OS + TM_NSR)
                       (Z.lor (reg_get (regs tctx) (TM_QW1_OS + TM_NSR)) TM_QW1_NSR_EO)))
          else set_regs tctx r, [])).
  { unfold xive_tm_write.
    rewrite (land_within offset _ 0x800 Ho eq_refl).
    change (Z.land (TM_QW1_OS + TM_CPPR) 2048 =? 0) with true. cbn [negb].
    rewrite (find_op_store TM_SHIFT offset tm_op_set_os_cppr (or_introl eq_refl) Hp Ho).
    cbn [write_handler tm_op_set_os_cppr].
    unfold xive_tm_set_os_cppr, xive_tctx_set_cppr. fold c. fold r.
    unfold xive_tctx_notify. cbn [regs set_regs]. rewrite Hcppr.
    replace (reg_get r (TM_QW1_OS + TM_PIPR)) with pipr
      by (subst r pipr; rewrite reg_get_set_ne; unfold TM_QW1_OS, TM_CPPR, TM_PIPR; lia).
    replace (reg_get r (TM_QW1_OS + TM_NSR)) with (reg_get (regs tctx) (TM_QW1_OS + TM_NSR))
      by (subst r; rewrite reg_get_set_ne; unfold TM_QW1_OS, TM_CPPR, TM_NSR; lia).
    change (exception_mask TM_QW1_OS) with (Done TM_QW1_NSR_EO).
    destruct (pipr <? c); reflexivity. }
  split; [exact Hcppr|]. split; [exact Hw|].
  intros H0. rewrite Hw.
  pose proof (wf_regs_get (regs tctx) (TM_QW1_OS + TM_PIPR) Hwf). fold pipr in H.
  destruct (Z.ltb_spec pipr c); [lia|reflexivity].
Qed.

(** CPPR 0 from the OS page on the context of scenario 1. *)
Lemma tm_store_os_cppr_witness :
  exists tctx', xive_tm_write 16 scenario_cpu 0x20011 0 1 = Done (tctx', []) /\
                output tctx' = output scenario_cpu /\
                reg_get (regs tctx') (TM_QW1_OS + TM_CPPR) = 0.
Proof.
  destruct (tm_store_os_cppr 16 scenario_cpu 0x20011 0) as (Hc & _ & H).
  - by_decide.
  - vm_compute. discriminate.
  - reflexivity.
  - eexists. split; [apply H; reflexivity|]. split; [reflexivity|exact Hc].
Defined.

(** X6. A 1-byte store to SET_OS_PENDING, from the OS page or a more
    privileged one, records the priority stored in the IPB of the OS ring,
    leaves in PIPR the more favoured of that priority and the old ones,
    leaves CPPR alone, and raises NSR.EO and the output line exactly when
    the new PIPR is below CPPR. *)
Theorem tm_store_os_pending (TM_SHIFT : Z) (tctx : XiveTCTX) (offset value : Z) :
  wf_regs (regs tctx) ->
  Z.land (Z.shiftr offset TM_SHIFT) 0x3 <= XIVE_TM_OS_PAGE ->
  Z.land offset 0xFFF = TM_SPC_SET_OS_PENDING ->
  let p := Z.land value 0xff in
  let r := ipb_update (regs tctx) TM_QW1_OS p in
  reg_get r (TM_QW1_OS + TM_IPB) =
    Z.lor (reg_get (regs tctx) (TM_QW1_OS + TM_IPB)) (priority_to_ipb p) /\
  reg_get r (TM_QW1_OS + TM_PIPR) =
    Z.min (ipb_to_pipr (reg_get (regs tctx) (TM_QW1_OS + TM_IPB)))
          (if p <=? XIVE_PRIORITY_MAX then p else 0xff) /\
  reg_get r (TM_QW1_OS + TM_CPPR) = reg_get (regs tctx) (TM_QW1_OS + TM_CPPR) /\
  xive_tm_write TM_SHIFT tctx offset value 1 =
    Done (if reg_get r (TM_QW1_OS + TM_PIPR) <? reg_get r (TM_QW1_OS + TM_CPPR)
          then qemu_irq_raise
                 (set_regs tctx
                    (reg_set r (TM_QW1_OS + TM_NSR)
                       (Z.lor (reg_get r (TM_QW1_OS + TM_NSR)) TM_QW1_NSR_EO)))
          else set_regs tctx r, []).
Proof.
  intros Hwf Hp Ho p r.
  assert (Hpb : 0 <= p < 256) by (apply land_byte; lia).
  destruct Hwf as [Hlen Hb].
  pose proof (ipb_update_min (regs tctx) TM_QW1_OS p Hb
                ltac:(unfold TM_QW1_OS; lia) ltac:(rewrite Hlen; unfold TM_QW1_OS; lia) Hpb)
    as Hm.
  destruct (ipb_update_spec (regs tctx) TM_QW1_OS p Hb
              ltac:(unfold TM_QW1_OS; lia) ltac:(rewrite Hlen; unfold TM_QW1_OS; lia))
    as (_ & _ & Hi & _ & Hframe).
  split; [exact Hi|]. split; [exact Hm|].
  split; [apply Hframe; unfold TM_QW1_OS, TM_CPPR, TM_IPB, TM_PIPR; lia|].
  unfold xive_tm_write.
  rewrite (land_within offset _ 0x800 Ho eq_refl).
  change (Z.land TM_SPC_SET_OS_PENDING 2048 =? 0) with false. cbn [negb].
  rewrite (find_op_store TM_SHIFT offset tm_op_set_os_pending (or_intror eq_refl) Hp Ho).
  cbn [write_handler tm_op_set_os_pending].
  unfold xive_tm_set_os_pending. fold p. fold r.
  unfold xive_tctx_notify. cbn [regs set_regs].
  change (exception_mask TM_QW1_OS) with (Done TM_QW1_NSR_EO).
  destruct (_ <? _); reflexivity.
Qed.

(** Priority 1 from the OS page on the context of scenario 1, whose CPPR
    is 0xFF. *)
Lemma tm_store_os_pending_witness :
  exists tctx',
    xive_tm_write 16 scenario_cpu 0x20812 1 1 = Done (tctx', []) /\
    output tctx' = true.
Proof.
  destruct (tm_store_os_pending 16 scenario_cpu 0x20812 1) as (_ & _ & _ & H).
  - by_decide.
  - vm_compute. discriminate.
  - reflexivity.
  - eexists. split; [exact H|]. vm_compute. reflexivity.
Defined.

(** ** The USER page *)

Lemma user_view_closed (k : Z) :
  0 <= k < 256 -> 16 <= k < 64 -> view_get XIVE_TM_USER_PAGE k = 0.
Proof. revert k. by_bytes. Qed.

Lemma ring_of_reg (offset : Z) :
  Z.land offset 0x30 <> 0 -> 16 <= Z.land offset 0x3F < 64.
Proof.
  intros H.
  assert (Hr : 0 <= Z.land offset 0x3F < 64).
  { change 0x3F with (Z.ones 6). rewrite Z.land_ones by lia. apply Z.mod_pos_bound. lia. }
  assert (He : Z.land offset 0x30 = Z.land (Z.land offset 0x3F) 0x30).
  { rewrite <- Z.land_assoc. reflexivity. }
  rewrite He in H. revert Hr H. generalize (Z.land offset 0x3F). intros x Hx.
  assert (Hx' : 0 <= x < 256) by lia. revert x Hx' Hx. by_bytes.
Qed.

Lemma find_op_user_page (TM_SHIFT offset size : Z) (write : bool) :
  Z.land (Z.shiftr offset TM_SHIFT) 0x3 = XIVE_TM_USER_PAGE ->
  xive_tm_find_op TM_SHIFT offset size write = None.
Proof. intros Hp. unfold xive_tm_find_op. rewrite Hp. reflexivity. Qed.

Lemma user_page_mask (TM_SHIFT offset size : Z) (write : bool) :
  Z.land (Z.shiftr offset TM_SHIFT) 0x3 = XIVE_TM_USER_PAGE ->
  Z.land offset 0x3F + size <= 64 ->
  Z.land offset 0x30 <> 0 ->
  xive_tm_mask TM_SHIFT offset size write = 0.
Proof.
  intros Hp Hin Hring. unfold xive_tm_mask. rewrite Hp.
  apply ring_of_reg in Hring.
  apply (mask_fold_zero
           (fun i => Z.land (view_get XIVE_TM_USER_PAGE (Z.land offset 0x3F + i))
                            (if write then 1 else 2) =? 0)).
  intros i Hi. rewrite user_view_closed by lia. reflexivity.
Qed.

(** X7. The USER page gives no access to the thread context: every
    store from it, raw or special, of any size, leaves the context as it
    was and logs an invalid write, and every load returns all-ones and
    logs an invalid read (accesses that stay within the 64 registers). *)
Theorem tm_user_page_isolated (TM_SHIFT : Z) (tctx : XiveTCTX) (offset value size : Z) :
  Z.land (Z.shiftr offset TM_SHIFT) 0x3 = XIVE_TM_USER_PAGE ->
  Z.land offset 0x3F + size <= 64 ->
  xive_tm_write TM_SHIFT tctx offset value size =
    Done (tctx, [Log_tima_invalid_write offset]) /\
  xive_tm_read TM_SHIFT tctx offset size =
    Done (minus_one_u64, tctx, [Log_tima_invalid_read offset]).
Proof.
  intros Hp Hin.
  unfold xive_tm_write, xive_tm_read.
  rewrite !(find_op_user_page TM_SHIFT offset size _ Hp).
  unfold xive_tm_raw_write, xive_tm_raw_read.
  destruct (Z.eq_dec (Z.land offset 0x30) 0) as [Hr|Hr].
  - rewrite Hr. change (0 =? TM_QW0_USER) with true. rewrite !orb_true_r.
    destruct (negb _); split; reflexivity.
  - rewrite !(user_page_mask TM_SHIFT offset size _ Hp Hin Hr).
    change (0 =? 0) with true. rewrite !orb_true_r. cbn [orb].
    destruct (negb _); split; reflexivity.
Qed.

(** A store to the CPPR of the OS ring and an acknowledge, from the USER
    page. *)
Lemma tm_user_page_isolated_witness :
  xive_tm_write 16 scenario_tctx 0x30011 0xff 1 =
    Done (scenario_tctx, [Log_tima_invalid_write 0x30011]) /\
  xive_tm_read 16 scenario_tctx 0x30810 2 =
    Done (minus_one_u64, scenario_tctx, [Log_tima_invalid_read 0x30810]).
Proof.
  split.
  - apply (tm_user_page_isolated 16 scenario_tctx 0x30011 0xff 1); [reflexivity|vm_compute; discriminate].
  - apply (tm_user_page_isolated 16 scenario_tctx 0x30810 0 2); [reflexivity|vm_compute; discriminate].
Defined.

(** ** Raw stores *)

(** No special operation is 4 bytes wide or more. *)
Lemma find_op_wide (TM_SHIFT offset size : Z) (write : bool) :
  4 <= size -> xive_tm_find_op TM_SHIFT offset size write = None.
Proof.
  intros Hs. unfold xive_tm_find_op, xive_tm_operations.
  unfold tm_op_set_os_cppr, tm_op_ack_os_reg, tm_op_set_os_pending.
  cbn [List.find op_size].
  destruct (Z.eqb_spec 1 size); [lia|]. destruct (Z.eqb_spec 2 size); [lia|].
  rewrite !andb_false_r. reflexivity.
Qed.

Lemma byte_mask_value (mask s : Z) (c : bool) :
  (forall j, 0 <= j < 8 -> Z.testbit mask (j + s) = c) -> 0 <= s ->
  u8 (Z.shiftr mask s) = if c then 0xff else 0.
Proof.
  intros H Hs. apply Z.bits_inj'. intros n Hn. unfold u8.
  destruct (Z.ltb_spec n 8).
  - rewrite Z.mod_pow2_bits_low, Z.shiftr_spec, H by lia.
    destruct c; [|symmetry; apply Z.bits_0].
    change 255 with (Z.ones 8). rewrite Z.ones_spec_low by lia. reflexivity.
  - rewrite Z.mod_pow2_bits_high by lia.
    destruct c; [|symmetry; apply Z.bits_0].
    change 255 with (Z.ones 8). rewrite Z.ones_spec_high by lia. reflexivity.
Qed.

Lemma raw_write_fold (bm val : Z -> Z) (reg : Z) (n : nat) : forall (r : list Z),
  0 <= reg -> reg + Z.of_nat n <= Z.of_nat (length r) ->
  let F := foldl (fun r i => if bm i =? 0 then r else reg_set r (reg + i) (val i))
                 r (seqZ 0 (Z.of_nat n)) in
  length F = length r /\
  forall j, 0 <= j ->
    reg_get F j =
      if bool_decide (reg <= j < reg + Z.of_nat n) && negb (bm (j - reg) =? 0)
      then u8 (val (j - reg)) else reg_get r j.
Proof.
  induction n as [|n IH]; intros r Hreg Hlen.
  - cbn. split; [reflexivity|]. intros j Hj.
    rewrite bool_decide_eq_false_2 by lia. reflexivity.
  - cbv zeta.
    replace (Z.of_nat (S n)) with (Z.of_nat n + 1) by lia.
    rewrite seqZ_app by lia. rewrite foldl_app. cbn [seqZ foldl].
    change (seqZ (0 + Z.of_nat n) 1) with (seqZ (0 + Z.of_nat n) (Z.of_nat 1)).
    destruct (IH r Hreg ltac:(lia)) as [IHl IHg]. cbv zeta in IHl, IHg.
    set (F := foldl _ r (seqZ 0 (Z.of_nat n))) in *.
    replace (seqZ (0 + Z.of_nat n) (Z.of_nat 1)) with [Z.of_nat n]
      by (unfold seqZ; cbn; f_equal; lia).
    cbn [foldl].
    destruct (Z.eqb_spec (bm (Z.of_nat n)) 0) as [Hz|Hnz].
    + split; [exact IHl|]. intros j Hj. rewrite IHg by lia.
      destruct (Z.eq_dec j (reg + Z.of_nat n)) as [->|Hne].
      * replace (reg + Z.of_nat n - reg) with (Z.of_nat n) by lia.
        rewrite Hz. cbn [Z.eqb negb]. rewrite !andb_false_r. reflexivity.
      * destruct (bool_decide (reg <= j < reg + Z.of_nat n)) eqn:E1;
          [apply bool_decide_eq_true_1 in E1|apply bool_decide_eq_false_1 in E1].
        -- rewrite (bool_decide_eq_true_2 (reg <= j < reg + (Z.of_nat n + 1))) by lia.
           reflexivity.
        -- rewrite (bool_decide_eq_false_2 (reg <= j < reg + (Z.of_nat n + 1))) by lia.
           reflexivity.
    + split; [rewrite reg_set_length; exact IHl|]. intros j Hj.
      destruct (Z.eq_dec j (reg + Z.of_nat n)) as [->|Hne].
      * rewrite reg_get_set_eq by lia.
        rewrite bool_decide_eq_true_2 by lia.
        replace (reg + Z.of_nat n - reg) with (Z.of_nat n) by lia.
        destruct (Z.eqb_spec (bm (Z.of_nat n)) 0); [contradiction|]. reflexivity.
      * rewrite reg_get_set_ne by lia. rewrite IHg by lia.
        destruct (bool_decide (reg <= j < reg + Z.of_nat n)) eqn:E1;
          [apply bool_decide_eq_true_1 in E1|apply bool_decide_eq_false_1 in E1].
        -- rewrite (bool_decide_eq_true_2 (reg <= j < reg + (Z.of_nat n + 1))) by lia.
           reflexivity.
        -- rewrite (bool_decide_eq_false_2 (reg <= j < reg + (Z.of_nat n + 1))) by lia.
           reflexivity.
Qed.

Lemma reg_offset_range (offset : Z) : 0 <= Z.land offset 0x3F < 64.
Proof.
  change 0x3F with (Z.ones 6). rewrite Z.land_ones by lia. apply Z.mod_pos_bound. lia.
Qed.

Lemma raw_write_bytes (TM_SHIFT : Z) (tctx : XiveTCTX) (offset value size : Z) :
  4 <= size <= 8 ->
  let page := Z.land (Z.shiftr offset TM_SHIFT) 0x3 in
  let reg := Z.land offset 0x3F in
  let writable i := negb (Z.land (view_get page (reg + i)) 0x1 =? 0) in
  xive_tm_mask TM_SHIFT offset size true <> 0 ->
  Z.land offset 0x30 <> TM_QW0_USER ->
  wf_regs (regs tctx) -> reg + size <= 64 ->
  exists r',
    xive_tm_raw_write TM_SHIFT tctx offset value size = (set_regs tctx r', []) /\
    wf_regs r' /\
    forall j, 0 <= j < 64 ->
      reg_get r' j =
        if bool_decide (reg <= j < reg + size) && writable (j - reg)
        then Z.land (Z.shiftr value (8 * (size - (j - reg) - 1))) 0xff
        else reg_get (regs tctx) j.
Proof.
  intros Hsize page reg writable Hmask Hring Hwf Hin.
  unfold xive_tm_raw_write. fold reg.
  set (mask := xive_tm_mask TM_SHIFT offset size true) in *.
  assert (Hb : (size <? 4) || (mask =? 0) || (Z.land offset 48 =? TM_QW0_USER) = false).
  { apply Z.eqb_neq in Hmask, Hring. rewrite Hmask, Hring.
    destruct (Z.ltb_spec size 4); [lia|reflexivity]. }
  rewrite Hb.
  pose proof (reg_offset_range offset) as Hreg. fold reg in Hreg.
  assert (Hbm : forall i, 0 <= i < size ->
            u8 (Z.shiftr mask (8 * (size - i - 1))) = if writable i then 0xff else 0).
  { intros i Hi. apply byte_mask_value; [|lia].
    intros j Hj. subst mask. unfold xive_tm_mask. fold page reg.
    rewrite (mask_fold_bit (fun i => Z.land (view_get page (reg + i)) 1 =? 0)) by lia.
    reflexivity. }
  set (bm := fun i => u8 (Z.shiftr mask (8 * (size - i - 1)))).
  set (val := fun i => Z.land (Z.shiftr value (8 * (size - i - 1))) (bm i)).
  destruct Hwf as [Hlen Hbytes].
  destruct (raw_write_fold bm val reg (Z.to_nat size) (regs tctx) ltac:(lia) ltac:(lia))
    as [Hl Hg].
  rewrite Z2Nat.id in Hl, Hg by lia.
  set (F := foldl (fun r i => if bm i =? 0 then r else reg_set r (reg + i) (val i))
                  (regs tctx) (seqZ 0 size)) in *.
  exists F. split; [reflexivity|]. split.
  - split; [rewrite Hl; exact Hlen|].
    apply Forall_lookup. intros k x Hk.
    pose proof (lookup_lt_Some _ _ _ Hk) as Hklt. rewrite Hl, Hlen in Hklt.
    assert (Hx : reg_get F (Z.of_nat k) = x).
    { unfold reg_get. rewrite Nat2Z.id. apply list_lookup_total_correct. exact Hk. }
    rewrite <- Hx, Hg by lia.
    destruct (_ && _); [apply u8_range|apply reg_get_byte, Hbytes].
  - intros j Hj. rewrite Hg by lia.
    destruct (bool_decide (reg <= j < reg + size)) eqn:E;
      [apply bool_decide_eq_true_1 in E|reflexivity].
    cbn [andb]. unfold val. unfold bm. rewrite Hbm by lia.
    destruct (writable (j - reg)); [|reflexivity].
    cbn [Z.eqb negb]. apply u8_small, land_byte. lia.
Qed.

Lemma raw_read_bytes (TM_SHIFT : Z) (tctx : XiveTCTX) (offset size : Z) :
  4 <= size <= 8 ->
  let page := Z.land (Z.shiftr offset TM_SHIFT) 0x3 in
  let reg := Z.land offset 0x3F in
  let readable i := negb (Z.land (view_get page (reg + i)) 0x2 =? 0) in
  xive_tm_mask TM_SHIFT offset size false <> 0 ->
  Z.land offset 0x30 <> TM_QW0_USER ->
  wf_regs (regs tctx) ->
  exists v,
    xive_tm_raw_read TM_SHIFT tctx offset size = (v, []) /\
    forall i, 0 <= i < size ->
      Z.land (Z.shiftr v (8 * (size - i - 1))) 0xff =
      if readable i then reg_get (regs tctx) (reg + i) else 0.
Proof.
  intros Hsize page reg readable Hmask Hring Hwf.
  unfold xive_tm_raw_read. fold reg.
  set (mask := xive_tm_mask TM_SHIFT offset size false) in *.
  assert (Hb : (size <? 4) || (mask =? 0) || (Z.land offset 48 =? TM_QW0_USER) = false).
  { apply Z.eqb_neq in Hmask, Hring. rewrite Hmask, Hring.
    destruct (Z.ltb_spec size 4); [lia|reflexivity]. }
  rewrite Hb. eexists. split; [reflexivity|].
  intros i Hi.
  apply (masked_byte _ _ _ _ (readable i)).
  - intros j Hj.
    apply (be_fold_bit (fun i => reg_get (regs tctx) (reg + i)) size i j); try lia.
    intros k. apply wf_regs_get, Hwf.
  - intros j Hj. subst mask. unfold xive_tm_mask. fold page reg.
    apply (mask_fold_bit (fun i => Z.land (view_get page (reg + i)) 2 =? 0)); lia.
  - apply wf_regs_get, Hwf.
  - lia.
Qed.

(** X8. A permitted raw store (4 to 8 bytes below 2K that stay within
    the 64 registers, not into the QW0_USER ring, with a write mask that
    is not zero) has no side effect:
    it writes, byte by byte from the most significant one, the bytes of
    the value into the registers the write-access map of the page allows,
    and leaves every other register, the output line and the rest of the
    context as they were. *)
Theorem tm_raw_store (TM_SHIFT : Z) (tctx : XiveTCTX) (offset value size : Z) :
  Z.land offset 0x800 = 0 ->
  4 <= size <= 8 ->
  let page := Z.land (Z.shiftr offset TM_SHIFT) 0x3 in
  let reg := Z.land offset 0x3F in
  let writable i := negb (Z.land (view_get page (reg + i)) 0x1 =? 0) in
  xive_tm_mask TM_SHIFT offset size true <> 0 ->
  Z.land offset 0x30 <> TM_QW0_USER ->
  wf_regs (regs tctx) -> reg + size <= 64 ->
  exists r',
    xive_tm_write TM_SHIFT tctx offset value size = Done (set_regs tctx r', []) /\
    wf_regs r' /\
    forall j, 0 <= j < 64 ->
      reg_get r' j =
        if bool_decide (reg <= j < reg + size) && writable (j - reg)
        then Z.land (Z.shiftr value (8 * (size - (j - reg) - 1))) 0xff
        else reg_get (regs tctx) j.
Proof.
  intros Hraw Hsize page reg writable Hmask Hring Hwf Hin.
  destruct (raw_write_bytes TM_SHIFT tctx offset value size Hsize Hmask Hring Hwf Hin)
    as (r' & Hw & Hwf' & Hg).
  exists r'. split; [|split; assumption].
  unfold xive_tm_write. rewrite Hraw. cbn [Z.eqb negb].
  rewrite find_op_wide by lia. rewrite Hw. reflexivity.
Qed.

(** A 4-byte store of CPPR 7 to NSR, CPPR, IPB, LSMFB of the OS ring from
    the HV page. *)
Lemma tm_raw_store_witness :
  exists r',
    xive_tm_write 16 scenario_tctx 0x10010 0x00070000 4 = Done (set_regs scenario_tctx r', []) /\
    reg_get r' (TM_QW1_OS + TM_CPPR) = 7 /\
    reg_get r' (TM_QW1_OS + TM_PIPR) = reg_get (regs scenario_tctx) (TM_QW1_OS + TM_PIPR).
Proof.
  destruct (tm_raw_store 16 scenario_tctx 0x10010 0x00070000 4) as (r' & Hw & _ & Hg).
  - reflexivity.
  - lia.
  - vm_compute. discriminate.
  - vm_compute. discriminate.
  - by_decide.
  - vm_compute. discriminate.
  - exists r'. split; [exact Hw|]. split.
    + rewrite Hg by (unfold TM_QW1_OS, TM_CPPR; lia). reflexivity.
    + rewrite Hg by (unfold TM_QW1_OS, TM_PIPR; lia). reflexivity.
Defined.

(** X9. Raw store then raw load at the same offset and size, both
    permitted and within the 64 registers: the load returns, for each byte the page may read, the byte just stored where
    the page may also write it and the old register where it may not, and
    0 for the bytes it may not read. *)
Theorem tm_raw_store_load (TM_SHIFT : Z) (tctx : XiveTCTX) (offset value size : Z) :
  Z.land offset 0x800 = 0 ->
  4 <= size <= 8 ->
  let page := Z.land (Z.shiftr offset TM_SHIFT) 0x3 in
  let reg := Z.land offset 0x3F in
  let writable i := negb (Z.land (view_get page (reg + i)) 0x1 =? 0) in
  let readable i := negb (Z.land (view_get page (reg + i)) 0x2 =? 0) in
  xive_tm_mask TM_SHIFT offset size true <> 0 ->
  xive_tm_mask TM_SHIFT offset size false <> 0 ->
  Z.land offset 0x30 <> TM_QW0_USER ->
  wf_regs (regs tctx) -> reg + size <= 64 ->
  exists tctx' v,
    xive_tm_write TM_SHIFT tctx offset value size = Done (tctx', []) /\
    xive_tm_read TM_SHIFT tctx' offset size = Done (v, tctx', []) /\
    forall i, 0 <= i < size ->
      Z.land (Z.shiftr v (8 * (size - i - 1))) 0xff =
      if readable i
      then (if writable i then Z.land (Z.shiftr value (8 * (size - i - 1))) 0xff
            else reg_get (regs tctx) (reg + i))
      else 0.
Proof.
  intros Hraw Hsize page reg writable readable Hwm Hrm Hring Hwf Hin.
  destruct (raw_write_bytes TM_SHIFT tctx offset value size Hsize Hwm Hring Hwf Hin)
    as (r' & Hw & Hwf' & Hg).
  destruct (raw_read_bytes TM_SHIFT (set_regs tctx r') offset size Hsize Hrm Hring Hwf')
    as (v & Hr & Hv).
  exists (set_regs tctx r'), v. split; [|split].
  - unfold xive_tm_write. rewrite Hraw. cbn [Z.eqb negb].
    rewrite find_op_wide by lia. rewrite Hw. reflexivity.
  - unfold xive_tm_read. rewrite Hraw. cbn [Z.eqb negb].
    rewrite find_op_wide by lia. rewrite Hr. reflexivity.
  - intros i Hi. rewrite (Hv i Hi). fold page reg. fold (readable i).
    destruct (readable i); [|reflexivity].
    cbn [regs set_regs]. pose proof (reg_offset_range offset) as Hreg. fold reg in Hreg.
    rewrite Hg by lia. fold reg page.
    rewrite bool_decide_eq_true_2 by lia. cbn [andb].
    replace (reg + i - reg) with i by lia. reflexivity.
Qed.

(** The same store, read back. *)
Lemma tm_raw_store_load_witness :
  exists tctx' v,
    xive_tm_write 16 scenario_tctx 0x10010 0x00070000 4 = Done (tctx', []) /\
    xive_tm_read 16 tctx' 0x10010 4 = Done (v, tctx', []).
Proof.
  destruct (tm_raw_store_load 16 scenario_tctx 0x10010 0x00070000 4)
    as (t & v & Hw & Hr & _).
  - reflexivity.
  - lia.
  - vm_compute. discriminate.
  - vm_compute. discriminate.
  - vm_compute. discriminate.
  - by_decide.
  - vm_compute. discriminate.
  - exists t, v. split; assumption.
Defined.

(** ** Reset and CAM matching *)

Lemma copy_bytes4 (a : list Z) (i b0 b1 b2 b3 : Z) :
  copy_bytes a i [b0; b1; b2; b3] =
  reg_set (reg_set (reg_set (reg_set a i b0) (i + 1) b1) (i + 2) b2) (i + 3) b3.
Proof.
  transitivity
    (reg_set (reg_set (reg_set (reg_set a (i + 0) b0) (i + 1) b1) (i + 2) b2) (i + 3) b3);
    [reflexivity|].
  rewrite Z.add_0_r. reflexivity.
Qed.

Lemma be32_bytes_at (a : list Z) (i w : Z) :
  0 <= w < 2 ^ 32 -> 0 <= i -> i + 3 < Z.of_nat (length a) ->
  be32_at (copy_bytes a i (be32_bytes w)) i = w.
Proof.
  intros Hw Hi Hlen. unfold be32_bytes. rewrite copy_bytes4.
  unfold be32_at.
  rewrite (reg_get_set_eq _ (i + 3)) by (rewrite !reg_set_length; lia).
  rewrite (reg_get_set_ne _ (i + 3) (i + 2)) by lia.
  rewrite (reg_get_set_eq _ (i + 2)) by (rewrite !reg_set_length; lia).
  rewrite !(reg_get_set_ne _ _ (i + 1)) by lia.
  rewrite (reg_get_set_eq _ (i + 1)) by (rewrite !reg_set_length; lia).
  rewrite !(reg_get_set_ne _ _ i) by lia.
  rewrite (reg_get_set_eq _ i) by lia.
  rewrite !u8_small by (apply land_byte; lia).
  apply be32_roundtrip. exact Hw.
Qed.

Lemma copy_bytes4_frame (a : list Z) (i j b0 b1 b2 b3 : Z) :
  0 <= i -> 0 <= j -> (j < i \/ i + 3 < j) ->
  reg_get (copy_bytes a i [b0; b1; b2; b3]) j = reg_get a j.
Proof.
  intros Hi Hj Hout. rewrite copy_bytes4.
  rewrite !reg_get_set_ne by lia. reflexivity.
Qed.

Lemma reset_regs (chip_id : Z) (tctx : XiveTCTX) :
  let r := regs (xive_tctx_reset chip_id tctx) in
  let os_cam := u32 (Z.lor TM_QW1W2_VO
                       (tctx_cam_line (u8 chip_id) (u32 (cpu_vcpu_id tctx)))) in
  wf_regs r /\
  be32_at r (TM_QW0_USER + TM_WORD2) = 0 /\
  be32_at r (TM_QW2_HV_POOL + TM_WORD2) = 0 /\
  be32_at r (TM_QW3_HV_PHYS + TM_WORD2) = 0 /\
  be32_at r (TM_QW1_OS + TM_WORD2) = (if cpu_msr_hv tctx then 0 else os_cam) /\
  reg_get r (TM_QW1_OS + TM_NSR) = 0 /\
  reg_get r (TM_QW1_OS + TM_CPPR) = 0 /\
  reg_get r (TM_QW1_OS + TM_IPB) = 0 /\
  reg_get r (TM_QW1_OS + TM_PIPR) = 0xff.
Proof.
  intros r os_cam. subst r. unfold xive_tctx_reset. cbn [regs set_regs].
  fold os_cam.
  set (r0 := reg_set _ (TM_QW1_OS + TM_PIPR) _).
  assert (Hr0 : r0 = <[23%nat := 255]> (<[22%nat := 255]> (<[20%nat := 255]>
                      (<[19%nat := 255]> (replicate 64 0))))) by reflexivity.
  assert (Hwf0 : wf_regs r0) by (rewrite Hr0; by_decide).
  assert (Hcam : 0 <= os_cam < 2 ^ 32) by (apply Z.mod_pos_bound; lia).
  clearbody r0 os_cam.
  destruct (cpu_msr_hv tctx); cbn [negb].
  - rewrite Hr0. repeat split; try reflexivity. by_decide.
  - assert (Hlen : length r0 = 64%nat) by apply Hwf0.
    split.
    { unfold be32_bytes. rewrite copy_bytes4.
      repeat apply wf_regs_set. exact Hwf0. }
    unfold be32_at at 1 2 3.
    unfold TM_QW0_USER, TM_QW1_OS, TM_QW2_HV_POOL, TM_QW3_HV_PHYS, TM_WORD2,
      TM_NSR, TM_CPPR, TM_IPB, TM_PIPR.
    unfold be32_bytes at 1 2 3 4 5 6 7 8 9 10 11 12.
    rewrite !copy_bytes4_frame by lia.
    rewrite be32_bytes_at by (try exact Hcam; rewrite ?Hlen; lia).
    unfold be32_bytes.
    rewrite !copy_bytes4_frame by lia.
    rewrite Hr0. repeat split; reflexivity.
Qed.

Lemma OS_CAM_field : TM_QW1W2_OS_CAM = field_mask 0 24 /\ MASK_TO_LSH TM_QW1W2_OS_CAM = 0.
Proof. split; reflexivity. Qed.

Lemma os_cam_word (own : Z) :
  let os_cam := u32 (Z.lor TM_QW1W2_VO own) in
  Z.land os_cam TM_QW1W2_VO <> 0 /\
  GETFIELD TM_QW1W2_OS_CAM os_cam = Z.land own 0xFFFFFF.
Proof.
  intros os_cam. subst os_cam. split.
  - intros H.
    assert (Hb : Z.testbit (Z.land (u32 (Z.lor TM_QW1W2_VO own)) TM_QW1W2_VO) 31 = true).
    { unfold u32. rewrite Z.land_spec, Z.mod_pow2_bits_low, Z.lor_spec by lia.
      reflexivity. }
    rewrite H, Z.bits_0 in Hb. discriminate.
  - rewrite (GETFIELD_field _ 0 24) by (try apply OS_CAM_field; lia).
    unfold u32.
    change TM_QW1W2_VO with (Z.shiftl (Z.ones 1) 31).
    change 0xFFFFFF with (Z.ones 24).
    Z.bitblast.
Qed.

Lemma ring_match_zero (tctx : XiveTCTX) (ring vp_blk vp_idx logic_serv : Z) :
  In ring tm_rings ->
  be32_at (regs tctx) (ring + TM_WORD2) = 0 ->
  xive_tctx_ring_match tctx ring vp_blk vp_idx false logic_serv = Done false.
Proof.
  intros Hr Hz. unfold xive_tctx_ring_match. rewrite Hz.
  apply rings_cases in Hr. destruct Hr as [-> | [-> | [-> | ->]]]; reflexivity.
Qed.

Lemma reset_guest_match (chip_id : Z) (tctx : XiveTCTX) (format vp_blk vp_idx logic_serv : Z) :
  cpu_msr_hv tctx = false ->
  let own := tctx_cam_line (u8 chip_id) (u32 (cpu_vcpu_id tctx)) in
  xive_presenter_tctx_match (xive_tctx_reset chip_id tctx) format vp_blk vp_idx false
    logic_serv =
   Done (if (format =? 0) && (tctx_cam_line vp_blk vp_idx =? Z.land own 0xFFFFFF)
         then TM_QW1_OS else -1, []).
Proof.
  intros Hhv own.
  destruct (reset_regs chip_id tctx) as (Hwf & Hu & Hp & Hh & Ho & _).
  fold own in Ho. rewrite Hhv in Ho.
  set (t := xive_tctx_reset chip_id tctx) in *.
  unfold xive_presenter_tctx_match.
  destruct (format =? 0).
  - rewrite (ring_match_zero t TM_QW3_HV_PHYS) by (try exact Hh; cbn; auto).
    cbn [mbind Res_bind].
    rewrite (ring_match_zero t TM_QW2_HV_POOL) by (try exact Hp; cbn; auto).
    cbn [mbind Res_bind].
    unfold xive_tctx_ring_match. rewrite Ho.
    change (TM_QW1_OS =? TM_QW3_HV_PHYS) with false.
    change (TM_QW1_OS =? TM_QW2_HV_POOL) with false.
    change (TM_QW1_OS =? TM_QW1_OS) with true. cbv iota.
    destruct (os_cam_word own) as [Hvo Hcam]. cbv zeta in Hvo, Hcam.
    rewrite Hcam. apply Z.eqb_neq in Hvo. rewrite Hvo.
    cbn [negb andb mbind Res_bind mret Res_ret].
    destruct (tctx_cam_line vp_blk vp_idx =? Z.land own 16777215); reflexivity.
  - rewrite (ring_match_zero t TM_QW0_USER) by (try exact Hu; cbn; auto).
    reflexivity.
Qed.

(** X10. After [xive_tctx_reset] a guest CPU (MSR.HV clear) is matched by
    the presenter, for format 0 and without CAM-ignore, on its OS ring
    and by one CAM line only: that of its own chip and VCPU id, truncated
    to the 24 bits of the OS CAM field; format 1 matches nothing.  A CPU
    in hypervisor state matches no VP at all, since the reset gives it no
    CAM line.  No error is logged. *)
Theorem reset_cam_match (chip_id : Z) (tctx : XiveTCTX) (format vp_blk vp_idx logic_serv : Z) :
  let t := xive_tctx_reset chip_id tctx in
  let own := tctx_cam_line (u8 chip_id) (u32 (cpu_vcpu_id tctx)) in
  (cpu_msr_hv tctx = true ->
   xive_presenter_tctx_match t format vp_blk vp_idx false logic_serv = Done (-1, [])) /\
  (cpu_msr_hv tctx = false ->
   xive_presenter_tctx_match t format vp_blk vp_idx false logic_serv =
     Done (if (format =? 0) && (tctx_cam_line vp_blk vp_idx =? Z.land own 0xFFFFFF)
           then TM_QW1_OS else -1, [])) /\
  (cpu_msr_hv tctx = false -> own < 2 ^ 24 ->
   xive_presenter_tctx_match t 0 (u8 chip_id) (u32 (cpu_vcpu_id tctx)) false logic_serv =
     Done (TM_QW1_OS, [])).
Proof.
  intros t own.
  split; [|split].
  - intros Hhv.
    destruct (reset_regs chip_id tctx) as (Hwf & Hu & Hp & Hh & Ho & _).
    fold t in Hwf, Hu, Hp, Hh, Ho. rewrite Hhv in Ho.
    unfold xive_presenter_tctx_match.
    destruct (format =? 0).
    + rewrite (ring_match_zero t TM_QW3_HV_PHYS) by (try exact Hh; cbn; auto).
      cbn [mbind Res_bind].
      rewrite (ring_match_zero t TM_QW2_HV_POOL) by (try exact Hp; cbn; auto).
      cbn [mbind Res_bind].
      rewrite (ring_match_zero t TM_QW1_OS) by (try exact Ho; cbn; auto).
      reflexivity.
    + rewrite (ring_match_zero t TM_QW0_USER) by (try exact Hu; cbn; auto).
      reflexivity.
  - intros Hhv. apply reset_guest_match, Hhv.
  - intros Hhv Hsmall.
    assert (Hown : Z.land own 0xFFFFFF = own).
    { change 0xFFFFFF with (Z.ones 24). rewrite Z.land_ones by lia.
      apply Z.mod_small. split; [|exact Hsmall].
      subst own. unfold tctx_cam_line, u32. apply Z.mod_pos_bound. lia. }
    subst t. rewrite (reset_guest_match chip_id tctx 0 _ _ logic_serv Hhv).
    fold own. rewrite Hown, !Z.eqb_refl. reflexivity.
Qed.

(** The CPU of the scenarios, VCPU 5 on chip 0, is matched by VP 0/5. *)
Lemma reset_cam_match_witness :
  xive_presenter_tctx_match (xive_tctx_reset 0 scenario_cpu) 0 0 5 false 0 =
    Done (TM_QW1_OS, []).
Proof.
  apply (reset_cam_match 0 scenario_cpu 0 0 5 0); [reflexivity|vm_compute; reflexivity].
Defined.

Lemma deliver_masked (tctx : XiveTCTX) (p : Z) :
  wf_regs (regs tctx) ->
  reg_get (regs tctx) (TM_QW1_OS + TM_CPPR) = 0 ->
  presenter_deliver tctx TM_QW1_OS p =
    Done (set_regs tctx (ipb_update (regs tctx) TM_QW1_OS p)).
Proof.
  intros [Hlen Hb] Hc. unfold presenter_deliver.
  apply xive_tctx_notify_cases. cbn [regs set_regs].
  destruct (ipb_update_spec (regs tctx) TM_QW1_OS p Hb
              ltac:(unfold TM_QW1_OS; lia) ltac:(rewrite Hlen; unfold TM_QW1_OS; lia))
    as (_ & Hb' & _ & _ & Hframe).
  rewrite Hframe by (unfold TM_QW1_OS, TM_CPPR, TM_IPB, TM_PIPR; lia).
  rewrite Hc. apply reg_get_byte, Hb'.
Qed.

Lemma deliveries_masked (TM_SHIFT : Z) (ps : list Z) : forall (tctx : XiveTCTX),
  wf_regs (regs tctx) ->
  reg_get (regs tctx) (TM_QW1_OS + TM_CPPR) = 0 ->
  pipr_inv (regs tctx) TM_QW1_OS ->
  exists t',
    run_ops TM_SHIFT (Op_deliver TM_QW1_OS <$> ps) tctx = Done t' /\
    wf_regs (regs t') /\
    output t' = output tctx /\
    reg_get (regs t') (TM_QW1_OS + TM_NSR) = reg_get (regs tctx) (TM_QW1_OS + TM_NSR) /\
    reg_get (regs t') (TM_QW1_OS + TM_CPPR) = 0 /\
    reg_get (regs t') (TM_QW1_OS + TM_IPB) =
      foldl (fun acc p => Z.lor acc (priority_to_ipb p))
            (reg_get (regs tctx) (TM_QW1_OS + TM_IPB)) ps /\
    pipr_inv (regs t') TM_QW1_OS.
Proof.
  induction ps as [|p ps IH]; intros tctx Hwf Hc Hinv.
  - exists tctx. cbn. repeat split; try assumption; try reflexivity; apply Hwf.
  - cbn [fmap list_fmap run_ops run_op mbind Res_bind].
    rewrite (deliver_masked tctx p Hwf Hc). cbn [mbind Res_bind].
    pose proof Hwf as [Hlen Hb].
    destruct (ipb_update_spec (regs tctx) TM_QW1_OS p Hb
                ltac:(unfold TM_QW1_OS; lia) ltac:(rewrite Hlen; unfold TM_QW1_OS; lia))
      as (Hl' & Hb' & Hipb & Hpipr & Hframe).
    destruct (IH (set_regs tctx (ipb_update (regs tctx) TM_QW1_OS p)))
      as (t' & Hrun & Hwf' & Hout & Hnsr & Hcppr & Hi & Hinv').
    + split; [cbn [regs set_regs]; congruence|exact Hb'].
    + cbn [regs set_regs].
      rewrite Hframe by (unfold TM_QW1_OS, TM_CPPR, TM_IPB, TM_PIPR; lia). exact Hc.
    + exact Hpipr.
    + exists t'. split; [exact Hrun|]. split; [exact Hwf'|].
      split; [exact Hout|].
      split.
      { rewrite Hnsr. cbn [regs set_regs].
        apply Hframe; unfold TM_QW1_OS, TM_NSR, TM_IPB, TM_PIPR; lia. }
      split; [exact Hcppr|]. split; [|exact Hinv'].
      rewrite Hi. cbn [regs set_regs foldl]. rewrite Hipb. reflexivity.
Qed.

(** X11. After a reset the CPPR of the OS ring is 0, so no delivery of the
    presenter to that ring raises an exception: any sequence of
    deliveries succeeds, leaves NSR 0 and the output line as it was,
    leaves CPPR 0, collects the priorities in IPB and keeps PIPR that of
    IPB. *)
Theorem reset_masks_deliveries (TM_SHIFT chip_id : Z) (tctx : XiveTCTX) (ps : list Z) :
  exists t',
    run_ops TM_SHIFT (Op_deliver TM_QW1_OS <$> ps) (xive_tctx_reset chip_id tctx) = Done t' /\
    output t' = output tctx /\
    reg_get (regs t') (TM_QW1_OS + TM_NSR) = 0 /\
    reg_get (regs t') (TM_QW1_OS + TM_CPPR) = 0 /\
    reg_get (regs t') (TM_QW1_OS + TM_IPB) =
      foldl (fun acc p => Z.lor acc (priority_to_ipb p)) 0 ps /\
    reg_get (regs t') (TM_QW1_OS + TM_PIPR) =
      ipb_to_pipr (reg_get (regs t') (TM_QW1_OS + TM_IPB)).
Proof.
  destruct (reset_regs chip_id tctx) as (Hwf & _ & _ & _ & _ & Hn & Hc & Hi & Hp).
  destruct (deliveries_masked TM_SHIFT ps (xive_tctx_reset chip_id tctx) Hwf Hc)
    as (t' & Hrun & _ & Hout & Hnsr & Hcppr & Hipb & Hinv).
  { unfold pipr_inv. rewrite Hp, Hi. reflexivity. }
  exists t'. split; [exact Hrun|]. split; [exact Hout|].
  split; [rewrite Hnsr; exact Hn|]. split; [exact Hcppr|].
  split; [rewrite Hipb, Hi; reflexivity|exact Hinv].
Qed.

(** ** Notifications through an EQ *)

Lemma presenter_notify_frame (m m' : XiveMachine) (format vp_blk vp_idx : Z)
    (cam_ignore : bool) (priority logic_serv : Z) :
  xive_presenter_notify m format vp_blk vp_idx cam_ignore priority logic_serv = Done m' ->
  eq_table m' = eq_table m /\ ram m' = ram m /\ chip_id m' = chip_id m /\
  length (cpus m') = length (cpus m) /\
  (exists l, log m' = log m ++ l) /\
  (forall k, k <> (vp_blk, vp_idx) -> vp_table m' !! k = vp_table m !! k).
Proof.
  unfold xive_presenter_notify.
  destruct (xive_router_get_vp m vp_blk vp_idx) as [vp|].
  2:{ intros [= <-]. cbn. eauto 10. }
  destruct (_ =? 0).
  { intros [= <-]. cbn. eauto 10. }
  destruct (xive_presenter_match _ _ _ _ _ _ _ _) as [[[found mt] l]|]; [|discriminate].
  cbn [mbind Res_bind].
  destruct found.
  - destruct (match_tctx mt ≫= _) as [[i tctx]|]; [|discriminate].
    destruct (presenter_deliver _ _ _) as [t'|]; [|discriminate].
    cbn [mbind Res_bind mret Res_ret]. intros [= <-].
    cbn [eq_table ram chip_id cpus log vp_table set_cpus add_log].
    rewrite length_insert. eauto 10.
  - cbn [mret Res_ret]. intros [= <-].
    cbn [eq_table ram chip_id cpus log vp_table xive_router_set_vp add_log].
    repeat split; eauto.
    intros k Hk. apply lookup_insert_ne. congruence.
Qed.

Lemma xive_eq_push_words (eq : XiveEQ) (data : Z) (r : gmap Z Z) :
  let eq' := fst (fst (xive_eq_push eq data r)) in
  GETFIELD EQ_W1_ESn (w1 eq') = GETFIELD EQ_W1_ESn (w1 eq) /\
  GETFIELD EQ_W1_ESe (w1 eq') = GETFIELD EQ_W1_ESe (w1 eq) /\
  (w0 eq', w2 eq', w3 eq', w4 eq', w5 eq', w6 eq', w7 eq') =
    (w0 eq, w2 eq, w3 eq, w4 eq, w5 eq, w6 eq, w7 eq).
Proof.
  intros eq'. subst eq'. unfold xive_eq_push.
  destruct (dma_memory_write _ _ _) as [r'|]; [|cbn [fst]; auto].
  destruct (_ =? 0); cbn [fst w0 w1 w2 w3 w4 w5 w6 w7 set_w1].
  - rewrite !(GETFIELD_SETFIELD_ne EQ_W1_PAGE_OFF 0 22 EQ_W1_ESn 30 2)
      by (try apply PAGE_OFF_field; try apply ESn_field; lia).
    rewrite !(GETFIELD_SETFIELD_ne EQ_W1_PAGE_OFF 0 22 EQ_W1_ESe 28 2)
      by (try apply PAGE_OFF_field; try apply ESe_field; lia).
    rewrite !(GETFIELD_SETFIELD_ne EQ_W1_GENERATION 22 1 EQ_W1_ESn 30 2)
      by (try apply GENERATION_field; try apply ESn_field; lia).
    rewrite !(GETFIELD_SETFIELD_ne EQ_W1_GENERATION 22 1 EQ_W1_ESe 28 2)
      by (try apply GENERATION_field; try apply ESe_field; lia).
    auto.
  - rewrite !(GETFIELD_SETFIELD_ne EQ_W1_PAGE_OFF 0 22 EQ_W1_ESn 30 2)
      by (try apply PAGE_OFF_field; try apply ESn_field; lia).
    rewrite !(GETFIELD_SETFIELD_ne EQ_W1_PAGE_OFF 0 22 EQ_W1_ESe 28 2)
      by (try apply PAGE_OFF_field; try apply ESe_field; lia).
    auto.
Qed.

Lemma eq_notify_enqueue_words (m : XiveMachine) (eq_blk eq_idx : Z) (eq : XiveEQ)
    (data : Z) :
  xive_router_get_eq m eq_blk eq_idx = Some eq ->
  let eq1 := fst (eq_notify_enqueue m eq_blk eq_idx eq data) in
  let m1 := snd (eq_notify_enqueue m eq_blk eq_idx eq data) in
  GETFIELD EQ_W1_ESn (w1 eq1) = GETFIELD EQ_W1_ESn (w1 eq) /\
  GETFIELD EQ_W1_ESe (w1 eq1) = GETFIELD EQ_W1_ESe (w1 eq) /\
  (w0 eq1, w2 eq1, w3 eq1, w4 eq1, w5 eq1, w6 eq1, w7 eq1) =
    (w0 eq, w2 eq, w3 eq, w4 eq, w5 eq, w6 eq, w7 eq) /\
  xive_router_get_eq m1 eq_blk eq_idx = Some eq1 /\
  cpus m1 = cpus m /\ vp_table m1 = vp_table m /\ chip_id m1 = chip_id m /\
  (exists l, log m1 = log m ++ l) /\
  (forall k, k <> (eq_blk, eq_idx) -> eq_table m1 !! k = eq_table m !! k).
Proof.
  intros Hget eq1 m1. subst eq1 m1. unfold eq_notify_enqueue.
  destruct (Z.land (w0 eq) EQ_W0_ENQUEUE =? 0).
  - cbn [fst snd]. repeat split; auto. exists []. rewrite app_nil_r. reflexivity.
  - pose proof (xive_eq_push_words eq data (ram m)) as (Hn & He & Hw).
    destruct (xive_eq_push eq data (ram m)) as [[eq' r] l].
    cbn [fst snd] in *. repeat split; try assumption.
    + unfold xive_router_get_eq, xive_router_set_eq. cbn [eq_table].
      apply lookup_insert_eq.
    + eexists. reflexivity.
    + intros k Hk. cbn [eq_table xive_router_set_eq]. apply lookup_insert_ne. congruence.
Qed.

Lemma esb_trigger_spec (pq : Z) :
  0 <= pq < 4 ->
  exists pq',
    ESB.xive_esb_trigger pq = Done (pq =? XIVE_ESB_RESET, pq') /\
    0 <= pq' < 4 /\ pq' <> XIVE_ESB_RESET.
Proof.
  intros H. assert (Hc : pq = 0 \/ pq = 1 \/ pq = 2 \/ pq = 3) by lia.
  destruct Hc as [-> | [-> | [-> | ->]]];
    [exists 2|exists 1|exists 3|exists 3];
    (split; [reflexivity|]); unfold XIVE_ESB_RESET; lia.
Qed.

Lemma ESn_range (v : Z) : 0 <= GETFIELD EQ_W1_ESn v < 4.
Proof.
  apply (GETFIELD_range EQ_W1_ESn 30 2 v (proj1 ESn_field) (proj2 ESn_field)); lia.
Qed.

Lemma eq_notify_esn_words (m : XiveMachine) (eq_blk eq_idx : Z) (eq : XiveEQ) :
  xive_router_get_eq m eq_blk eq_idx = Some eq ->
  exists notify eq2 m2,
    eq_notify_esn m eq_blk eq_idx eq = Done (notify, eq2, m2) /\
    xive_router_get_eq m2 eq_blk eq_idx = Some eq2 /\
    (w0 eq2, w2 eq2, w3 eq2, w4 eq2, w5 eq2, w6 eq2, w7 eq2) =
      (w0 eq, w2 eq, w3 eq, w4 eq, w5 eq, w6 eq, w7 eq) /\
    GETFIELD EQ_W1_ESe (w1 eq2) = GETFIELD EQ_W1_ESe (w1 eq) /\
    GETFIELD EQ_W1_PAGE_OFF (w1 eq2) = GETFIELD EQ_W1_PAGE_OFF (w1 eq) /\
    GETFIELD EQ_W1_GENERATION (w1 eq2) = GETFIELD EQ_W1_GENERATION (w1 eq) /\
    (cpus m2, vp_table m2, chip_id m2, ram m2, log m2) =
      (cpus m, vp_table m, chip_id m, ram m, log m) /\
    (forall k, k <> (eq_blk, eq_idx) -> eq_table m2 !! k = eq_table m !! k) /\
    (Z.land (w0 eq) EQ_W0_UCOND_NOTIFY = 0 ->
     notify = (GETFIELD EQ_W1_ESn (w1 eq) =? XIVE_ESB_RESET) /\
     GETFIELD EQ_W1_ESn (w1 eq2) <> XIVE_ESB_RESET) /\
    (Z.land (w0 eq) EQ_W0_UCOND_NOTIFY <> 0 -> notify = true /\ eq2 = eq /\ m2 = m).
Proof.
  intros Hget. unfold eq_notify_esn.
  destruct (Z.eqb_spec (Z.land (w0 eq) EQ_W0_UCOND_NOTIFY) 0) as [Hu|Hu].
  2:{ exists true, eq, m. repeat split; auto; contradiction. }
  pose proof (ESn_range (w1 eq)) as Hr.
  rewrite (u8_small (GETFIELD EQ_W1_ESn (w1 eq))) by lia.
  destruct (esb_trigger_spec _ Hr) as (pq' & Ht & Hr' & Hnz).
  rewrite Ht. cbn [mbind Res_bind].
  destruct (Z.eqb_spec pq' (GETFIELD EQ_W1_ESn (w1 eq))) as [He|Hne].
  - exists (GETFIELD EQ_W1_ESn (w1 eq) =? XIVE_ESB_RESET), eq, m.
    repeat split; auto; try contradiction. congruence.
  - eexists _, _, _. split; [reflexivity|].
    cbn [w0 w1 w2 w3 w4 w5 w6 w7 set_w1 xive_router_set_eq cpus vp_table chip_id ram log
         eq_table].
    split; [apply lookup_insert_eq|]. split; [reflexivity|].
    split.
    { apply (GETFIELD_SETFIELD_ne EQ_W1_ESn 30 2 EQ_W1_ESe 28 2);
        try apply ESn_field; try apply ESe_field; lia. }
    split.
    { apply (GETFIELD_SETFIELD_ne EQ_W1_ESn 30 2 EQ_W1_PAGE_OFF 0 22);
        try apply ESn_field; try apply PAGE_OFF_field; lia. }
    split.
    { apply (GETFIELD_SETFIELD_ne EQ_W1_ESn 30 2 EQ_W1_GENERATION 22 1);
        try apply ESn_field; try apply GENERATION_field; lia. }
    split; [reflexivity|].
    split; [intros k Hk; apply lookup_insert_ne; congruence|].
    split; [|contradiction].
    intros _. split; [reflexivity|].
    rewrite (GETFIELD_SETFIELD_eq EQ_W1_ESn 30 2) by (try apply ESn_field; lia).
    change (Z.ones 2) with 3. rewrite Z.land_ones with (n := 2) by lia.
    rewrite Z.mod_small by (change (2 ^ 2) with 4; lia). exact Hnz.
Qed.

(** The state of the table entry and of the presenter side after a
    notification. *)
Lemma eq_notify_entry (m m' : XiveMachine) (eq_blk eq_idx data : Z) (eq : XiveEQ) :
  xive_router_get_eq m eq_blk eq_idx = Some eq ->
  Z.land (w0 eq) EQ_W0_VALID <> 0 ->
  xive_router_eq_notify m eq_blk eq_idx data = Done m' ->
  exists eq',
    xive_router_get_eq m' eq_blk eq_idx = Some eq' /\
    (w0 eq', w2 eq', w3 eq', w4 eq', w5 eq', w6 eq', w7 eq') =
      (w0 eq, w2 eq, w3 eq, w4 eq, w5 eq, w6 eq, w7 eq) /\
    GETFIELD EQ_W1_ESe (w1 eq') = GETFIELD EQ_W1_ESe (w1 eq) /\
    (Z.land (w0 eq) EQ_W0_UCOND_NOTIFY = 0 -> eq_is_masked eq = false ->
     GETFIELD EQ_W1_ESn (w1 eq') <> XIVE_ESB_RESET) /\
    (eq_is_masked eq = true \/ Z.land (w0 eq) EQ_W0_UCOND_NOTIFY <> 0 ->
     GETFIELD EQ_W1_ESn (w1 eq') = GETFIELD EQ_W1_ESn (w1 eq)) /\
    (eq_is_masked eq = true \/
     (Z.land (w0 eq) EQ_W0_UCOND_NOTIFY = 0 /\
      GETFIELD EQ_W1_ESn (w1 eq) <> XIVE_ESB_RESET) ->
     cpus m' = cpus m /\ vp_table m' = vp_table m) /\
    chip_id m' = chip_id m /\
    length (cpus m') = length (cpus m) /\
    (exists l, log m' = log m ++ l) /\
    (forall k, k <> (eq_blk, eq_idx) -> eq_table m' !! k = eq_table m !! k).
Proof.
  intros Hget Hvalid. unfold xive_router_eq_notify. rewrite Hget.
  apply Z.eqb_neq in Hvalid. rewrite Hvalid.
  pose proof (eq_notify_enqueue_words m eq_blk eq_idx eq data Hget)
    as (Hn1 & He1 & Hw1 & Hget1 & Hc1 & Hv1 & Hid1 & Hl1 & Hf1).
  destruct (eq_notify_enqueue m eq_blk eq_idx eq data) as [eq1 m1].
  cbn [fst snd] in *.
  assert (Hmask1 : eq_is_masked eq1 = eq_is_masked eq).
  { unfold eq_is_masked. injection Hw1 as _ _ _ _ _ -> ->. reflexivity. }
  unfold eq_notify_deliver. fold (eq_is_masked eq1). rewrite Hmask1.
  destruct (eq_is_masked eq) eqn:Hmask.
  - cbn [mret Res_ret]. intros [= <-]. exists eq1.
    split; [exact Hget1|]. split; [exact Hw1|]. split; [exact He1|].
    split; [discriminate|]. split; [auto|]. split; [auto|].
    split; [exact Hid1|]. split; [congruence|]. split; [exact Hl1|exact Hf1].
  - destruct (eq_notify_esn_words m1 eq_blk eq_idx eq1 Hget1)
      as (notify & eq2 & m2 & Hesn & Hget2 & Hw2 & He2 & _ & _ & Hm2 & Hf2 & Hclr & Hset).
    rewrite Hesn. cbn [mbind Res_bind].
    assert (Hu1 : Z.land (w0 eq1) EQ_W0_UCOND_NOTIFY = Z.land (w0 eq) EQ_W0_UCOND_NOTIFY)
      by (f_equal; congruence).
    rewrite Hu1, Hn1 in Hclr. rewrite Hu1 in Hset.
    injection Hm2 as Hc2 Hv2 Hid2 Hr2 Hl2.
    assert (Hent : forall mm, eq_table mm = eq_table m2 -> chip_id mm = chip_id m2 ->
               length (cpus mm) = length (cpus m2) ->
               (exists l, log mm = log m2 ++ l) ->
               (notify = false -> cpus mm = cpus m2 /\ vp_table mm = vp_table m2) ->
      exists eq',
        xive_router_get_eq mm eq_blk eq_idx = Some eq' /\
        (w0 eq', w2 eq', w3 eq', w4 eq', w5 eq', w6 eq', w7 eq') =
          (w0 eq, w2 eq, w3 eq, w4 eq, w5 eq, w6 eq, w7 eq) /\
        GETFIELD EQ_W1_ESe (w1 eq') = GETFIELD EQ_W1_ESe (w1 eq) /\
        (Z.land (w0 eq) EQ_W0_UCOND_NOTIFY = 0 -> false = false ->
         GETFIELD EQ_W1_ESn (w1 eq') <> XIVE_ESB_RESET) /\
        (false = true \/ Z.land (w0 eq) EQ_W0_UCOND_NOTIFY <> 0 ->
         GETFIELD EQ_W1_ESn (w1 eq') = GETFIELD EQ_W1_ESn (w1 eq)) /\
        (false = true \/
         (Z.land (w0 eq) EQ_W0_UCOND_NOTIFY = 0 /\
          GETFIELD EQ_W1_ESn (w1 eq) <> XIVE_ESB_RESET) ->
         cpus mm = cpus m /\ vp_table mm = vp_table m) /\
        chip_id mm = chip_id m /\
        length (cpus mm) = length (cpus m) /\
        (exists l, log mm = log m ++ l) /\
        (forall k, k <> (eq_blk, eq_idx) -> eq_table mm !! k = eq_table m !! k)).
    { intros mm Het Hid Hlen [l Hl] Hquiet. exists eq2.
      split; [unfold xive_router_get_eq in *; rewrite Het; exact Hget2|].
      split; [congruence|]. split; [congruence|].
      split; [intros Hu _; apply Hclr, Hu|].
      split.
      { intros [Hf|Hu]; [discriminate|].
        destruct (Hset Hu) as (_ & -> & _). exact Hn1. }
      split.
      { intros [Hf|[Hu Hnr]]; [discriminate|].
        destruct (Hclr Hu) as [Hnot _].
        destruct (Hquiet ltac:(rewrite Hnot; apply Z.eqb_neq, Hnr)) as [-> ->].
        split; congruence. }
      split; [congruence|]. split; [congruence|].
      split.
      { destruct Hl1 as [l1 Hl1]. exists (l1 ++ l). rewrite Hl, Hl2, Hl1, app_assoc.
        reflexivity. }
      intros k Hk. rewrite Het, Hf2 by exact Hk. apply Hf1, Hk. }
    destruct notify.
    + intros Hp. apply presenter_notify_frame in Hp.
      destruct Hp as (Het & _ & Hid & Hlen & Hl & _).
      apply Hent; try assumption. discriminate.
    + cbn [mret Res_ret]. intros [= <-].
      apply Hent; auto. exists []. rewrite app_nil_r. reflexivity.
Qed.

(** A notification that stops before the presenter. *)
Lemma eq_notify_quiet (m : XiveMachine) (eq_blk eq_idx data : Z) (eq : XiveEQ) :
  xive_router_get_eq m eq_blk eq_idx = Some eq ->
  Z.land (w0 eq) EQ_W0_VALID <> 0 ->
  eq_is_masked eq = true \/
  (Z.land (w0 eq) EQ_W0_UCOND_NOTIFY = 0 /\
   GETFIELD EQ_W1_ESn (w1 eq) <> XIVE_ESB_RESET) ->
  exists m', xive_router_eq_notify m eq_blk eq_idx data = Done m'.
Proof.
  intros Hget Hvalid Hq. unfold xive_router_eq_notify. rewrite Hget.
  apply Z.eqb_neq in Hvalid. rewrite Hvalid.
  pose proof (eq_notify_enqueue_words m eq_blk eq_idx eq data Hget)
    as (Hn1 & _ & Hw1 & Hget1 & _).
  destruct (eq_notify_enqueue m eq_blk eq_idx eq data) as [eq1 m1].
  cbn [fst snd] in *.
  assert (Hmask1 : eq_is_masked eq1 = eq_is_masked eq).
  { unfold eq_is_masked. injection Hw1 as _ _ _ _ _ -> ->. reflexivity. }
  unfold eq_notify_deliver. fold (eq_is_masked eq1). rewrite Hmask1.
  destruct (eq_is_masked eq) eqn:Hmask; [eexists; reflexivity|].
  destruct Hq as [Hf|[Hu Hnr]]; [discriminate|].
  destruct (eq_notify_esn_words m1 eq_blk eq_idx eq1 Hget1)
    as (notify & eq2 & m2 & Hesn & _ & _ & _ & _ & _ & _ & _ & Hclr & _).
  rewrite Hesn. cbn [mbind Res_bind].
  assert (Hu1 : Z.land (w0 eq1) EQ_W0_UCOND_NOTIFY = 0)
    by (replace (w0 eq1) with (w0 eq) by congruence; exact Hu).
  destruct (Hclr Hu1) as [-> _]. rewrite Hn1.
  apply Z.eqb_neq in Hnr. rewrite Hnr. eexists. reflexivity.
Qed.

(** X12. An EQ without unconditional notification coalesces events: once
    a notification went through a valid EQ, its ESn is no longer RESET
    and a second notification through the same EQ, whatever its data,
    succeeds and reaches no thread context and no VP: the CPUs and the VP
    table stay as the first notification left them. *)
Theorem eq_notify_coalesces (m m1 : XiveMachine) (eq_blk eq_idx d1 d2 : Z) (eq : XiveEQ) :
  xive_router_get_eq m eq_blk eq_idx = Some eq ->
  Z.land (w0 eq) EQ_W0_VALID <> 0 ->
  Z.land (w0 eq) EQ_W0_UCOND_NOTIFY = 0 ->
  xive_router_eq_notify m eq_blk eq_idx d1 = Done m1 ->
  exists m2,
    xive_router_eq_notify m1 eq_blk eq_idx d2 = Done m2 /\
    cpus m2 = cpus m1 /\ vp_table m2 = vp_table m1.
Proof.
  intros Hget Hvalid Hu Hn1.
  destruct (eq_notify_entry m m1 eq_blk eq_idx d1 eq Hget Hvalid Hn1)
    as (eq1 & Hget1 & Hw1 & _ & Hnr & _).
  assert (Hw0 : w0 eq1 = w0 eq) by congruence.
  assert (Hmask1 : eq_is_masked eq1 = eq_is_masked eq).
  { unfold eq_is_masked. injection Hw1 as _ _ _ _ _ -> ->. reflexivity. }
  assert (Hq : eq_is_masked eq1 = true \/
               (Z.land (w0 eq1) EQ_W0_UCOND_NOTIFY = 0 /\
                GETFIELD EQ_W1_ESn (w1 eq1) <> XIVE_ESB_RESET)).
  { rewrite Hmask1, Hw0. destruct (eq_is_masked eq) eqn:Hm; [left; reflexivity|].
    right. split; [exact Hu|apply Hnr; [exact Hu|reflexivity]]. }
  assert (Hvalid1 : Z.land (w0 eq1) EQ_W0_VALID <> 0) by (rewrite Hw0; exact Hvalid).
  destruct (eq_notify_quiet m1 eq_blk eq_idx d2 eq1 Hget1 Hvalid1 Hq) as [m2 Hn2].
  exists m2. split; [exact Hn2|].
  destruct (eq_notify_entry m1 m2 eq_blk eq_idx d2 eq1 Hget1 Hvalid1 Hn2)
    as (_ & _ & _ & _ & _ & _ & Hsame & _).
  apply Hsame, Hq.
Qed.

(** The second event through the EQ of priority 4 changes no CPU. *)
Lemma eq_notify_coalesces_witness :
  exists m2, xive_router_eq_notify machine_coalescing_notified 0 3 9 = Done m2 /\
             cpus m2 = cpus machine_coalescing_notified /\
             vp_table m2 = vp_table machine_coalescing_notified.
Proof.
  apply (eq_notify_coalesces machine_coalescing machine_coalescing_notified 0 3 7 9
           coalescing_eq).
  - reflexivity.
  - vm_compute. discriminate.
  - reflexivity.
  - vm_compute. reflexivity.
Defined.

Lemma eq_notify_deliver_ram (m m' : XiveMachine) (eq_blk eq_idx : Z) (eq : XiveEQ) :
  eq_notify_deliver m eq_blk eq_idx eq = Done m' -> ram m' = ram m.
Proof.
  unfold eq_notify_deliver.
  destruct (_ && _); [intros [= <-]; reflexivity|].
  unfold eq_notify_esn.
  destruct (Z.land (w0 eq) EQ_W0_UCOND_NOTIFY =? 0).
  - destruct (ESB.xive_esb_trigger _) as [[notify pq]|]; [|discriminate].
    cbn [mbind Res_bind].
    destruct (pq =? _); cbn [mbind Res_bind mret Res_ret]; destruct notify.
    + intros Hp; apply presenter_notify_frame in Hp; apply Hp.
    + intros [= <-]; reflexivity.
    + intros Hp; apply presenter_notify_frame in Hp.
      destruct Hp as (_ & -> & _). reflexivity.
    + intros [= <-]; reflexivity.
  - cbn [mbind Res_bind mret Res_ret].
    intros Hp; apply presenter_notify_frame in Hp; apply Hp.
Qed.

Lemma dma_write4_frame (r r' : gmap Z Z) (a w x : Z) :
  dma_memory_write r a (be32_bytes w) = Some r' ->
  x < a \/ a + 3 < x -> r' !! x = r !! x.
Proof.
  unfold be32_bytes. rewrite dma_write4.
  destruct (_ && _); [|discriminate]. intros [= <-] Hx.
  rewrite !lookup_insert_ne by lia. reflexivity.
Qed.

Lemma eq_notify_ram (m m' : XiveMachine) (eq_blk eq_idx data : Z) :
  xive_router_eq_notify m eq_blk eq_idx data = Done m' ->
  match xive_router_get_eq m eq_blk eq_idx with
  | None => ram m' = ram m
  | Some eq =>
      wf_eq eq ->
      forall x, x < eq_qaddr eq \/ eq_qaddr eq + 3 < x -> ram m' !! x = ram m !! x
  end.
Proof.
  unfold xive_router_eq_notify.
  destruct (xive_router_get_eq m eq_blk eq_idx) as [eq|]; [|intros [= <-]; reflexivity].
  destruct (_ =? 0); [intros [= <-]; reflexivity|].
  unfold eq_notify_enqueue.
  destruct (Z.land (w0 eq) EQ_W0_ENQUEUE =? 0).
  - intros Hd Hwf x Hx. apply eq_notify_deliver_ram in Hd. rewrite Hd. reflexivity.
  - intros Hd Hwf x Hx. rewrite (xive_eq_push_unfold _ _ _ Hwf) in Hd.
    destruct (dma_memory_write _ _ _) as [r'|] eqn:Hdma;
      apply eq_notify_deliver_ram in Hd; rewrite Hd;
      cbn [ram xive_router_set_eq add_log set_ram].
    + apply (dma_write4_frame _ _ _ _ _ Hdma Hx).
    + reflexivity.
Qed.

(** X13. What a notification through an EQ can change.  It keeps the chip
    id and the number of CPUs, only adds to the log, and touches no other
    EQ.  Of the EQ itself only word 1 changes, and its ESe field is kept.
    When the words of the EQ are 32-bit values, guest memory changes at
    most in the four bytes of the queue entry the EQ points at.  When
    there is no such EQ, the EQ stays absent and the memory stays as it
    was. *)
Theorem eq_notify_frame (m m' : XiveMachine) (eq_blk eq_idx data : Z) :
  xive_router_eq_notify m eq_blk eq_idx data = Done m' ->
  chip_id m' = chip_id m /\
  length (cpus m') = length (cpus m) /\
  (exists l, log m' = log m ++ l) /\
  (forall k, k <> (eq_blk, eq_idx) -> eq_table m' !! k = eq_table m !! k) /\
  (forall eq, xive_router_get_eq m eq_blk eq_idx = Some eq ->
     exists eq',
       xive_router_get_eq m' eq_blk eq_idx = Some eq' /\
       (w0 eq', w2 eq', w3 eq', w4 eq', w5 eq', w6 eq', w7 eq') =
         (w0 eq, w2 eq, w3 eq, w4 eq, w5 eq, w6 eq, w7 eq) /\
       GETFIELD EQ_W1_ESe (w1 eq') = GETFIELD EQ_W1_ESe (w1 eq) /\
       (wf_eq eq ->
        forall x, x < eq_qaddr eq \/ eq_qaddr eq + 3 < x -> ram m' !! x = ram m !! x)) /\
  (xive_router_get_eq m eq_blk eq_idx = None ->
   xive_router_get_eq m' eq_blk eq_idx = None /\ ram m' = ram m).
Proof.
  intros Hn. pose proof (eq_notify_ram m m' eq_blk eq_idx data Hn) as Hram.
  destruct (xive_router_get_eq m eq_blk eq_idx) as [eq|] eqn:Hget.
  - destruct (Z.eq_dec (Z.land (w0 eq) EQ_W0_VALID) 0) as [Hinv|Hvalid].
    + unfold xive_router_eq_notify in Hn. rewrite Hget, Hinv in Hn.
      injection Hn as <-. cbn [chip_id cpus log eq_table add_log].
      repeat split; eauto; try discriminate.
      intros eq0 [= <-]. exists eq. unfold xive_router_get_eq in *. cbn [eq_table].
      auto.
    + destruct (eq_notify_entry m m' eq_blk eq_idx data eq Hget Hvalid Hn)
        as (eq' & Hget' & Hw & He & _ & _ & _ & Hid & Hlen & Hl & Hf).
      repeat split; try assumption; try discriminate.
      intros eq0 [= <-]. exists eq'. auto.
  - unfold xive_router_eq_notify in Hn. rewrite Hget in Hn.
    injection Hn as <-. cbn [chip_id cpus log eq_table add_log] in *.
    repeat split; eauto; discriminate.
Qed.

(** The first event through the EQ of priority 4. *)
Lemma eq_notify_frame_witness :
  chip_id machine_coalescing_notified = chip_id machine_coalescing /\
  length (cpus machine_coalescing_notified) = length (cpus machine_coalescing).
Proof.
  destruct (eq_notify_frame machine_coalescing machine_coalescing_notified 0 3 7)
    as (Hc & Hl & _).
  - vm_compute. reflexivity.
  - split; [exact Hc|exact Hl].
Defined.

(** ** The ESBs of an EQ *)

Lemma esb_set_small (pq v : Z) :
  0 <= pq < 4 -> 0 <= v < 4 -> ESB.xive_esb_set pq v = (pq, v).
Proof.
  intros Hp Hv.
  assert (Hc : pq = 0 \/ pq = 1 \/ pq = 2 \/ pq = 3) by lia.
  assert (Hd : v = 0 \/ v = 1 \/ v = 2 \/ v = 3) by lia.
  destruct Hc as [-> | [-> | [-> | ->]]]; destruct Hd as [-> | [-> | [-> | ->]]];
    reflexivity.
Qed.

Lemma esb_eoi_small (pq : Z) :
  0 <= pq < 4 ->
  exists pq', ESB.xive_esb_eoi pq = Done (pq =? XIVE_ESB_QUEUED, pq') /\ 0 <= pq' < 4.
Proof.
  intros H. assert (Hc : pq = 0 \/ pq = 1 \/ pq = 2 \/ pq = 3) by lia.
  destruct Hc as [-> | [-> | [-> | ->]]];
    [exists 0|exists 1|exists 0|exists 2]; (split; [reflexivity|lia]).
Qed.

Lemma esb_offset_cases (addr : Z) :
  let offset := Z.land addr 0xFFF in
  in_case offset XIVE_ESB_LOAD_EOI 0x7FF = true \/
  (in_case offset XIVE_ESB_LOAD_EOI 0x7FF = false /\
   in_case offset XIVE_ESB_GET 0x3FF = true) \/
  (in_case offset XIVE_ESB_LOAD_EOI 0x7FF = false /\
   in_case offset XIVE_ESB_GET 0x3FF = false /\
   in_set_pq_cases offset = true).
Proof.
  intros offset.
  assert (Hr : 0 <= offset < 4096).
  { subst offset. change 0xFFF with (Z.ones 12). rewrite Z.land_ones by lia.
    apply Z.mod_pos_bound. lia. }
  unfold in_set_pq_cases, in_case, XIVE_ESB_LOAD_EOI, XIVE_ESB_GET, XIVE_ESB_SET_PQ_00,
    XIVE_ESB_SET_PQ_01, XIVE_ESB_SET_PQ_10, XIVE_ESB_SET_PQ_11.
  rewrite !orb_true_iff, !andb_true_iff, !andb_false_iff, !Z.leb_le, !Z.leb_gt. lia.
Qed.

Lemma es_field (even : bool) :
  let m := if even then EQ_W1_ESn else EQ_W1_ESe in
  let s := if even then 30 else 28 in
  m = field_mask s 2 /\ MASK_TO_LSH m = s.
Proof. destruct even; split; reflexivity. Qed.

Lemma es_range (even : bool) (v : Z) :
  0 <= GETFIELD (if even then EQ_W1_ESn else EQ_W1_ESe) v < 4.
Proof.
  destruct even.
  - apply (GETFIELD_range EQ_W1_ESn 30 2 v); try apply ESn_field; lia.
  - apply (GETFIELD_range EQ_W1_ESe 28 2 v); try apply ESe_field; lia.
Qed.

Lemma es_set_get (even : bool) (v pq : Z) :
  0 <= pq < 4 ->
  GETFIELD (if even then EQ_W1_ESn else EQ_W1_ESe)
           (SETFIELD (if even then EQ_W1_ESn else EQ_W1_ESe) v pq) = pq.
Proof.
  intros Hpq.
  assert (Hm : Z.land pq (Z.ones 2) = pq).
  { rewrite Z.land_ones by lia. apply Z.mod_small. change (2 ^ 2) with 4. lia. }
  destruct even.
  - rewrite (GETFIELD_SETFIELD_eq EQ_W1_ESn 30 2) by (try apply ESn_field; lia). exact Hm.
  - rewrite (GETFIELD_SETFIELD_eq EQ_W1_ESe 28 2) by (try apply ESe_field; lia). exact Hm.
Qed.

Lemma es_set_other (even : bool) (v pq : Z) :
  let w := SETFIELD (if even then EQ_W1_ESn else EQ_W1_ESe) v pq in
  GETFIELD (if even then EQ_W1_ESe else EQ_W1_ESn) w =
    GETFIELD (if even then EQ_W1_ESe else EQ_W1_ESn) v /\
  GETFIELD EQ_W1_PAGE_OFF w = GETFIELD EQ_W1_PAGE_OFF v /\
  GETFIELD EQ_W1_GENERATION w = GETFIELD EQ_W1_GENERATION v.
Proof.
  destruct even; cbv zeta.
  - rewrite (GETFIELD_SETFIELD_ne EQ_W1_ESn 30 2 EQ_W1_ESe 28 2)
      by (try apply ESn_field; try apply ESe_field; lia).
    rewrite (GETFIELD_SETFIELD_ne EQ_W1_ESn 30 2 EQ_W1_PAGE_OFF 0 22)
      by (try apply ESn_field; try apply PAGE_OFF_field; lia).
    rewrite (GETFIELD_SETFIELD_ne EQ_W1_ESn 30 2 EQ_W1_GENERATION 22 1)
      by (try apply ESn_field; try apply GENERATION_field; lia).
    auto.
  - rewrite (GETFIELD_SETFIELD_ne EQ_W1_ESe 28 2 EQ_W1_ESn 30 2)
      by (try apply ESn_field; try apply ESe_field; lia).
    rewrite (GETFIELD_SETFIELD_ne EQ_W1_ESe 28 2 EQ_W1_PAGE_OFF 0 22)
      by (try apply ESe_field; try apply PAGE_OFF_field; lia).
    rewrite (GETFIELD_SETFIELD_ne EQ_W1_ESe 28 2 EQ_W1_GENERATION 22 1)
      by (try apply ESe_field; try apply GENERATION_field; lia).
    auto.
Qed.

(** What a load of the EQ ESB region does to a valid EQ: [op] is the
    result of the ESB operation the offset selects on the PQ bits of the
    side the page selects. *)
Lemma eq_source_read_valid (esb_shift : Z) (m : XiveMachine) (addr size : Z) (eq : XiveEQ) :
  let eq_blk := u8 (chip_id m) in
  let eq_idx := u32 (Z.shiftr addr (esb_shift + 1)) in
  let offset := Z.land addr 0xFFF in
  let even := addr_is_even addr esb_shift in
  let mask := if even then EQ_W1_ESn else EQ_W1_ESe in
  let pq := GETFIELD mask (w1 eq) in
  xive_router_get_eq m eq_blk eq_idx = Some eq ->
  Z.land (w0 eq) EQ_W0_VALID <> 0 ->
  exists ret pq',
    0 <= pq' < 4 /\
    (if in_case offset XIVE_ESB_LOAD_EOI 0x7FF then
       ESB.xive_esb_eoi pq = Done (negb (ret =? 0), pq') /\ (ret = 0 \/ ret = 1)
     else if in_case offset XIVE_ESB_GET 0x3FF then ret = pq /\ pq' = pq
     else ret = pq /\ pq' = Z.land (Z.shiftr offset 8) 0x3) /\
    xive_eq_source_read esb_shift m addr size =
      Done (ret,
            if pq' =? pq then m
            else xive_router_set_eq m eq_blk eq_idx
                   (set_w1 eq (SETFIELD mask (w1 eq) pq')),
            []).
Proof.
  intros eq_blk eq_idx offset even mask pq Hget Hvalid.
  unfold xive_eq_source_read. fold eq_blk eq_idx offset even. rewrite Hget.
  apply Z.eqb_neq in Hvalid. rewrite Hvalid. fold mask.
  pose proof (es_range even (w1 eq)) as Hr. fold mask pq in Hr.
  fold pq. rewrite (u8_small pq) by lia.
  destruct (esb_offset_cases addr) as [H1 | [[H1 H2] | [H1 [H2 H3]]]];
    fold offset in H1; try fold offset in H2; try fold offset in H3.
  - rewrite H1.
    destruct (esb_eoi_small pq Hr) as (pq' & He & Hr').
    rewrite He. cbn [mbind Res_bind mret Res_ret].
    exists (Z.b2z (pq =? XIVE_ESB_QUEUED)), pq'.
    split; [exact Hr'|]. split; [|destruct (pq' =? pq); reflexivity].
    destruct (pq =? XIVE_ESB_QUEUED); cbn; auto.
  - rewrite H1, H2. cbn [mbind Res_bind mret Res_ret].
    exists pq, pq. split; [exact Hr|]. split; [auto|destruct (pq =? pq); reflexivity].
  - rewrite H1, H2, H3. cbn [mbind Res_bind mret Res_ret].
    assert (Hv : 0 <= Z.land (Z.shiftr offset 8) 3 < 4).
    { change 3 with (Z.ones 2). rewrite Z.land_ones by lia. apply Z.mod_pos_bound. lia. }
    rewrite (esb_set_small pq _ Hr Hv).
    exists pq, (Z.land (Z.shiftr offset 8) 3).
    split; [exact Hv|]. split; [auto|destruct (_ =? pq); reflexivity].
Qed.

(** X14. A load from the ESB region of the EQs always returns.  With no
    EQ at the index, or with an EQ that is not valid, it returns all-ones,
    logs that one message and leaves the EQ table as it was.  With a
    valid EQ it logs nothing, since every offset of the page is an
    operation: the cases of the switch cover 0x000..0xFFF and the
    invalid-load message is never logged; of that EQ it can change only
    the ES field of the page (ESn on an even page, ESe on an odd one).
    In every case the CPUs, the VPs, the guest memory and every other EQ
    stay as they were. *)
Theorem eq_source_read_frame (esb_shift : Z) (m : XiveMachine) (addr size : Z) :
  let eq_blk := u8 (chip_id m) in
  let eq_idx := u32 (Z.shiftr addr (esb_shift + 1)) in
  let even := addr_is_even addr esb_shift in
  exists ret m' l,
    xive_eq_source_read esb_shift m addr size = Done (ret, m', l) /\
    (forall o, ~ In (Esb_invalid_eq_load o) l) /\
    (cpus m', vp_table m', ram m', chip_id m') =
      (cpus m, vp_table m, ram m, chip_id m) /\
    (forall k, k <> (eq_blk, eq_idx) -> eq_table m' !! k = eq_table m !! k) /\
    match xive_router_get_eq m eq_blk eq_idx with
    | None =>
        eq_table m' = eq_table m /\ ret = minus_one_u64 /\
        l = [Esb_no_eq eq_blk eq_idx]
    | Some eq =>
        if Z.land (w0 eq) EQ_W0_VALID =? 0 then
          eq_table m' = eq_table m /\ ret = minus_one_u64 /\
          l = [Esb_eq_invalid eq_blk eq_idx]
        else
          l = [] /\
          exists eq',
            xive_router_get_eq m' eq_blk eq_idx = Some eq' /\
            (w0 eq', w2 eq', w3 eq', w4 eq', w5 eq', w6 eq', w7 eq') =
              (w0 eq, w2 eq, w3 eq, w4 eq, w5 eq, w6 eq, w7 eq) /\
            GETFIELD (if even then EQ_W1_ESe else EQ_W1_ESn) (w1 eq') =
              GETFIELD (if even then EQ_W1_ESe else EQ_W1_ESn) (w1 eq) /\
            GETFIELD EQ_W1_PAGE_OFF (w1 eq') = GETFIELD EQ_W1_PAGE_OFF (w1 eq) /\
            GETFIELD EQ_W1_GENERATION (w1 eq') = GETFIELD EQ_W1_GENERATION (w1 eq)
    end.
Proof.
  intros eq_blk eq_idx even.
  destruct (xive_router_get_eq m eq_blk eq_idx) as [eq|] eqn:Hget.
  - destruct (Z.eqb_spec (Z.land (w0 eq) EQ_W0_VALID) 0) as [Hinv|Hvalid].
    + unfold xive_eq_source_read. fold eq_blk eq_idx. rewrite Hget, Hinv.
      eexists _, _, _. split; [reflexivity|].
      split; [intros o [H|[]]; discriminate|]. split; [reflexivity|].
      split; [reflexivity|]. auto.
    + destruct (eq_source_read_valid esb_shift m addr size eq Hget Hvalid)
        as (ret & pq' & Hr' & _ & Hread).
      fold eq_blk eq_idx even in Hread.
      eexists _, _, _. split; [exact Hread|].
      split; [intros o []|].
      destruct (pq' =? _).
      * split; [reflexivity|]. split; [reflexivity|]. split; [reflexivity|].
        exists eq. auto.
      * cbn [cpus vp_table ram chip_id eq_table xive_router_set_eq].
        split; [reflexivity|].
        split; [intros k Hk; apply lookup_insert_ne; congruence|].
        split; [reflexivity|].
        eexists. split; [apply lookup_insert_eq|].
        cbn [w0 w1 w2 w3 w4 w5 w6 w7 set_w1]. split; [reflexivity|].
        apply es_set_other.
  - unfold xive_eq_source_read. fold eq_blk eq_idx. rewrite Hget.
    eexists _, _, _. split; [reflexivity|].
    split; [intros o [H|[]]; discriminate|]. auto.
Qed.

(** X15. Set then get on the ESB of a valid EQ: a load at one of the
    SET_PQ offsets returns the PQ bits the page held (ESn on an even page,
    ESe on an odd one), and a load at a GET offset of the same page then
    returns bits 8 and 9 of the first offset and changes nothing.
    Neither logs. *)
Theorem eq_source_set_get (esb_shift : Z) (m : XiveMachine) (addr addr' size : Z)
    (eq : XiveEQ) :
  let eq_blk := u8 (chip_id m) in
  let eq_idx := u32 (Z.shiftr addr (esb_shift + 1)) in
  let mask := if addr_is_even addr esb_shift then EQ_W1_ESn else EQ_W1_ESe in
  xive_router_get_eq m eq_blk eq_idx = Some eq ->
  Z.land (w0 eq) EQ_W0_VALID <> 0 ->
  in_set_pq_cases (Z.land addr 0xFFF) = true ->
  in_case (Z.land addr' 0xFFF) XIVE_ESB_GET 0x3FF = true ->
  u32 (Z.shiftr addr' (esb_shift + 1)) = eq_idx ->
  addr_is_even addr' esb_shift = addr_is_even addr esb_shift ->
  exists m1,
    xive_eq_source_read esb_shift m addr size = Done (GETFIELD mask (w1 eq), m1, []) /\
    xive_eq_source_read esb_shift m1 addr' size =
      Done (Z.land (Z.shiftr (Z.land addr 0xFFF) 8) 0x3, m1, []).
Proof.
  intros eq_blk eq_idx mask Hget Hvalid Hset Hgetop Hidx Heven.
  destruct (eq_source_read_valid esb_shift m addr size eq Hget Hvalid)
    as (ret & pq' & Hr' & Hop & Hread).
  fold eq_blk eq_idx mask in Hread, Hop.
  assert (Hlo : in_case (Z.land addr 0xFFF) XIVE_ESB_LOAD_EOI 0x7FF = false /\
                in_case (Z.land addr 0xFFF) XIVE_ESB_GET 0x3FF = false).
  { revert Hset. unfold in_set_pq_cases, in_case, XIVE_ESB_LOAD_EOI, XIVE_ESB_GET,
      XIVE_ESB_SET_PQ_00, XIVE_ESB_SET_PQ_01, XIVE_ESB_SET_PQ_10, XIVE_ESB_SET_PQ_11.
    rewrite !orb_true_iff, !andb_true_iff, !andb_false_iff, !Z.leb_le, !Z.leb_gt. lia. }
  destruct Hlo as [Hlo1 Hlo2]. rewrite Hlo1, Hlo2 in Hop. destruct Hop as [-> ->].
  set (n := Z.land (Z.shiftr (Z.land addr 0xFFF) 8) 3) in *.
  set (m1 := if n =? GETFIELD mask (w1 eq) then m
             else xive_router_set_eq m eq_blk eq_idx
                    (set_w1 eq (SETFIELD mask (w1 eq) n))) in *.
  exists m1. split; [exact Hread|].
  assert (Hm1 : exists eq1,
            xive_router_get_eq m1 eq_blk eq_idx = Some eq1 /\
            w0 eq1 = w0 eq /\ GETFIELD mask (w1 eq1) = n /\ chip_id m1 = chip_id m).
  { subst m1. destruct (Z.eqb_spec n (GETFIELD mask (w1 eq))) as [He|Hne].
    - exists eq. auto.
    - eexists. split; [apply lookup_insert_eq|].
      cbn [w0 w1 set_w1 chip_id xive_router_set_eq].
      split; [reflexivity|]. split; [|reflexivity].
      subst mask. apply es_set_get, Hr'. }
  destruct Hm1 as (eq1 & Hget1 & Hw0 & Hn & Hid).
  assert (Hget1' : xive_router_get_eq m1 (u8 (chip_id m1))
                     (u32 (Z.shiftr addr' (esb_shift + 1))) = Some eq1).
  { rewrite Hid, Hidx. exact Hget1. }
  destruct (eq_source_read_valid esb_shift m1 addr' size eq1 Hget1'
              ltac:(rewrite Hw0; exact Hvalid))
    as (ret2 & pq2 & _ & Hop2 & Hread2).
  rewrite Heven in Hread2, Hop2. fold mask in Hread2, Hop2.
  assert (Hlo' : in_case (Z.land addr' 0xFFF) XIVE_ESB_LOAD_EOI 0x7FF = false).
  { revert Hgetop. unfold in_case, XIVE_ESB_LOAD_EOI, XIVE_ESB_GET.
    rewrite !andb_true_iff, !andb_false_iff, !Z.leb_le, !Z.leb_gt. lia. }
  rewrite Hlo', Hgetop in Hop2. destruct Hop2 as [-> ->].
  rewrite Hread2, Hn, Z.eqb_refl. reflexivity.
Qed.

(** ESn of the EQ 0/3: a load at 0xD00 of its even page, then at 0x800. *)
Lemma eq_source_set_get_witness :
  exists m1,
    xive_eq_source_read 16 machine_one_cpu 0x60D00 8 = Done (0, m1, []) /\
    xive_eq_source_read 16 m1 0x60800 8 = Done (1, m1, []).
Proof.
  destruct (eq_source_set_get 16 machine_one_cpu 0x60D00 0x60800 8 scenario_eq)
    as (m1 & H1 & H2).
  - reflexivity.
  - vm_compute. discriminate.
  - reflexivity.
  - reflexivity.
  - reflexivity.
  - reflexivity.
  - exists m1. split; [exact H1|exact H2].
Defined.

(** ** The interrupt source *)

Lemma esb_trigger_byte (b : Z) :
  0 <= b < 256 ->
  ESB.xive_esb_trigger b =
    Done (Z.land b 3 =? XIVE_ESB_RESET,
          Z.lor (Z.land b 0xfc) (pq_after_trigger (Z.land b 3))).
Proof. revert b. by_bytes. Qed.

Lemma esb_eoi_byte (b : Z) :
  0 <= b < 256 ->
  ESB.xive_esb_eoi b =
    Done (Z.land b 3 =? XIVE_ESB_QUEUED,
          Z.lor (Z.land b 0xfc) (pq_after_eoi (Z.land b 3))).
Proof. revert b. by_bytes. Qed.

Lemma esb_set_byte (b pq : Z) :
  0 <= b < 256 ->
  ESB.xive_esb_set b pq = (Z.land b 3, Z.lor (Z.land b 0xfc) (Z.land pq 3)).
Proof.
  intros Hb. unfold ESB.xive_esb_set.
  assert (Hv : 0 <= Z.land pq 3 < 4).
  { change 3 with (Z.ones 2). rewrite Z.land_ones by lia. apply Z.mod_pos_bound. lia. }
  generalize dependent (Z.land pq 3). intros v Hv.
  assert (Hc : v = 0 \/ v = 1 \/ v = 2 \/ v = 3) by lia.
  revert b Hb. destruct Hc as [-> | [-> | [-> | ->]]]; by_bytes.
Qed.

(** A status byte whose PQ bits are replaced. *)
Lemma status_byte_pq (b c a : Z) :
  0 <= b < 256 -> 0 <= c < 4 -> 0 <= a < 256 -> Z.land a 3 = 0 ->
  let b' := Z.lor (Z.land b 0xfc) c in
  0 <= b' < 256 /\ Z.land b' 3 = c /\ Z.land b' 0xfc = Z.land b 0xfc /\
  Z.land b' a = Z.land b a.
Proof.
  intros Hb Hc Ha Ha3 b'. subst b'.
  assert (Hcc : c = 0 \/ c = 1 \/ c = 2 \/ c = 3) by lia.
  assert (H123 : 0 <= Z.lor (Z.land b 0xfc) c < 256 /\
                 Z.land (Z.lor (Z.land b 0xfc) c) 3 = c /\
                 Z.land (Z.lor (Z.land b 0xfc) c) 0xfc = Z.land b 0xfc).
  { revert b Hb. destruct Hcc as [-> | [-> | [-> | ->]]]; by_bytes. }
  destruct H123 as (H1 & H2 & H3). repeat split; try lia; try assumption.
  replace a with (Z.land a 0xfc).
  - rewrite !(Z.land_comm a), !Z.land_assoc, H3. reflexivity.
  - revert a Ha Ha3. by_bytes.
Qed.

Lemma wf_source_set (xsrc : XiveSource) (i v : Z) :
  wf_source xsrc -> wf_source (set_status xsrc (reg_set (status xsrc) i v)).
Proof.
  intros (Hn & Hl & Hb & Hm). unfold wf_source. cbn [nr_irqs status lsi_map set_status].
  rewrite reg_set_length. repeat split; try assumption; try lia.
  apply reg_set_byte, Hb.
Qed.

Lemma land3_range (b : Z) : 0 <= Z.land b 3 < 4.
Proof.
  change 3 with (Z.ones 2). rewrite Z.land_ones by lia. apply Z.mod_pos_bound. lia.
Qed.

Lemma reg_set_set (r : list Z) (i v w : Z) :
  reg_set (reg_set r i v) i w = reg_set r i w.
Proof. unfold reg_set. apply list_insert_insert_eq. Qed.

(** [xive_source_lsi_trigger] on a source in range. *)
Lemma lsi_trigger_spec (xsrc : XiveSource) (srcno : Z) :
  wf_source xsrc -> 0 <= srcno < nr_irqs xsrc ->
  let b := reg_get (status xsrc) srcno in
  xive_source_lsi_trigger xsrc srcno =
    Done (Z.land b 3 =? XIVE_ESB_RESET,
          if Z.land b 3 =? XIVE_ESB_RESET
          then set_status xsrc (reg_set (status xsrc) srcno
                                  (Z.lor (Z.land b 0xfc) XIVE_ESB_PENDING))
          else xsrc).
Proof.
  intros Hwf Hs b. pose proof Hwf as (Hn & Hl & Hb & Hm).
  assert (Hbb : 0 <= b < 256) by (apply reg_get_byte, Hb).
  unfold xive_source_lsi_trigger, xive_source_esb_get, xive_source_esb_set. fold b.
  destruct (Z.ltb_spec srcno (nr_irqs xsrc)); [|lia].
  cbn [mbind Res_bind mret Res_ret].
  destruct (Z.land b 3 =? XIVE_ESB_RESET); [|reflexivity].
  rewrite (esb_set_byte b _ Hbb). reflexivity.
Qed.

Lemma set_status_same (xsrc : XiveSource) (j : Z) :
  wf_source xsrc -> 0 <= j < nr_irqs xsrc ->
  set_status xsrc (reg_set (status xsrc) j (reg_get (status xsrc) j)) = xsrc.
Proof.
  intros (Hn & Hl & Hb & Hm) Hj. destruct xsrc as [n st lm sh fl].
  cbn [nr_irqs status lsi_map] in *. unfold set_status. cbn [nr_irqs status lsi_map esb_shift esb_flags].
  f_equal. unfold reg_set, reg_get. rewrite u8_small by (apply (reg_get_byte st j), Hb).
  apply list_insert_id, list_lookup_lookup_total_lt. lia.
Qed.

Lemma source_with_pq_spec (xsrc : XiveSource) (srcno c : Z) :
  wf_source xsrc -> 0 <= srcno < nr_irqs xsrc -> 0 <= c < 4 ->
  let x := source_with_pq xsrc srcno c in
  wf_source x /\ nr_irqs x = nr_irqs xsrc /\ lsi_map x = lsi_map xsrc /\
  esb_shift x = esb_shift xsrc /\ esb_flags x = esb_flags xsrc /\
  Z.land (reg_get (status x) srcno) 3 = c /\
  (forall d, source_with_pq x srcno d = source_with_pq xsrc srcno d) /\
  (Z.land (reg_get (status xsrc) srcno) 3 = c -> x = xsrc).
Proof.
  intros Hwf Hs Hc x. pose proof Hwf as (Hn & Hl & Hb & Hm).
  assert (Hbb : 0 <= reg_get (status xsrc) srcno < 256) by (apply reg_get_byte, Hb).
  destruct (status_byte_pq _ c 0 Hbb Hc ltac:(lia) eq_refl) as (Hr & Hpq & Hup & _).
  subst x. unfold source_with_pq.
  split; [apply wf_source_set, Hwf|].
  cbn [nr_irqs status lsi_map esb_shift esb_flags set_status].
  rewrite reg_get_set_eq by lia. rewrite u8_small by exact Hr.
  repeat split; try reflexivity; try assumption.
  - intros d. rewrite Hup, reg_set_set. reflexivity.
  - intros Hpq0. rewrite <- Hpq0.
    replace (Z.lor (Z.land (reg_get (status xsrc) srcno) 252)
                   (Z.land (reg_get (status xsrc) srcno) 3))
      with (reg_get (status xsrc) srcno).
    + apply set_status_same; assumption.
    + generalize dependent (reg_get (status xsrc) srcno). intros b Hb0 _ _ _ _.
      revert b Hb0. by_bytes.
Qed.

Lemma source_esb_trigger_spec (xsrc : XiveSource) (srcno : Z) :
  wf_source xsrc -> 0 <= srcno < nr_irqs xsrc ->
  let pq := Z.land (reg_get (status xsrc) srcno) 3 in
  xive_source_esb_trigger xsrc srcno =
    Done (pq =? XIVE_ESB_RESET, source_with_pq xsrc srcno (pq_after_trigger pq),
          if xive_source_irq_is_lsi xsrc srcno &&
             (pq_after_trigger pq =? XIVE_ESB_QUEUED)
          then [Esb_lsi_queued srcno] else []).
Proof.
  intros Hwf Hs pq. pose proof Hwf as (Hn & Hl & Hb & Hm).
  assert (Hbb : 0 <= reg_get (status xsrc) srcno < 256) by (apply reg_get_byte, Hb).
  pose proof (land3_range (reg_get (status xsrc) srcno)) as Hpq. fold pq in Hpq.
  assert (Hc : 0 <= pq_after_trigger pq < 4).
  { unfold pq_after_trigger, XIVE_ESB_QUEUED, XIVE_ESB_OFF, XIVE_ESB_PENDING, XIVE_ESB_RESET.
    destruct (pq =? 0); [lia|]. destruct (pq =? 1); lia. }
  destruct (source_with_pq_spec xsrc srcno _ Hwf Hs Hc) as (_ & Hnr & _ & _ & _ & Hg & _).
  unfold xive_source_esb_trigger.
  destruct (Z.ltb_spec srcno (nr_irqs xsrc)); [|lia].
  rewrite (esb_trigger_byte _ Hbb). fold pq. cbn [mbind Res_bind mret Res_ret].
  fold (source_with_pq xsrc srcno (pq_after_trigger pq)).
  replace (xive_source_irq_is_lsi (source_with_pq xsrc srcno (pq_after_trigger pq)) srcno)
    with (xive_source_irq_is_lsi xsrc srcno) by reflexivity.
  destruct (xive_source_irq_is_lsi xsrc srcno); [|reflexivity].
  unfold xive_source_esb_get. rewrite Hnr.
  destruct (Z.ltb_spec srcno (nr_irqs xsrc)); [|lia].
  rewrite Hg. reflexivity.
Qed.

Lemma source_esb_eoi_spec (A : Z) (xsrc : XiveSource) (srcno : Z) :
  0 <= A < 256 -> Z.land A 3 = 0 ->
  wf_source xsrc -> 0 <= srcno < nr_irqs xsrc ->
  let b := reg_get (status xsrc) srcno in
  let pq := Z.land b 3 in
  xive_source_esb_eoi A xsrc srcno =
    if xive_source_irq_is_lsi xsrc srcno && negb (Z.land b A =? 0)
    then Done ((pq =? XIVE_ESB_RESET) || (pq =? XIVE_ESB_PENDING),
               source_with_pq xsrc srcno
                 (if pq =? XIVE_ESB_OFF then XIVE_ESB_OFF else XIVE_ESB_PENDING))
    else Done (pq =? XIVE_ESB_QUEUED, source_with_pq xsrc srcno (pq_after_eoi pq)).
Proof.
  intros HA HA3 Hwf Hs b pq.
  pose proof Hwf as (Hn & Hl & Hb & Hm).
  assert (Hbb : 0 <= b < 256) by (apply reg_get_byte, Hb).
  pose proof (land3_range b) as Hpq. fold pq in Hpq.
  assert (Hc : 0 <= pq_after_eoi pq < 4).
  { unfold pq_after_eoi, XIVE_ESB_QUEUED, XIVE_ESB_OFF, XIVE_ESB_PENDING, XIVE_ESB_RESET.
    destruct (pq =? 3); [lia|]. destruct (pq =? 1); lia. }
  destruct (status_byte_pq b (pq_after_eoi pq) A Hbb Hc HA HA3) as (Hr1 & Hpq1 & Hup1 & HA1).
  destruct (source_with_pq_spec xsrc srcno _ Hwf Hs Hc)
    as (Hwf1 & Hnr1 & _ & _ & _ & Hg1 & Hagain & _).
  unfold xive_source_esb_eoi. fold b.
  destruct (Z.ltb_spec srcno (nr_irqs xsrc)); [|lia].
  rewrite (esb_eoi_byte b Hbb). fold pq. cbn [mbind Res_bind mret Res_ret].
  change (set_status xsrc (reg_set (status xsrc) srcno
                             (Z.lor (Z.land b 252) (pq_after_eoi pq))))
    with (source_with_pq xsrc srcno (pq_after_eoi pq)).
  set (x1 := source_with_pq xsrc srcno (pq_after_eoi pq)) in *.
  change (xive_source_irq_is_lsi x1 srcno) with (xive_source_irq_is_lsi xsrc srcno).
  assert (HbA : Z.land (reg_get (status x1) srcno) A = Z.land b A).
  { subst x1. unfold source_with_pq. cbn [status set_status].
    rewrite reg_get_set_eq by lia. fold b. rewrite u8_small by exact Hr1. exact HA1. }
  rewrite HbA.
  destruct (xive_source_irq_is_lsi xsrc srcno && negb (Z.land b A =? 0)); [|reflexivity].
  rewrite lsi_trigger_spec by (rewrite ?Hnr1; assumption).
  cbv zeta. rewrite Hg1.
  change (set_status x1 (reg_set (status x1) srcno
            (Z.lor (Z.land (reg_get (status x1) srcno) 252) XIVE_ESB_PENDING)))
    with (source_with_pq x1 srcno XIVE_ESB_PENDING).
  rewrite Hagain.
  assert (Hcs : pq = 0 \/ pq = 1 \/ pq = 2 \/ pq = 3) by lia.
  subst x1.
  unfold pq_after_eoi, XIVE_ESB_QUEUED, XIVE_ESB_OFF, XIVE_ESB_PENDING, XIVE_ESB_RESET in *.
  destruct Hcs as [Hq | [Hq | [Hq | Hq]]]; rewrite Hq; reflexivity.
Qed.

(** Setting and clearing a flag bit of a status byte leaves the PQ bits. *)
Lemma status_flag_pq (b a : Z) :
  0 <= b < 256 -> 0 <= a < 256 -> Z.land a 3 = 0 ->
  Z.land (Z.lor b a) 3 = Z.land b 3 /\
  Z.land (Z.land b (Z.lnot a)) 3 = Z.land b 3 /\
  0 <= Z.lor b a < 256 /\ 0 <= Z.land b (Z.lnot a) < 256 /\
  Z.land (Z.land b (Z.lnot a)) a = 0 /\
  (a <> 0 -> Z.land (Z.lor b a) a <> 0).
Proof.
  intros Hb Ha Ha3.
  split; [rewrite Z.land_lor_distr_l, Ha3, Z.lor_0_r; reflexivity|].
  split.
  { apply Z.bits_inj'. intros n Hn.
    rewrite !Z.land_spec, Z.lnot_spec by lia.
    destruct (Z.testbit 3 n) eqn:H3; [|rewrite !andb_false_r; reflexivity].
    assert (Han : Z.testbit (Z.land a 3) n = false) by (rewrite Ha3; apply Z.bits_0).
    rewrite Z.land_spec, H3, andb_true_r in Han. rewrite Han.
    cbn [negb]. rewrite !andb_true_r. reflexivity. }
  split; [apply lor_byte; assumption|].
  split; [apply land_byte_l; assumption|].
  split; [rewrite <- Z.land_assoc, (Z.land_comm (Z.lnot a)), Z.land_lnot_diag, Z.land_0_r;
          reflexivity|].
  intros Hnz. rewrite Z.land_lor_distr_l, Z.land_diag.
  intros H0. apply Z.lor_eq_0_iff in H0. lia.
Qed.

(** X16. [xive_source_esb_set] returns the PQ bits the source had, and
    [xive_source_esb_get] then returns the low two bits of the value set.
    The other six bits of the status byte, among them the level of an LSI,
    the status of every other source and the configuration of the source
    are kept. *)
Theorem source_esb_set_get (xsrc : XiveSource) (srcno pq : Z) :
  wf_source xsrc -> 0 <= srcno < nr_irqs xsrc ->
  let b := reg_get (status xsrc) srcno in
  exists xsrc',
    xive_source_esb_get xsrc srcno = Done (Z.land b 3) /\
    xive_source_esb_set xsrc srcno pq = Done (Z.land b 3, xsrc') /\
    xive_source_esb_get xsrc' srcno = Done (Z.land pq 3) /\
    Z.land (reg_get (status xsrc') srcno) 0xfc = Z.land b 0xfc /\
    (forall j, 0 <= j -> j <> srcno ->
       reg_get (status xsrc') j = reg_get (status xsrc) j) /\
    wf_source xsrc' /\
    (nr_irqs xsrc', lsi_map xsrc', esb_shift xsrc', esb_flags xsrc') =
      (nr_irqs xsrc, lsi_map xsrc, esb_shift xsrc, esb_flags xsrc).
Proof.
  intros Hwf Hs b.
  pose proof Hwf as (Hn & Hl & Hb & Hm).
  assert (Hbb : 0 <= b < 256) by (apply reg_get_byte, Hb).
  unfold xive_source_esb_get, xive_source_esb_set. fold b.
  destruct (Z.ltb_spec srcno (nr_irqs xsrc)); [|lia].
  rewrite (esb_set_byte b pq Hbb).
  eexists. split; [reflexivity|]. split; [reflexivity|].
  cbn [nr_irqs status lsi_map esb_shift esb_flags set_status].
  destruct (Z.ltb_spec srcno (nr_irqs xsrc)); [|lia].
  assert (Hv : 0 <= Z.land pq 3 < 4).
  { change 3 with (Z.ones 2). rewrite Z.land_ones by lia. apply Z.mod_pos_bound. lia. }
  destruct (status_byte_pq b (Z.land pq 3) 0 Hbb Hv ltac:(lia) eq_refl)
    as (Hr & Hpq & Hup & _).
  rewrite reg_get_set_eq by lia. rewrite u8_small by exact Hr.
  rewrite Hpq, Hup.
  split; [reflexivity|]. split; [reflexivity|].
  split; [intros j Hj Hne; apply reg_get_set_ne; lia|].
  split; [apply wf_source_set, Hwf|reflexivity].
Qed.

(** Interrupt 3 of the example source, from RESET to 10. *)
Lemma source_esb_set_get_witness :
  exists xsrc', xive_source_esb_set scenario_source 3 2 = Done (0, xsrc') /\
                xive_source_esb_get xsrc' 3 = Done 2.
Proof.
  destruct (source_esb_set_get scenario_source 3 2) as (x & _ & Hs & Hg & _).
  - by_decide.
  - unfold scenario_source. cbn [nr_irqs]. lia.
  - exists x. split; [exact Hs|exact Hg].
Defined.

(** X17. An EOI on an LSI that is still asserted presents the interrupt
    again: whatever the PQ bits were, they end PENDING (OFF stays OFF),
    and the EOI forwards a notification exactly when they were RESET or
    PENDING; from QUEUED the forward of the ESB is dropped.  On an MSI, or
    an LSI that is not asserted, the EOI is that of the ESB: QUEUED
    becomes PENDING and forwards, the rest becomes RESET (OFF stays OFF). *)
Theorem lsi_eoi (A : Z) (xsrc : XiveSource) (srcno : Z) :
  0 <= A < 256 -> Z.land A 3 = 0 ->
  wf_source xsrc -> 0 <= srcno < nr_irqs xsrc ->
  let b := reg_get (status xsrc) srcno in
  let pq := Z.land b 3 in
  (xive_source_irq_is_lsi xsrc srcno = true -> Z.land b A <> 0 ->
   xive_source_esb_eoi A xsrc srcno =
     Done ((pq =? XIVE_ESB_RESET) || (pq =? XIVE_ESB_PENDING),
           source_with_pq xsrc srcno
             (if pq =? XIVE_ESB_OFF then XIVE_ESB_OFF else XIVE_ESB_PENDING))) /\
  (xive_source_irq_is_lsi xsrc srcno = false \/ Z.land b A = 0 ->
   xive_source_esb_eoi A xsrc srcno =
     Done (pq =? XIVE_ESB_QUEUED, source_with_pq xsrc srcno (pq_after_eoi pq))).
Proof.
  intros HA HA3 Hwf Hs b pq.
  rewrite (source_esb_eoi_spec A xsrc srcno HA HA3 Hwf Hs). fold b pq.
  split.
  - intros -> Hass. apply Z.eqb_neq in Hass. rewrite Hass. reflexivity.
  - intros [-> | ->]; [reflexivity|]. rewrite andb_false_r. reflexivity.
Qed.

(** The LSI of the example, asserted and PENDING: the EOI forwards and
    leaves it PENDING. *)
Lemma lsi_eoi_witness :
  xive_source_esb_eoi 4 lsi_asserted_source 2 = Done (true, lsi_asserted_source).
Proof.
  destruct (lsi_eoi 4 lsi_asserted_source 2) as [H _].
  - lia.
  - reflexivity.
  - by_decide.
  - unfold lsi_asserted_source. cbn [nr_irqs]. lia.
  - apply H; [reflexivity|vm_compute; discriminate].
Defined.

(** X18. The input line of an LSI.  Lowering it clears the asserted bit
    of the status byte and nothing else.  Raising it sets the bit and,
    when the PQ bits are RESET, makes them PENDING and forwards one
    notification; in every other state nothing is forwarded.  The
    asserted bit never changes the PQ bits. *)
Theorem lsi_set_irq (A : Z) (F : Type) (notify : option (F -> Z -> Res F))
    (xsrc : XiveSource) (f : F) (srcno val : Z) :
  0 <= A < 256 -> Z.land A 3 = 0 ->
  wf_source xsrc -> 0 <= srcno < nr_irqs xsrc ->
  xive_source_irq_is_lsi xsrc srcno = true ->
  let b := reg_get (status xsrc) srcno in
  let leave c := set_status xsrc (reg_set (status xsrc) srcno c) in
  Z.land (Z.lor b A) 3 = Z.land b 3 /\
  Z.land (Z.land b (Z.lnot A)) 3 = Z.land b 3 /\
  (val = 0 ->
   xive_source_set_irq A F notify xsrc f srcno val =
     Done (leave (Z.land b (Z.lnot A)), f, [])) /\
  (val <> 0 -> Z.land b 3 <> XIVE_ESB_RESET ->
   xive_source_set_irq A F notify xsrc f srcno val = Done (leave (Z.lor b A), f, [])) /\
  (val <> 0 -> Z.land b 3 = XIVE_ESB_RESET ->
   xive_source_set_irq A F notify xsrc f srcno val =
     f' ← xive_source_notify F notify f srcno;
     mret (leave (Z.lor (Z.land (Z.lor b A) 0xfc) XIVE_ESB_PENDING), f', [])).
Proof.
  intros HA HA3 Hwf Hs Hlsi b leave.
  pose proof Hwf as (Hn & Hl & Hb & Hm).
  assert (Hbb : 0 <= b < 256) by (apply reg_get_byte, Hb).
  destruct (status_flag_pq b A Hbb HA HA3) as (Hor & Hand & Hro & Hra & _).
  assert (Hu : u32 srcno = srcno) by (apply Z.mod_small; lia).
  split; [exact Hor|]. split; [exact Hand|].
  assert (Hset : forall v, v <> 0 ->
    xive_source_set_irq A F notify xsrc f srcno v =
      '(n, xsrc') ← xive_source_lsi_trigger (leave (Z.lor b A)) srcno;
      f' ← source_forward F notify n f srcno;
      mret (xsrc', f', [])).
  { intros v Hv. unfold xive_source_set_irq. rewrite Hu, Hlsi.
    apply Z.eqb_neq in Hv. rewrite Hv. fold b.
    rewrite (u8_small (Z.lor b A)) by exact Hro. reflexivity. }
  split; [|split].
  - intros ->. unfold xive_source_set_irq. rewrite Hu, Hlsi. fold b.
    rewrite (u8_small (Z.land b (Z.lnot A))) by exact Hra. reflexivity.
  - intros Hv Hpq. rewrite (Hset val Hv).
    rewrite lsi_trigger_spec by (try apply wf_source_set; cbn [nr_irqs set_status]; assumption).
    subst leave. cbn [status set_status].
    rewrite reg_get_set_eq by lia. rewrite (u8_small (Z.lor b A)) by exact Hro.
    rewrite Hor. apply Z.eqb_neq in Hpq. rewrite Hpq. reflexivity.
  - intros Hv Hpq. rewrite (Hset val Hv).
    rewrite lsi_trigger_spec by (try apply wf_source_set; cbn [nr_irqs set_status]; assumption).
    subst leave. cbn [status set_status].
    rewrite reg_get_set_eq by lia. rewrite (u8_small (Z.lor b A)) by exact Hro.
    rewrite Hor, Hpq, reg_set_set. reflexivity.
Qed.

(** Raising the LSI of the example from RESET notifies LISN 2 once. *)
Lemma lsi_set_irq_witness :
  xive_source_set_irq 4 (list Z) trace_notify scenario_source [] 2 1 =
    Done (lsi_asserted_source, [2], []).
Proof.
  destruct (lsi_set_irq 4 (list Z) trace_notify scenario_source [] 2 1)
    as (_ & _ & _ & _ & H).
  - lia.
  - reflexivity.
  - by_decide.
  - unfold scenario_source. cbn [nr_irqs]. lia.
  - reflexivity.
  - apply H; [lia|reflexivity].
Defined.

Lemma source_reset_status (xsrc : XiveSource) :
  wf_source xsrc ->
  status (xive_source_reset xsrc) = replicate (Z.to_nat (nr_irqs xsrc)) 1.
Proof.
  intros (Hn & Hl & Hb & Hm). unfold xive_source_reset. cbn [status set_status].
  rewrite drop_ge by lia. apply app_nil_r.
Qed.

Lemma source_reset_wf (xsrc : XiveSource) :
  wf_source xsrc -> wf_source (xive_source_reset xsrc).
Proof.
  intros Hwf. pose proof (source_reset_status xsrc Hwf) as Hst.
  destruct Hwf as (Hn & Hl & Hb & Hm).
  unfold wf_source. rewrite Hst. unfold xive_source_reset.
  cbn [nr_irqs lsi_map set_status]. rewrite length_replicate.
  repeat split; try assumption; try lia.
  apply Forall_replicate. unfold is_byte. lia.
Qed.

Lemma source_reset_get (xsrc : XiveSource) (j : Z) :
  wf_source xsrc -> 0 <= j < nr_irqs xsrc ->
  reg_get (status (xive_source_reset xsrc)) j = 1.
Proof.
  intros Hwf Hj. rewrite (source_reset_status xsrc Hwf). unfold reg_get.
  apply list_lookup_total_correct, lookup_replicate_2. lia.
Qed.

(** X19. After [xive_source_reset] every source is OFF and stays silent:
    its PQ bits read OFF, a trigger forwards nothing and leaves the source
    as it is, and a change of the input line, to any level, forwards
    nothing, logs nothing and leaves the PQ bits OFF.  The bitmap of the
    LSIs is kept. *)
Theorem source_reset_off (A : Z) (F : Type) (notify : option (F -> Z -> Res F))
    (xsrc : XiveSource) (f : F) (srcno val : Z) :
  0 <= A < 256 -> Z.land A 3 = 0 ->
  wf_source xsrc -> 0 <= srcno < nr_irqs xsrc ->
  let r := xive_source_reset xsrc in
  lsi_map r = lsi_map xsrc /\
  xive_source_esb_get r srcno = Done XIVE_ESB_OFF /\
  xive_source_esb_trigger r srcno = Done (false, r, []) /\
  exists r',
    xive_source_set_irq A F notify r f srcno val = Done (r', f, []) /\
    xive_source_esb_get r' srcno = Done XIVE_ESB_OFF.
Proof.
  intros HA HA3 Hwf Hs r.
  pose proof (source_reset_wf xsrc Hwf) as Hwfr. fold r in Hwfr.
  pose proof (source_reset_get xsrc srcno Hwf Hs) as Hg. fold r in Hg.
  assert (Hnr : nr_irqs r = nr_irqs xsrc) by reflexivity.
  assert (Hu : u32 srcno = srcno) by (apply Z.mod_small; destruct Hwf; lia).
  assert (Hget : xive_source_esb_get r srcno = Done XIVE_ESB_OFF).
  { unfold xive_source_esb_get. rewrite Hnr, Hg.
    destruct (Z.ltb_spec srcno (nr_irqs xsrc)); [reflexivity|lia]. }
  assert (Htrig : xive_source_esb_trigger r srcno = Done (false, r, [])).
  { unfold xive_source_esb_trigger. rewrite Hnr, Hg.
    destruct (Z.ltb_spec srcno (nr_irqs xsrc)); [|lia].
    change (ESB.xive_esb_trigger 1) with (Done (false, 1)).
    cbn [mbind Res_bind mret Res_ret].
    pose proof (set_status_same r srcno Hwfr ltac:(rewrite Hnr; exact Hs)) as Hsame.
    rewrite Hg in Hsame. rewrite Hsame.
    destruct (xive_source_irq_is_lsi r srcno); [|reflexivity].
    rewrite Hget. reflexivity. }
  split; [reflexivity|]. split; [exact Hget|]. split; [exact Htrig|].
  destruct (status_flag_pq 1 A ltac:(lia) HA HA3) as (Hor & Hand & Hro & Hra & _).
  assert (Hgetc : forall c, 0 <= c < 256 -> Z.land c 3 = 1 ->
            xive_source_esb_get (set_status r (reg_set (status r) srcno c)) srcno
              = Done XIVE_ESB_OFF).
  { intros c Hc Hc3. unfold xive_source_esb_get. cbn [nr_irqs status set_status].
    rewrite Hnr. destruct (Z.ltb_spec srcno (nr_irqs xsrc)); [|lia].
    rewrite reg_get_set_eq by (destruct Hwfr as (_ & -> & _); rewrite Hnr; lia).
    rewrite (u8_small c Hc), Hc3. reflexivity. }
  unfold xive_source_set_irq. rewrite Hu, Hg, (u8_small _ Hro), (u8_small _ Hra).
  destruct (xive_source_irq_is_lsi r srcno) eqn:Hlsi.
  - destruct (val =? 0).
    + eexists. split; [reflexivity|]. apply Hgetc; assumption.
    + rewrite lsi_trigger_spec
        by (try apply wf_source_set; cbn [nr_irqs set_status]; rewrite ?Hnr; assumption).
      cbn [status set_status].
      rewrite reg_get_set_eq by (destruct Hwfr as (_ & -> & _); rewrite Hnr; lia).
      rewrite (u8_small _ Hro), Hor.
      change (Z.land 1 3 =? XIVE_ESB_RESET) with false.
      cbn [mbind Res_bind mret Res_ret source_forward].
      eexists. split; [reflexivity|]. apply Hgetc; assumption.
  - destruct (val =? 0).
    + exists r. split; [reflexivity|exact Hget].
    + rewrite Htrig. cbn [mbind Res_bind mret Res_ret source_forward].
      exists r. split; [reflexivity|exact Hget].
Qed.

(** Interrupt 3 of the example source after a reset. *)
Lemma source_reset_off_witness :
  xive_source_esb_trigger (xive_source_reset scenario_source) 3 =
    Done (false, xive_source_reset scenario_source, []).
Proof.
  destruct (source_reset_off 4 (list Z) trace_notify scenario_source [] 3 1)
    as (_ & _ & H & _).
  - lia.
  - reflexivity.
  - by_decide.
  - unfold scenario_source. cbn [nr_irqs]. lia.
  - exact H.
Defined.

(** X20. The life of an MSI through the MMIO region.  From RESET a
    triggering store forwards one notification and leaves PENDING; a
    second triggering store is latched as QUEUED and forwards nothing; an
    EOI load from the management page then returns 1, forwards the
    latched event and leaves PENDING; a second EOI load returns 0,
    forwards nothing and brings the source back to its first state. *)
Theorem msi_mmio_cycle (A SE : Z) (two : XiveSource -> bool) (F : Type)
    (notify : option (F -> Z -> Res F)) (xsrc : XiveSource) (f f1 f2 : F)
    (waddr raddr value size : Z) :
  0 <= A < 256 -> Z.land A 3 = 0 ->
  (forall x s, two (set_status x s) = two x) ->
  wf_source xsrc ->
  let srcno := u32 (Z.shiftr waddr (esb_shift xsrc)) in
  srcno < nr_irqs xsrc ->
  u32 (Z.shiftr raddr (esb_shift xsrc)) = srcno ->
  xive_source_irq_is_lsi xsrc srcno = false ->
  Z.land (reg_get (status xsrc) srcno) 3 = XIVE_ESB_RESET ->
  xive_source_is_trigger_page two xsrc waddr = true \/
    in_case (Z.land waddr 0xFFF) 0 0x3FF = true ->
  xive_source_is_trigger_page two xsrc raddr = false ->
  in_case (Z.land raddr 0xFFF) XIVE_ESB_LOAD_EOI 0x7FF = true ->
  xive_source_notify F notify f srcno = Done f1 ->
  xive_source_notify F notify f1 srcno = Done f2 ->
  let x1 := source_with_pq xsrc srcno XIVE_ESB_PENDING in
  let x2 := source_with_pq xsrc srcno XIVE_ESB_QUEUED in
  xive_source_esb_write A SE two F notify xsrc f waddr value size = Done (x1, f1, []) /\
  xive_source_esb_write A SE two F notify x1 f1 waddr value size = Done (x2, f1, []) /\
  xive_source_esb_read A two F notify x2 f1 raddr size = Done (1, x1, f2, []) /\
  xive_source_esb_read A two F notify x1 f2 raddr size = Done (0, xsrc, f2, []).
Proof.
  intros HA HA3 Htwo Hwf srcno Hlt Hr Hmsi Hpq Hw Hrp Hre Hn1 Hn2 x1 x2.
  assert (Hs : 0 <= srcno < nr_irqs xsrc).
  { split; [apply Z.mod_pos_bound; lia|exact Hlt]. }
  destruct (source_with_pq_spec xsrc srcno XIVE_ESB_PENDING Hwf Hs
              ltac:(unfold XIVE_ESB_PENDING; lia))
    as (Hwf1 & Hnr1 & Hlm1 & Hsh1 & _ & Hpq1 & Hag1 & _).
  destruct (source_with_pq_spec xsrc srcno XIVE_ESB_QUEUED Hwf Hs
              ltac:(unfold XIVE_ESB_QUEUED; lia))
    as (Hwf2 & Hnr2 & Hlm2 & Hsh2 & _ & Hpq2 & Hag2 & _).
  destruct (source_with_pq_spec xsrc srcno XIVE_ESB_RESET Hwf Hs
              ltac:(unfold XIVE_ESB_RESET; lia))
    as (_ & _ & _ & _ & _ & _ & _ & Hself).
  specialize (Hself Hpq).
  fold x1 in Hwf1, Hnr1, Hlm1, Hsh1, Hpq1, Hag1.
  fold x2 in Hwf2, Hnr2, Hlm2, Hsh2, Hpq2, Hag2.
  assert (Hmsi1 : xive_source_irq_is_lsi x1 srcno = false) by exact Hmsi.
  assert (Hmsi2 : xive_source_irq_is_lsi x2 srcno = false) by exact Hmsi.
  assert (Htp : forall x c addr, xive_source_is_trigger_page two (source_with_pq x srcno c) addr
                                 = xive_source_is_trigger_page two x addr).
  { intros x c addr. unfold xive_source_is_trigger_page, source_with_pq.
    rewrite Htwo. reflexivity. }
  (* a triggering store *)
  assert (Hstore : forall x g,
    wf_source x -> nr_irqs x = nr_irqs xsrc -> esb_shift x = esb_shift xsrc ->
    xive_source_is_trigger_page two x waddr = xive_source_is_trigger_page two xsrc waddr ->
    xive_source_esb_write A SE two F notify x g waddr value size =
      '(n, x', l) ← xive_source_esb_trigger x srcno;
      g' ← source_forward F notify n g srcno;
      mret (x', g', l)).
  { intros x g Hwfx Hnrx Hshx Htpx. unfold xive_source_esb_write.
    rewrite Hshx, Htpx. fold srcno.
    destruct Hw as [-> | ->]; [reflexivity|].
    destruct (xive_source_is_trigger_page two xsrc waddr); reflexivity. }
  (* an EOI load *)
  assert (Hload : forall x g,
    wf_source x -> nr_irqs x = nr_irqs xsrc -> esb_shift x = esb_shift xsrc ->
    xive_source_is_trigger_page two x raddr = xive_source_is_trigger_page two xsrc raddr ->
    xive_source_esb_read A two F notify x g raddr size =
      '(ret, x') ← xive_source_esb_eoi A x srcno;
      g' ← source_forward F notify ret g srcno;
      mret (Z.b2z ret, x', g', [])).
  { intros x g Hwfx Hnrx Hshx Htpx. unfold xive_source_esb_read.
    rewrite Hshx, Htpx, Hr, Hrp, Hre. reflexivity. }
  split; [|split; [|split]].
  - rewrite Hstore by auto.
    rewrite source_esb_trigger_spec by assumption. cbv zeta. rewrite Hpq, Hmsi.
    cbn [mbind Res_bind mret Res_ret andb source_forward Z.eqb XIVE_ESB_RESET].
    change (pq_after_trigger 0) with XIVE_ESB_PENDING. fold x1.
    rewrite Hn1. reflexivity.
  - rewrite Hstore by (try assumption; subst x1; apply Htp).
    rewrite source_esb_trigger_spec by (rewrite ?Hnr1; assumption).
    cbv zeta. rewrite Hpq1, Hmsi1.
    change (pq_after_trigger XIVE_ESB_PENDING) with XIVE_ESB_QUEUED.
    rewrite Hag1. fold x2. reflexivity.
  - rewrite Hload by (try assumption; subst x2; apply Htp).
    rewrite (source_esb_eoi_spec A x2 srcno HA HA3 Hwf2) by (rewrite Hnr2; exact Hs).
    cbv zeta. rewrite Hpq2, Hmsi2.
    change (pq_after_eoi XIVE_ESB_QUEUED) with XIVE_ESB_PENDING.
    cbn [andb mbind Res_bind mret Res_ret source_forward Z.eqb XIVE_ESB_QUEUED Pos.eqb].
    rewrite Hag2. fold x1.
    rewrite Hn2. reflexivity.
  - rewrite Hload by (try assumption; subst x1; apply Htp).
    rewrite (source_esb_eoi_spec A x1 srcno HA HA3 Hwf1) by (rewrite Hnr1; exact Hs).
    cbv zeta. rewrite Hpq1, Hmsi1.
    change (pq_after_eoi XIVE_ESB_PENDING) with XIVE_ESB_RESET.
    cbn [andb mbind Res_bind mret Res_ret source_forward].
    change (XIVE_ESB_PENDING =? XIVE_ESB_QUEUED) with false.
    cbn [mbind Res_bind mret Res_ret source_forward].
    rewrite Hag1, Hself. reflexivity.
Qed.

(** Interrupt 3 of the example source: two stores to its trigger page at
    0x60000 and two loads from its management page at 0x70000. *)
Lemma msi_mmio_cycle_witness :
  let x1 := source_with_pq scenario_source 3 XIVE_ESB_PENDING in
  let x2 := source_with_pq scenario_source 3 XIVE_ESB_QUEUED in
  xive_source_esb_write 4 0 example_has_2page (list Z) trace_notify scenario_source []
    0x60000 0 8 = Done (x1, [3], []) /\
  xive_source_esb_write 4 0 example_has_2page (list Z) trace_notify x1 [3]
    0x60000 0 8 = Done (x2, [3], []) /\
  xive_source_esb_read 4 example_has_2page (list Z) trace_notify x2 [3] 0x70000 8 =
    Done (1, x1, [3; 3], []) /\
  xive_source_esb_read 4 example_has_2page (list Z) trace_notify x1 [3; 3] 0x70000 8 =
    Done (0, scenario_source, [3; 3], []).
Proof.
  apply (msi_mmio_cycle 4 0 example_has_2page (list Z) trace_notify scenario_source
           [] [3] [3; 3] 0x60000 0x70000 0 8).
  - lia.
  - reflexivity.
  - reflexivity.
  - by_decide.
  - vm_compute. reflexivity.
  - reflexivity.
  - reflexivity.
  - reflexivity.
  - left. reflexivity.
  - reflexivity.
  - reflexivity.
  - reflexivity.
  - reflexivity.
Defined.

(** A store that triggers: to the trigger page, or at 0x000..0x3FF of the
    other page. *)
Lemma source_store_trigger (A SE : Z) (two : XiveSource -> bool) (F : Type)
    (notify : option (F -> Z -> Res F)) (xsrc : XiveSource) (f : F)
    (addr value size : Z) :
  xive_source_is_trigger_page two xsrc addr = true \/
    in_case (Z.land addr 0xFFF) 0 0x3FF = true ->
  let srcno := u32 (Z.shiftr addr (esb_shift xsrc)) in
  xive_source_esb_write A SE two F notify xsrc f addr value size =
    '(n, x', l) ← xive_source_esb_trigger xsrc srcno;
    f' ← source_forward F notify n f srcno;
    mret (x', f', l).
Proof.
  intros Hw srcno. unfold xive_source_esb_write. fold srcno.
  destruct Hw as [-> | ->]; [reflexivity|].
  destruct (xive_source_is_trigger_page two xsrc addr); reflexivity.
Qed.

(** X21. From the source to the event queue: a store that triggers an MSI
    reaches the router only when the PQ bits of the source are RESET, and
    then once, with the source number as LISN: with a valid IVE that is
    not masked the machine is the one [xive_router_eq_notify] leaves for
    the block, index and data of the IVE; a masked IVE stops the
    notification, an unknown LISN is logged.  In the other states of the
    source the machine is not touched. *)
Theorem source_trigger_routes (A SE : Z) (two : XiveSource -> bool)
    (IVE_VALID IVE_MASKED IVE_EQ_BLOCK IVE_EQ_INDEX IVE_EQ_DATA : Z)
    (ives : gmap Z Z) (xsrc : XiveSource) (m : XiveMachine) (l : list XiveLogMsg)
    (addr value size : Z) :
  wf_source xsrc ->
  let srcno := u32 (Z.shiftr addr (esb_shift xsrc)) in
  let notify := Some (xive_router_notify IVE_VALID IVE_MASKED IVE_EQ_BLOCK IVE_EQ_INDEX
                        IVE_EQ_DATA ives) in
  let store := xive_source_esb_write A SE two (XiveMachine * list XiveLogMsg) notify
                 xsrc (m, l) addr value size in
  let pq := Z.land (reg_get (status xsrc) srcno) 3 in
  srcno < nr_irqs xsrc ->
  xive_source_irq_is_lsi xsrc srcno = false ->
  xive_source_is_trigger_page two xsrc addr = true \/
    in_case (Z.land addr 0xFFF) 0 0x3FF = true ->
  (pq <> XIVE_ESB_RESET ->
   store = Done (source_with_pq xsrc srcno (pq_after_trigger pq), (m, l), [])) /\
  (pq = XIVE_ESB_RESET ->
   match ives !! srcno with
   | None =>
       store = Done (source_with_pq xsrc srcno XIVE_ESB_PENDING,
                     (m, l ++ [Log_unknown_lisn srcno]), [])
   | Some w =>
       if Z.land w IVE_VALID =? 0 then
         store = Done (source_with_pq xsrc srcno XIVE_ESB_PENDING,
                       (m, l ++ [Log_invalid_lisn srcno]), [])
       else if negb (Z.land w IVE_MASKED =? 0) then
         store = Done (source_with_pq xsrc srcno XIVE_ESB_PENDING, (m, l), [])
       else
         store =
           m' ← xive_router_eq_notify m (u8 (GETFIELD IVE_EQ_BLOCK w))
                  (u32 (GETFIELD IVE_EQ_INDEX w)) (u32 (GETFIELD IVE_EQ_DATA w));
           mret (source_with_pq xsrc srcno XIVE_ESB_PENDING, (m', l), [])
   end).
Proof.
  intros Hwf srcno notify store pq Hlt Hmsi Hw.
  assert (Hs : 0 <= srcno < nr_irqs xsrc).
  { split; [apply Z.mod_pos_bound; lia|exact Hlt]. }
  assert (Hu : u32 srcno = srcno).
  { subst srcno. unfold u32. apply Z.mod_mod. lia. }
  assert (Hstore : store =
            '(n, x', l') ← xive_source_esb_trigger xsrc srcno;
            f' ← source_forward _ notify n (m, l) srcno;
            mret (x', f', l')).
  { apply source_store_trigger, Hw. }
  rewrite (source_esb_trigger_spec xsrc srcno Hwf Hs) in Hstore.
  cbv zeta in Hstore. fold pq in Hstore. rewrite Hmsi in Hstore.
  cbn [andb mbind Res_bind mret Res_ret] in Hstore.
  split.
  - intros Hne. rewrite Hstore. apply Z.eqb_neq in Hne. rewrite Hne. reflexivity.
  - intros He. rewrite He in Hstore.
    change (pq_after_trigger XIVE_ESB_RESET) with XIVE_ESB_PENDING in Hstore.
    change (XIVE_ESB_RESET =? XIVE_ESB_RESET) with true in Hstore.
    cbn [source_forward] in Hstore. subst notify.
    unfold xive_source_notify in Hstore. rewrite Hu in Hstore.
    unfold xive_router_notify in Hstore.
    destruct (ives !! srcno) as [w|]; [|exact Hstore].
    destruct (Z.land w IVE_VALID =? 0); [exact Hstore|].
    destruct (negb (Z.land w IVE_MASKED =? 0)); [exact Hstore|].
    rewrite Hstore.
    destruct (xive_router_eq_notify m _ _ _); reflexivity.
Qed.

(** A store to the trigger page of interrupt 3 with no IVE for LISN 3. *)
Lemma source_trigger_routes_witness :
  xive_source_esb_write 4 0 example_has_2page (XiveMachine * list XiveLogMsg)
    (Some (xive_router_notify 1 2 0 0 0 ∅)) scenario_source (machine_one_cpu, [])
    0x60000 0 8 =
  Done (source_with_pq scenario_source 3 XIVE_ESB_PENDING,
        (machine_one_cpu, [Log_unknown_lisn 3]), []).
Proof.
  destruct (source_trigger_routes 4 0 example_has_2page 1 2 0 0 0 ∅ scenario_source
              machine_one_cpu [] 0x60000 0 8) as [_ H].
  - by_decide.
  - vm_compute. reflexivity.
  - reflexivity.
  - left. reflexivity.
  - apply H. reflexivity.
Defined.

(** ** The memory nodes of the device tree *)

Lemma pos_ctz_pow2 (p : positive) : (2 ^ pos_ctz p | Zpos p).
Proof.
  induction p as [p IH|p IH|].
  - cbn [pos_ctz]. apply Z.divide_1_l.
  - cbn [pos_ctz]. pose proof (pos_ctz_nonneg p).
    replace (2 ^ (1 + pos_ctz p)) with (2 * 2 ^ pos_ctz p) by (rewrite Z.pow_add_r by lia; lia).
    change (Zpos p~0) with (2 * Zpos p). apply Z.mul_divide_mono_l, IH.
  - cbn [pos_ctz]. apply Z.divide_1_l.
Qed.

Lemma pos_ctz_le_log2 (p : positive) : pos_ctz p <= Z.log2 (Zpos p).
Proof.
  pose proof (pos_ctz_pow2 p) as Hd. pose proof (pos_ctz_nonneg p) as H0.
  apply Z.divide_pos_le in Hd; [|lia].
  apply Z.log2_le_mono in Hd. rewrite Z.log2_pow2 in Hd by lia. exact Hd.
Qed.

Lemma node_chunk_divides (n s : Z) :
  0 < n < 2 ^ 64 -> 0 <= s -> (node_chunk n s | s).
Proof.
  intros Hn Hs. unfold node_chunk, pow2floor.
  destruct (Z.eqb_spec n 0); [lia|].
  pose proof (Z.log2_nonneg n) as Hl0.
  assert (Hl : Z.log2 n < 64) by (apply Z.log2_lt_pow2; lia).
  rewrite ctzl_pow2 by lia.
  destruct (Z.ltb_spec (ctzl s) (Z.log2 n)) as [Hlt|Hge].
  - destruct s as [|p|p]; cbn [ctzl] in *; try lia.
    pose proof (pos_ctz_nonneg p) as Hc0.
    rewrite Z.shiftl_1_l.
    assert (Hu : u64 (2 ^ pos_ctz p) = 2 ^ pos_ctz p).
    { apply Z.mod_small. split; [apply Z.pow_nonneg; lia|].
      apply Z.pow_lt_mono_r; lia. }
    rewrite Hu. apply pos_ctz_pow2.
  - destruct s as [|p|p]; cbn [ctzl] in *; try lia.
    + apply Z.divide_0_r.
    + apply Z.divide_trans with (2 ^ pos_ctz p); [|apply pos_ctz_pow2].
      pose proof (pos_ctz_le_log2 p).
      exists (2 ^ (pos_ctz p - Z.log2 n)).
      rewrite <- Z.pow_add_r by lia. f_equal. lia.
Qed.

Lemma mem_chain_app (s m e : Z) (l1 l2 : list MemNode) :
  mem_chain s l1 m -> mem_chain m l2 e -> mem_chain s (l1 ++ l2) e.
Proof.
  revert s. induction l1 as [|x l1 IH]; intros s; cbn [mem_chain app].
  - intros ->. auto.
  - intros [Hx Hl] H2. split; [exact Hx|]. apply IH; assumption.
Qed.

(** The inner loop describes exactly [node_size] bytes from [mem_start]. *)
Lemma populate_loop_spec (nodeid : Z) (n : Z) :
  0 <= n -> forall s, 0 <= s -> s + n < 2 ^ 64 ->
  (populate_loop nodeid n s).2 = s + n /\
  mem_chain s (populate_loop nodeid n s).1 (s + n) /\
  Forall (fun m => mn_nodeid m = nodeid /\ mem_node_aligned m /\
                   s <= mn_start m /\ mn_start m + mn_size m <= s + n)
         (populate_loop nodeid n s).1.
Proof.
  intros Hn. generalize Hn. pattern n. apply Z_lt_induction; [|exact Hn].
  clear. intros n IH Hn s Hs Hsn.
  rewrite populate_loop_equation_1.
  destruct (Z_le_gt_dec n 0) as [Hle|Hgt]; cbn [populate_loop_unfold_clause_1].
  - assert (n = 0) by lia. subst n. cbn [fst snd mem_chain].
    rewrite Z.add_0_r. repeat split. constructor.
  - destruct (node_chunk_pow2 n s ltac:(lia)) as (k & Hk & Hc & Hcn).
    pose proof (node_chunk_divides n s ltac:(lia) Hs) as Hd.
    assert (Hc0 : 0 < node_chunk n s) by (rewrite Hc; apply Z.pow_pos_nonneg; lia).
    cbv zeta. set (c := node_chunk n s) in *.
    assert (Hu1 : u64 (n - c) = n - c) by (apply Z.mod_small; lia).
    assert (Hu2 : u64 (s + c) = s + c) by (apply Z.mod_small; lia).
    rewrite Hu1, Hu2.
    destruct (IH (n - c) ltac:(lia) ltac:(lia) (s + c) ltac:(lia) ltac:(lia))
      as (He & Hch & Hall).
    replace (s + c + (n - c)) with (s + n) in * by lia.
    destruct (populate_loop nodeid (n - c) (s + c)) as [l e].
    cbn [fst snd mem_chain mn_start mn_size] in *.
    split; [exact He|]. split; [split; [reflexivity|exact Hch]|].
    constructor.
    + cbn [mn_nodeid mn_start mn_size]. split; [reflexivity|].
      split; [|lia]. split; [exists k; auto|exact Hd].
    + eapply Forall_impl; [exact Hall|]. cbv beta. intros m (H1 & H2 & H3 & H4).
      split; [exact H1|]. split; [exact H2|]. lia.
Qed.

Lemma foldr_add_nonneg (l : list Z) :
  Forall (fun v => 0 <= v < 2 ^ 64) l -> 0 <= foldr Z.add 0 l.
Proof. induction 1 as [|x l Hx _ IH]; cbn [foldr]; lia. Qed.

Lemma foldr_add_app (l1 l2 : list Z) :
  foldr Z.add 0 (l1 ++ l2) = foldr Z.add 0 l1 + foldr Z.add 0 l2.
Proof. induction l1 as [|x l1 IH]; cbn [foldr app]; lia. Qed.

(** The state of the outer loop after the nodes [nodes]. *)
Lemma populate_nodes_spec (ram_size : Z) (nodes : list Z) :
  0 <= ram_size < 2 ^ 64 ->
  Forall (fun v => 0 <= v < 2 ^ 64) nodes ->
  let st := foldl (populate_node ram_size) ([], 0) (imap pair nodes) in
  st.2 = Z.min ram_size (foldr Z.add 0 nodes) /\
  mem_chain 0 st.1 (Z.min ram_size (foldr Z.add 0 nodes)) /\
  Forall mem_node_aligned st.1 /\
  Forall (fun m => exists i, mn_nodeid m = Z.of_nat i /\ (i < length nodes)%nat /\
                   numa_limit ram_size nodes i <= mn_start m /\
                   mn_start m + mn_size m <= numa_limit ram_size nodes (S i)) st.1.
Proof.
  intros Hram. induction nodes as [|x l IH] using rev_ind; intros Hall st.
  - subst st. cbn. repeat split; try constructor; lia.
  - apply Forall_app in Hall as [Hl Hx]. apply Forall_inv in Hx.
    specialize (IH Hl). cbv zeta in IH. destruct IH as (He & Hch & Hal & Hin).
    pose proof (foldr_add_nonneg l Hl) as Hsum.
    subst st. rewrite imap_app, foldl_app. cbn [imap foldl].
    rewrite Nat.add_0_r. rewrite foldr_add_app. cbn [foldr]. rewrite Z.add_0_r.
    destruct (foldl (populate_node ram_size) ([], 0) (imap pair l)) as [out ms].
    cbn [fst snd] in *. subst ms.
    assert (Hweaken : Forall (fun m => exists i, mn_nodeid m = Z.of_nat i /\
                (i < length (l ++ [x]))%nat /\
                numa_limit ram_size (l ++ [x]) i <= mn_start m /\
                mn_start m + mn_size m <= numa_limit ram_size (l ++ [x]) (S i)) out).
    { eapply Forall_impl; [exact Hin|]. cbv beta. intros m (i & Hi & Hlt & H1 & H2).
      exists i. split; [exact Hi|]. rewrite length_app. split; [lia|].
      unfold numa_limit in *. rewrite !take_app_le by lia. lia. }
    unfold populate_node. destruct (Z.eqb_spec x 0) as [->|Hx0].
    + cbn [fst snd]. rewrite Z.add_0_r. auto.
    + set (s := Z.min ram_size (foldr Z.add 0 l)).
      set (n := if ram_size <=? s then 0 else
                if ram_size - s <? x then ram_size - s else x).
      assert (Hn : 0 <= n /\ s + n = Z.min ram_size (foldr Z.add 0 l + x)).
      { subst n s. destruct (Z.leb_spec ram_size (Z.min ram_size (foldr Z.add 0 l)));
          [lia|]. destruct (Z.ltb_spec (ram_size - Z.min ram_size (foldr Z.add 0 l)) x); lia. }
      destruct Hn as [Hn0 Hsn].
      destruct (populate_loop_spec (Z.of_nat (length l)) n Hn0 s ltac:(lia) ltac:(lia))
        as (He' & Hch' & Hall').
      cbv zeta. rewrite Hsn in *.
      destruct (populate_loop (Z.of_nat (length l)) n s) as [l' e'].
      cbn [fst snd] in *.
      split; [exact He'|]. split; [eapply mem_chain_app; eassumption|].
      split.
      * apply Forall_app. split; [exact Hal|].
        eapply Forall_impl; [exact Hall'|]. cbv beta. intros m H. apply H.
      * apply Forall_app. split; [exact Hweaken|].
        eapply Forall_impl; [exact Hall'|]. cbv beta. intros m (H1 & _ & H3 & H4).
        exists (length l). split; [exact H1|]. rewrite length_app. cbn [length].
        split; [lia|]. unfold numa_limit.
        rewrite take_app_le by lia. rewrite firstn_all.
        replace (S (length l)) with (length (l ++ [x])) by (rewrite length_app; cbn; lia).
        rewrite firstn_all, foldr_add_app. cbn [foldr]. rewrite Z.add_0_r.
        fold s. lia.
Qed.

Lemma numa_nodes_range (ram_size : Z) (numa_info : list Z) :
  0 <= ram_size < 2 ^ 64 ->
  Forall (fun v => 0 <= v < 2 ^ 64) numa_info ->
  Forall (fun v => 0 <= v < 2 ^ 64) (numa_nodes ram_size numa_info).
Proof.
  intros Hram Hall. unfold numa_nodes. destruct (bool_decide (numa_info = [])).
  - constructor; [exact Hram|constructor].
  - exact Hall.
Qed.

(** X22. The memory nodes that [powernv_populate_memory] adds to the
    device tree tile the RAM: the first starts at 0, each starts where the
    one before ends, and together they end at the RAM size, or at the sum
    of the memory of the NUMA nodes when that is less.  The size of each
    is a power of two and its start is a multiple of its size; this holds
    also for the first node, which starts at 0. *)
Theorem memory_nodes_tile (ram_size : Z) (numa_info : list Z) :
  0 <= ram_size < 2 ^ 64 ->
  Forall (fun v => 0 <= v < 2 ^ 64) numa_info ->
  let out := powernv_populate_memory ram_size numa_info in
  Forall mem_node_aligned out /\
  mem_chain 0 out (if bool_decide (numa_info = []) then ram_size
                   else Z.min ram_size (foldr Z.add 0 numa_info)).
Proof.
  intros Hram Hall out.
  destruct (populate_nodes_spec ram_size (numa_nodes ram_size numa_info) Hram
              (numa_nodes_range ram_size numa_info Hram Hall)) as (_ & Hch & Hal & _).
  split; [exact Hal|].
  unfold numa_nodes in Hch. subst out. unfold powernv_populate_memory, numa_nodes.
  destruct (bool_decide (numa_info = [])); [|exact Hch].
  cbn [foldr] in Hch. rewrite Z.add_0_r, Z.min_id in Hch. exact Hch.
Qed.

(** 6G of RAM over four NUMA nodes, one of them empty and the last one
    larger than what is left. *)
Lemma memory_nodes_tile_witness :
  Forall mem_node_aligned (powernv_populate_memory example_ram_size example_numa_info) /\
  mem_chain 0 (powernv_populate_memory example_ram_size example_numa_info) example_ram_size.
Proof.
  apply (memory_nodes_tile example_ram_size example_numa_info).
  - unfold example_ram_size. lia.
  - unfold example_numa_info. repeat constructor; lia.
Defined.

(** X23. Every memory node of the device tree belongs to one NUMA node and
    lies within the memory of that node: its id is the index [i] of a
    node of the list, and it starts at or after the memory of the nodes
    before [i] and ends at or before the end of the memory of node [i],
    both capped by the RAM size.  Without NUMA nodes every id is 0. *)
Theorem memory_nodes_numa (ram_size : Z) (numa_info : list Z) :
  0 <= ram_size < 2 ^ 64 ->
  Forall (fun v => 0 <= v < 2 ^ 64) numa_info ->
  let nodes := numa_nodes ram_size numa_info in
  Forall (fun m => exists i : nat,
            mn_nodeid m = Z.of_nat i /\ (i < length nodes)%nat /\
            numa_limit ram_size nodes i <= mn_start m /\
            mn_start m + mn_size m <= numa_limit ram_size nodes (S i))
         (powernv_populate_memory ram_size numa_info) /\
  (numa_info = [] ->
   Forall (fun m => mn_nodeid m = 0) (powernv_populate_memory ram_size numa_info)).
Proof.
  intros Hram Hall nodes.
  destruct (populate_nodes_spec ram_size nodes Hram
              (numa_nodes_range ram_size numa_info Hram Hall)) as (_ & _ & _ & Hin).
  split; [exact Hin|].
  intros ->. eapply Forall_impl; [exact Hin|]. cbv beta.
  intros m (i & Hi & Hlt & _). subst nodes. unfold numa_nodes in Hlt.
  rewrite bool_decide_eq_true_2 in Hlt by reflexivity. cbn [length] in Hlt.
  rewrite Hi. lia.
Qed.

(** In the example every memory node is within the memory of one of the
    four NUMA nodes. *)
Lemma memory_nodes_numa_witness :
  Forall (fun m => exists i : nat,
            mn_nodeid m = Z.of_nat i /\ (i < 4)%nat /\
            numa_limit example_ram_size example_numa_info i <= mn_start m /\
            mn_start m + mn_size m <= numa_limit example_ram_size example_numa_info (S i))
         (powernv_populate_memory example_ram_size example_numa_info).
Proof.
  apply (memory_nodes_numa example_ram_size example_numa_info).
  - unfold example_ram_size. lia.
  - unfold example_numa_info. repeat constructor; lia.
Defined.

(** ** ISA interrupts through the CPLD *)

Lemma u32_small (x : Z) : 0 <= x < 2 ^ 32 -> u32 x = x.
Proof. apply Z.mod_small. Qed.

Lemma testbit_u32 (x k : Z) :
  0 <= k -> Z.testbit (u32 x) k = (k <? 32) && Z.testbit x k.
Proof.
  intros Hk. unfold u32. destruct (Z.ltb_spec k 32).
  - rewrite Z.mod_pow2_bits_low by lia. reflexivity.
  - rewrite Z.mod_pow2_bits_high by lia. reflexivity.
Qed.

Lemma testbit_one_shl (n k : Z) :
  0 <= n -> 0 <= k -> Z.testbit (Z.shiftl 1 n) k = (k =? n).
Proof.
  intros Hn Hk. rewrite Z.shiftl_1_l. destruct (Z.eqb_spec k n) as [->|Hne].
  - apply Z.pow2_bits_true; lia.
  - apply Z.pow2_bits_false; lia.
Qed.

Lemma cpld_handler_bits (st n level k : Z) :
  0 <= n -> 0 <= k ->
  (forall j, 0 <= j -> Z.testbit st j = true -> j < 16) ->
  Z.testbit (pnv_lpc_irq_handler_cpld st n level).1 k =
    if (n <? 16) && (k =? n) then negb (level =? 0) else Z.testbit st k.
Proof.
  intros Hn Hk Hst. unfold pnv_lpc_irq_handler_cpld, MAX_ISA_IRQ.
  destruct (Z.leb_spec 16 n) as [Hge|Hlt].
  - cbn [fst]. destruct (Z.ltb_spec n 16); [lia|]. reflexivity.
  - destruct (Z.ltb_spec n 16); [|lia]. cbn [andb].
    assert (Hbit : Z.testbit (if negb (level =? 0)
                     then u32 (Z.lor st (u32 (Z.shiftl 1 n)))
                     else u32 (Z.land st (u32 (Z.lnot (u32 (Z.shiftl 1 n)))))) k =
                   if k =? n then negb (level =? 0) else Z.testbit st k).
    { destruct (level =? 0); cbn [negb].
      - rewrite testbit_u32, Z.land_spec, testbit_u32, Z.lnot_spec, testbit_u32,
          testbit_one_shl by lia.
        destruct (Z.ltb_spec k 32); destruct (Z.eqb_spec k n);
          destruct (Z.testbit st k) eqn:E; cbn; try reflexivity; try lia;
          specialize (Hst k Hk E); lia.
      - rewrite testbit_u32, Z.lor_spec, testbit_u32, testbit_one_shl by lia.
        destruct (Z.ltb_spec k 32); destruct (Z.eqb_spec k n);
          destruct (Z.testbit st k) eqn:E; cbn; try reflexivity; try lia;
          specialize (Hst k Hk E); lia. }
    destruct (negb (_ =? st)); cbn [fst]; exact Hbit.
Qed.

Lemma cpld_handler_call (st n level : Z) (lv : bool) :
  (pnv_lpc_irq_handler_cpld st n level).2 = Some lv ->
  lv = negb ((pnv_lpc_irq_handler_cpld st n level).1 =? 0).
Proof.
  unfold pnv_lpc_irq_handler_cpld. destruct (MAX_ISA_IRQ <=? n); [discriminate|].
  destruct (negb (_ =? st)); cbn [fst snd]; congruence.
Qed.

Lemma cpld_handler_quiet (st n level : Z) :
  (pnv_lpc_irq_handler_cpld st n level).2 = None ->
  (pnv_lpc_irq_handler_cpld st n level).1 = st.
Proof.
  unfold pnv_lpc_irq_handler_cpld. destruct (MAX_ISA_IRQ <=? n); [reflexivity|].
  match goal with |- context [negb (?a =? st)] => destruct (Z.eqb_spec a st) as [E|E] end;
    cbn [negb fst snd]; [intros _; exact E|discriminate].
Qed.

Lemma isa_line_level_snoc (evs : list (Z * Z)) (ev : Z * Z) (k : Z) :
  isa_line_level (evs ++ [ev]) k =
    if ev.1 =? k then negb (ev.2 =? 0) else isa_line_level evs k.
Proof. unfold isa_line_level. rewrite foldl_app. reflexivity. Qed.

Lemma cpld_run_inv (evs : list (Z * Z)) :
  Forall (fun ev => 0 <= ev.1) evs ->
  (forall k, 0 <= k ->
     Z.testbit (cpld_run evs).1 k = (k <? 16) && isa_line_level evs k) /\
  0 <= (cpld_run evs).1 /\
  default false (last (cpld_run evs).2) = negb ((cpld_run evs).1 =? 0).
Proof.
  induction evs as [|ev evs IH] using rev_ind; intros Hall.
  - cbn. repeat split; try lia. intros k Hk. rewrite Z.testbit_0_l, andb_false_r.
    reflexivity.
  - apply Forall_app in Hall as [Hevs Hev]. apply Forall_inv in Hev.
    destruct (IH Hevs) as (Hbits & Hpos & Hlast). clear IH.
    unfold cpld_run in *. rewrite foldl_app. cbn [foldl].
    destruct (foldl cpld_step (0, []) evs) as [st calls]. cbn [fst snd] in *.
    unfold cpld_step. cbn [fst snd].
    assert (Hhigh : forall j, 0 <= j -> Z.testbit st j = true -> j < 16).
    { intros j Hj E. rewrite Hbits in E by lia. destruct (Z.ltb_spec j 16); [lia|].
      discriminate. }
    assert (Hb : forall k, 0 <= k ->
              Z.testbit (pnv_lpc_irq_handler_cpld st ev.1 ev.2).1 k =
              (k <? 16) && isa_line_level (evs ++ [ev]) k).
    { intros k Hk. rewrite cpld_handler_bits by assumption.
      rewrite isa_line_level_snoc, Hbits by lia. rewrite (Z.eqb_sym ev.1 k).
      destruct (Z.eqb_spec k ev.1) as [->|Hne].
      - destruct (ev.1 <? 16); reflexivity.
      - rewrite andb_false_r. reflexivity. }
    split; [exact Hb|]. split.
    + apply Z.bits_iff_nonneg_ex. exists 16. intros m Hm.
      rewrite Hb by lia. destruct (Z.ltb_spec m 16); [lia|]. reflexivity.
    + destruct (pnv_lpc_irq_handler_cpld st ev.1 ev.2).2 as [lv|] eqn:E.
      * change (option_list (Some lv)) with [lv]. rewrite last_snoc. cbn [default].
        apply cpld_handler_call. exact E.
      * change (option_list (@None bool)) with (@nil bool). rewrite app_nil_r, Hlast.
        rewrite (cpld_handler_quiet _ _ _ E). reflexivity.
Qed.

Lemma bits16_nonzero (st : Z) :
  0 <= st -> (forall j, 0 <= j -> Z.testbit st j = true -> j < 16) ->
  negb (st =? 0) = existsb (Z.testbit st) (seqZ 0 16).
Proof.
  intros Hpos Hhigh. destruct (existsb (Z.testbit st) (seqZ 0 16)) eqn:E.
  - apply existsb_exists in E as (k & _ & Hk).
    destruct (Z.eqb_spec st 0) as [->|]; [|reflexivity].
    rewrite Z.testbit_0_l in Hk. discriminate.
  - destruct (Z.eqb_spec st 0) as [|Hne]; [reflexivity|]. exfalso. apply Hne.
    apply Z.bits_inj'. intros k Hk. rewrite Z.testbit_0_l.
    destruct (Z.testbit st k) eqn:Ek; [|reflexivity].
    pose proof (Hhigh k Hk Ek) as Hlt.
    assert (Hin : In k (seqZ 0 16)).
    { apply list_elem_of_In, elem_of_seqZ. lia. }
    assert (existsb (Z.testbit st) (seqZ 0 16) = true)
      by (apply existsb_exists; exists k; auto).
    congruence.
Qed.

Lemma cpld_handler_changed (st n level : Z) (lv : bool) :
  (pnv_lpc_irq_handler_cpld st n level).2 = Some lv ->
  (pnv_lpc_irq_handler_cpld st n level).1 <> st.
Proof.
  unfold pnv_lpc_irq_handler_cpld. destruct (MAX_ISA_IRQ <=? n); [discriminate|].
  match goal with |- context [negb (?a =? st)] => destruct (Z.eqb_spec a st) as [E|E] end;
    cbn [negb fst snd]; [discriminate|intros _; exact E].
Qed.

(** The last level given to the PSI is the OR of the lines. *)
Lemma cpld_last_call (evs : list (Z * Z)) :
  Forall (fun ev => 0 <= ev.1) evs ->
  default false (last (cpld_run evs).2) = existsb (isa_line_level evs) (seqZ 0 16).
Proof.
  intros Hall. destruct (cpld_run_inv evs Hall) as (Hbits & Hpos & Hlast).
  rewrite Hlast, bits16_nonzero.
  - generalize (seqZ 0 16) (fun k => proj1 (elem_of_seqZ 0 16 k)).
    intros l Hl. induction l as [|k l IH]; [reflexivity|].
    cbn [existsb]. rewrite IH by (intros j Hj; apply Hl; right; exact Hj).
    rewrite Hbits by (specialize (Hl k ltac:(left)); lia).
    destruct (Z.ltb_spec k 16); [reflexivity|].
    specialize (Hl k ltac:(left)). lia.
  - exact Hpos.
  - intros j Hj E. rewrite Hbits in E by lia. destruct (Z.ltb_spec j 16); [lia|].
    discriminate.
Qed.

(** While every change lowers a line, or is of a line from 16 on, the
    static variable stays 0 and the PSI is not called. *)
Lemma cpld_run_low (evs : list (Z * Z)) :
  Forall (fun ev => ev.2 = 0 \/ 16 <= ev.1) evs -> cpld_run evs = (0, []).
Proof.
  induction evs as [|ev evs IH] using rev_ind; intros Hall; [reflexivity|].
  apply Forall_app in Hall as [Hevs Hev]. apply Forall_inv in Hev.
  unfold cpld_run in *. rewrite foldl_app, (IH Hevs). cbn [foldl].
  unfold cpld_step, pnv_lpc_irq_handler_cpld, MAX_ISA_IRQ. cbn [fst snd].
  destruct (Z.leb_spec 16 ev.1) as [Hge|Hlt]; [reflexivity|].
  destruct Hev as [-> | Hge]; [|lia]. cbn [Z.eqb negb]. rewrite Z.land_0_l.
  reflexivity.
Qed.

(** X24. The external interrupt of the PSI follows the OR of the sixteen
    ISA lines.  The PSI is called exactly when a change gives a line
    below 16 another level than it had, once, with the OR of the lines
    after the change: a change that repeats the level of a line, or a
    change of a line from 16 on, makes no call and leaves everything as
    it is, and no call is made as long as no line was raised.  So the
    last level given to the PSI is high exactly when some line is high,
    and bit [k] of the static variable is the level of line [k]. *)
Theorem cpld_psi_follows_lines (evs : list (Z * Z)) :
  Forall (fun ev => 0 <= ev.1) evs ->
  default false (last (cpld_run evs).2) = existsb (isa_line_level evs) (seqZ 0 16) /\
  (forall k, 0 <= k < 16 -> Z.testbit (cpld_run evs).1 k = isa_line_level evs k) /\
  (forall n level, 16 <= n -> cpld_step (cpld_run evs) (n, level) = cpld_run evs) /\
  (forall n level, 0 <= n < 16 ->
     (cpld_run (evs ++ [(n, level)])).2 =
       (cpld_run evs).2 ++
       (if Bool.eqb (negb (level =? 0)) (isa_line_level evs n) then []
        else [existsb (isa_line_level (evs ++ [(n, level)])) (seqZ 0 16)])) /\
  (Forall (fun ev => ev.2 = 0 \/ 16 <= ev.1) evs -> (cpld_run evs).2 = []).
Proof.
  intros Hall. destruct (cpld_run_inv evs Hall) as (Hbits & Hpos & Hlast).
  split; [exact (cpld_last_call evs Hall)|]. split; [|split; [|split]].
  - intros k Hk. rewrite Hbits by lia. destruct (Z.ltb_spec k 16); [reflexivity|lia].
  - intros n level Hn. unfold cpld_step, pnv_lpc_irq_handler_cpld, MAX_ISA_IRQ.
    cbn [fst snd]. destruct (Z.leb_spec 16 n); [|lia]. cbn [fst snd].
    change (option_list (@None bool)) with (@nil bool). rewrite app_nil_r.
    destruct (cpld_run evs). reflexivity.
  - intros n level Hn.
    assert (Hall' : Forall (fun ev : Z * Z => 0 <= ev.1) (evs ++ [(n, level)])).
    { apply Forall_app. split; [exact Hall|]. constructor; [cbn [fst]; lia|constructor]. }
    pose proof (cpld_last_call _ Hall') as Hor.
    assert (Hrun : cpld_run (evs ++ [(n, level)]) = cpld_step (cpld_run evs) (n, level)).
    { unfold cpld_run. rewrite foldl_app. reflexivity. }
    rewrite Hrun in Hor |- *. unfold cpld_step in Hor |- *. cbn [fst snd] in Hor |- *.
    set (st := (cpld_run evs).1) in *.
    assert (Hhigh : forall j, 0 <= j -> Z.testbit st j = true -> j < 16).
    { intros j Hj E. rewrite Hbits in E by lia. destruct (Z.ltb_spec j 16); [lia|].
      discriminate. }
    assert (Hn_bit : Z.testbit st n = isa_line_level evs n).
    { rewrite Hbits by lia. destruct (Z.ltb_spec n 16); [reflexivity|lia]. }
    pose proof (fun k Hk => cpld_handler_bits st n level k ltac:(lia) Hk Hhigh) as Hb.
    destruct (pnv_lpc_irq_handler_cpld st n level).2 as [lv|] eqn:E.
    + change (option_list (Some lv)) with [lv] in Hor |- *.
      rewrite last_snoc in Hor. cbn [default] in Hor. rewrite <- Hor.
      destruct (Bool.eqb (negb (level =? 0)) (isa_line_level evs n)) eqn:Heq;
        [|reflexivity].
      exfalso. apply (cpld_handler_changed _ _ _ _ E).
      apply Z.bits_inj'. intros k Hk. rewrite (Hb k Hk).
      destruct (Z.ltb_spec n 16); [|lia]. cbn [andb].
      destruct (Z.eqb_spec k n) as [->|]; [|reflexivity].
      rewrite Hn_bit. apply Bool.eqb_prop. exact Heq.
    + change (option_list (@None bool)) with (@nil bool).
      pose proof (cpld_handler_quiet _ _ _ E) as Hq.
      pose proof (Hb n ltac:(lia)) as Hbn. rewrite Hq, Hn_bit in Hbn.
      destruct (Z.ltb_spec n 16); [|lia]. rewrite Z.eqb_refl in Hbn. cbn [andb] in Hbn.
      rewrite <- Hbn, Bool.eqb_reflx. reflexivity.
  - intros Hlow. rewrite (cpld_run_low evs Hlow). reflexivity.
Qed.

(** The example changes: the last level given to the PSI is low again,
    and raising line 4 once more calls the PSI after the four calls made
    so far. *)
Lemma cpld_psi_follows_lines_witness :
  default false (last (cpld_run example_isa_events).2) =
    existsb (isa_line_level example_isa_events) (seqZ 0 16) /\
  (cpld_run (example_isa_events ++ [(4, 1)])).2 = [true; true; true; false; true].
Proof.
  destruct (cpld_psi_follows_lines example_isa_events) as (H1 & _ & _ & H4 & _).
  - unfold example_isa_events. repeat constructor; cbn [fst]; lia.
  - split; [exact H1|]. exact (H4 4 1 ltac:(lia)).
Defined.
